(** * A read-only MySQL gateway: shallow embedding and verification

  The development follows the TypeScript sources of the gateway:
  - [src/connection-manager.ts]: the credential sanitizer, the error
    message of a failed connection, [executeQuery] with its row limit;
  - [src/tools/run-query.ts] and [src/tools/preview-data.ts]: the two limit
    enforcers, text truncation and the query built for a preview;
  - [src/tools/show-relations.ts]: the relationship classifier and the
    tool around it, with the view of the indexes the classifier asks
    (module [Catalog]);
  - [src/tools/list-tables.ts], [src/tools/describe-table.ts] and the order
    check of [src/tools/db-stats.ts].

  Conventions of the embedding.
  - A JavaScript string is a [string]: a sequence of characters with codes
    0..255 (the ISO-8859-1 part of UTF-16).  Character classes, case
    mapping and white space are the ECMAScript ones restricted to that
    range.
  - A JavaScript [number] that a caller passes (a limit, a row count to
    check) is a [jsnum]: NaN, one of the two infinities, or a finite
    number, taken as an integer; comparisons and sums follow IEEE 754 on
    these, and sums and printing are exact, as they are for the integers a
    row count can be.  The length of an array and a number in a cell of a
    result are a [Z].
  - Code that throws and talks to a connection pool runs in the monad [M]
    of module [Monad]: explicit state (the pools and the log of what was
    asked of them) and an outcome that is a value, a thrown [Error] or a
    promise still pending at the deadline.
  - The MySQL driver, the classifier imported by the manager and the
    conversions between strings, numbers and buffers are parameters of the
    sections that use them; the theorems hold for every one of them. *)

From Stdlib Require Import ZArith List Bool Ascii String Lia.
From Stdlib Require Import Decimal DecimalString Sorted.
Import ListNotations.

Local Open Scope string_scope.
Local Open Scope Z_scope.

(* ================================================================= *)
(** * Part I: definitions *)
(* ================================================================= *)

(** ** JavaScript strings *)

Module JsString.

Definition code (c : ascii) : N := N_of_ascii c.

Definition inRange (lo hi : N) (c : ascii) : bool :=
  (lo <=? code c)%N && (code c <=? hi)%N.

(** [\s] and [String.prototype.trim]: WhiteSpace and LineTerminator. *)
Definition isWhitespace (c : ascii) : bool :=
  inRange 9 13 c || (code c =? 32)%N || (code c =? 160)%N.

(** What [.] refuses. *)
Definition isLineTerminator (c : ascii) : bool :=
  (code c =? 10)%N || (code c =? 13)%N.

Definition isDigit (c : ascii) : bool := inRange 48 57 c.
Definition isUpper (c : ascii) : bool := inRange 65 90 c.
Definition isLower (c : ascii) : bool := inRange 97 122 c.
Definition isLetter (c : ascii) : bool := isUpper c || isLower c.

(** [\w], which also decides where [\b] holds. *)
Definition isWordChar (c : ascii) : bool :=
  isLetter c || isDigit c || (code c =? 95)%N.

(** Canonicalisation of a character under the [i] flag (no [u] flag), as far
    as the patterns of the gateway can tell: the upper case of an ASCII
    letter, the character itself otherwise.  ECMAScript never canonicalises
    a character above 127 to an ASCII one, and every literal and every class
    of the patterns is ASCII, so how characters above 127 pair up among
    themselves does not show. *)
Definition canon (c : ascii) : ascii :=
  if isLower c then ascii_of_N (code c - 32) else c.

Definition ciEq (a b : ascii) : bool := Ascii.eqb (canon a) (canon b).

(** The characters of [s] from index [n] on. *)
Fixpoint drop (n : nat) (s : string) : string :=
  match n, s with
  | O, _ => s
  | S _, EmptyString => EmptyString
  | S n', String _ s' => drop n' s'
  end.

(** Length of the longest prefix of [s] made of characters in [p]: what a
    greedy [[p]*] consumes. *)
Fixpoint span (p : ascii -> bool) (s : string) : nat :=
  match s with
  | String c s' => if p c then S (span p s') else O
  | EmptyString => O
  end.

Definition headIs (p : ascii -> bool) (s : string) : bool :=
  match s with
  | String c _ => p c
  | EmptyString => false
  end.

Fixpoint trimStart (s : string) : string :=
  match s with
  | String c s' => if isWhitespace c then trimStart s' else s
  | EmptyString => EmptyString
  end.

Fixpoint trimEnd (s : string) : string :=
  match s with
  | String c s' =>
      match trimEnd s' with
      | EmptyString => if isWhitespace c then EmptyString else String c EmptyString
      | r => String c r
      end
  | EmptyString => EmptyString
  end.

Definition trim (s : string) : string := trimEnd (trimStart s).

(** [String.prototype.toUpperCase], character by character.  In the
    modelled range one character grows: sharp s becomes [SS].  The upper
    cases of the micro sign and of y with diaeresis lie above 255; they are
    kept as they are, neither is an ASCII letter before or after. *)
Definition upperChar (c : ascii) : string :=
  if isLower c then String (ascii_of_N (code c - 32)) EmptyString
  else if (code c =? 223)%N then "SS"
  else if inRange 224 254 c && negb (code c =? 247)%N
       then String (ascii_of_N (code c - 32)) EmptyString
  else String c EmptyString.

Fixpoint toUpperCase (s : string) : string :=
  match s with
  | String c s' => upperChar c ++ toUpperCase s'
  | EmptyString => EmptyString
  end.

(** [s.startsWith(p)]. *)
Definition startsWith (p s : string) : bool := String.prefix p s.

(** [s.includes(p)]. *)
Fixpoint includes (p s : string) : bool :=
  String.prefix p s ||
  match s with
  | String _ s' => includes p s'
  | EmptyString => false
  end.

(** Consumes a literal of a regular expression under the [i] flag and
    returns what follows it. *)
Fixpoint ciPrefix (lit s : string) : option string :=
  match lit with
  | EmptyString => Some s
  | String k lit' =>
      match s with
      | String c s' => if ciEq k c then ciPrefix lit' s' else None
      | EmptyString => None
      end
  end.

(** The line feed, as a string. *)
Definition LF : string := String (ascii_of_N 10) EmptyString.

(** [String(n)] and template interpolation of an integer. *)
Definition ofZ (n : Z) : string := NilZero.string_of_int (Z.to_int n).

(** [parts.join(sep)]. *)
Fixpoint join (sep : string) (parts : list string) : string :=
  match parts with
  | [] => EmptyString
  | [p] => p
  | p :: rest => p ++ sep ++ join sep rest
  end.

Fixpoint filter (p : ascii -> bool) (s : string) : string :=
  match s with
  | String c s' => if p c then String c (filter p s') else filter p s'
  | EmptyString => EmptyString
  end.

(** The character [c] occurs in [s]. *)
Fixpoint occurs (c : ascii) (s : string) : Prop :=
  match s with
  | String d s' => d = c \/ occurs c s'
  | EmptyString => False
  end.

End JsString.

(** ** Values and limits *)

(** What a cell of a result row or a query parameter can hold. *)
Inductive jsval : Type :=
| JUndefined
| JNull
| JBool (b : bool)
| JNum (n : Z)
| JStr (s : string)
| JBuffer (bytes : list ascii).

(** A JavaScript [number] where the code compares it, adds to it or prints
    it: NaN, the two infinities, or a finite number.  The finite numbers
    are the integers, which is what row counts and limits are meant to be;
    a number with a fraction has no counterpart here. *)
Inductive jsnum : Type :=
| NaN
| PosInf
| NegInf
| Fin (z : Z).

Module JsNumber.

(** [a < b]: false as soon as one side is NaN. *)
Definition ltb (a b : jsnum) : bool :=
  match a, b with
  | NaN, _ | _, NaN => false
  | PosInf, _ => false
  | NegInf, NegInf => false
  | NegInf, _ => true
  | Fin _, PosInf => true
  | Fin _, NegInf => false
  | Fin x, Fin y => x <? y
  end.

(** [a > b]. *)
Definition gtb (a b : jsnum) : bool := ltb b a.

(** [a <= b]: false as soon as one side is NaN. *)
Definition leb (a b : jsnum) : bool :=
  match a, b with
  | NaN, _ | _, NaN => false
  | NegInf, _ => true
  | _, PosInf => true
  | PosInf, _ => false
  | Fin _, NegInf => false
  | Fin x, Fin y => x <=? y
  end.

(** [a + b]. *)
Definition add (a b : jsnum) : jsnum :=
  match a, b with
  | NaN, _ | _, NaN => NaN
  | PosInf, NegInf | NegInf, PosInf => NaN
  | PosInf, _ | _, PosInf => PosInf
  | NegInf, _ | _, NegInf => NegInf
  | Fin x, Fin y => Fin (x + y)
  end.

(** [String(n)] and the interpolation of [n] in a template. *)
Definition toString (n : jsnum) : string :=
  match n with
  | NaN => "NaN"
  | PosInf => "Infinity"
  | NegInf => "-Infinity"
  | Fin z => JsString.ofZ z
  end.

End JsNumber.

(** An optional numeric argument: [limit?: number], which callers may also
    pass as [null]. *)
Inductive optnum : Type :=
| Undefined
| Null
| Num (n : jsnum).

(** Modelled from the spec: the table [LIMITS] of [src/types.ts], a file that
    is not among the sources.  Section 6 of the specification: a preview
    defaults to 10 rows and is capped at 100, a free-form query defaults to
    1000 rows and is capped at 5000, a query times out after 30 seconds, text
    is cut beyond 200 characters. *)
Module LIMITS.
Definition PREVIEW_DEFAULT : Z := 10.
Definition PREVIEW_MAX : Z := 100.
Definition QUERY_DEFAULT : Z := 1000.
Definition QUERY_MAX : Z := 5000.
Definition TIMEOUT_MS : Z := 30000.
Definition TEXT_TRUNCATE : nat := 200.
End LIMITS.

(** ** [tools/run-query.ts] *)

Module RunQuery.

Definition enforceQueryLimit (requestedLimit : optnum) : jsnum :=
  match requestedLimit with
  | Undefined | Null => Fin LIMITS.QUERY_DEFAULT
  | Num n =>
      if JsNumber.ltb n (Fin 1) then Fin LIMITS.QUERY_DEFAULT
      else if JsNumber.gtb n (Fin LIMITS.QUERY_MAX) then Fin LIMITS.QUERY_MAX
      else n
  end.

End RunQuery.

(** ** [connection-manager.ts]: the credential sanitizer *)

Module Sanitizer.
Import JsString.

(** The replacement of every pattern. *)
Definition REDACTED : string := "[REDACTED]".

Definition isSep (c : ascii) : bool := (code c =? 61)%N || (code c =? 58)%N.
Definition isQuote (c : ascii) : bool := (code c =? 39)%N || (code c =? 34)%N.

(** The class that excludes both quotes and white space. *)
Definition isValue (c : ascii) : bool := negb (isQuote c) && negb (isWhitespace c).

Definition isColon (c : ascii) : bool := (code c =? 58)%N.
Definition isAt (c : ascii) : bool := (code c =? 64)%N.

(** The class of host names: letters, digits, dot and hyphen. *)
Definition isHost (c : ascii) : bool :=
  isLetter c || isDigit c || (code c =? 46)%N || (code c =? 45)%N.

(** A matcher gives the length of the match of one pattern that starts at
    the first character of its argument, if there is one. *)
Definition matcher : Type := string -> option nat.

(** The patterns [kw[=:]\s*[quote]?[value]+[quote]?] with flags [gi].  The
    greedy white space is followed by a character that is no white space.  If
    it is a quote it is taken as the optional quote and one value character
    must follow; giving the quote back cannot help, a quote is no value.
    Otherwise the value starts there.  The value then runs as far as it can
    and a closing quote is taken when there is one. *)
Definition kvMatchLen (kw : string) : matcher := fun s =>
  match ciPrefix kw s with
  | Some (String sep r) =>
      if isSep sep then
        let w := span isWhitespace r in
        let r1 := drop w r in
        let q := if headIs isQuote r1 then 1%nat else 0%nat in
        let r2 := drop q r1 in
        let v := span isValue r2 in
        let close := if headIs isQuote (drop v r2) then 1%nat else 0%nat in
        if (v =? 0)%nat then None
        else Some (String.length kw + 1 + w + q + v + close)%nat
      else None
  | _ => None
  end.

(** Index of the last at-sign among the first [n] characters of [r] that is
    not at index 0 and is followed by a host character; [i] is the index of
    the first character of [r].  A greedy [.+] gives characters back from the
    end of the line until such an at-sign follows it. *)
Fixpoint lastAt (n i : nat) (r : string) : option nat :=
  match n, r with
  | S n', String c r' =>
      match lastAt n' (S i) r' with
      | Some k => Some k
      | None =>
          if isAt c && negb (i =? 0)%nat && headIs isHost r' then Some i else None
      end
  | _, _ => None
  end.

(** The pattern [mysql:\/\/[^:]+:.+@[a-zA-Z0-9.-]+] with flags [gi]: the
    user runs up to the first colon (it may span lines), the password is cut
    at the last at-sign of its line that a host character follows. *)
Definition urlMatchLen : matcher := fun s =>
  match ciPrefix "mysql://" s with
  | Some r =>
      let u := span (fun c => negb (isColon c)) r in
      match u, drop u r with
      | S _, String _ r1 =>
          let line := span (fun c => negb (isLineTerminator c)) r1 in
          match lastAt line 0 r1 with
          | Some k =>
              Some (8 + u + 1 + k + 1 + span isHost (drop (S k) r1))%nat
          | None => None
          end
      | _, _ => None
      end
  | None => None
  end.

(** [s.replace(re, REDACTED)] for a global [re], read from the position
    where [skip] characters of the last match are still to be passed.  An
    empty match inserts the replacement and the scan moves one character
    on. *)
Fixpoint replaceFrom (m : matcher) (skip : nat) (s : string) : string :=
  match s with
  | EmptyString =>
      match skip, m EmptyString with
      | O, Some _ => REDACTED
      | _, _ => EmptyString
      end
  | String c s' =>
      match skip with
      | S k => replaceFrom m k s'
      | O =>
          match m s with
          | Some (S n) => REDACTED ++ replaceFrom m n s'
          | Some O => REDACTED ++ String c (replaceFrom m 0 s')
          | None => String c (replaceFrom m 0 s')
          end
      end
  end.

Definition replaceAll (m : matcher) (s : string) : string := replaceFrom m 0 s.

Definition KEYWORDS : list string := ["password"; "pwd"; "secret"; "token"; "key"].

Definition SENSITIVE_PATTERNS : list matcher :=
  (List.map kvMatchLen KEYWORDS ++ [urlMatchLen])%list.

Definition sanitizeMessage (message : string) : string :=
  fold_left (fun sanitized pattern => replaceAll pattern sanitized)
            SENSITIVE_PATTERNS message.

(** The pattern of [m] matches somewhere in [s] ([re.test(s)] for a pattern
    that does not look behind). *)
Fixpoint matchesIn (m : matcher) (s : string) : bool :=
  match m s with
  | Some _ => true
  | None =>
      match s with
      | String _ s' => matchesIn m s'
      | EmptyString => false
      end
  end.

(** *** Notions for the study of repeated passes *)

(** Every pattern of the sanitizer starts with a letter of its keyword, so a
    match is never empty and starts on a letter. *)
Definition letterStart (m : matcher) : Prop :=
  forall s n, m s = Some n -> n <> O /\ headIs isLetter s = true.

(** After the separator of a key pattern: white space, then a value
    character, or a quote followed by one. *)
Fixpoint valueAhead (r : string) : bool :=
  match r with
  | EmptyString => false
  | String c r' =>
      if isWhitespace c then valueAhead r'
      else if isQuote c then headIs isValue r'
      else true
  end.

Definition lettersOnly (kw : string) : Prop :=
  forall c, occurs c kw -> isLetter c = true.

(** No match of [m] starts inside a replacement. *)
Definition tokenClean (m : matcher) : Prop :=
  forall rest, matchesIn m (REDACTED ++ rest) = matchesIn m rest.

(** [mi] matches at no position that [mj] copies. *)
Fixpoint quiet (mi mj : matcher) (s : string) : Prop :=
  (mj s = None -> mi s = None) /\
  match s with
  | String _ s' => quiet mi mj s'
  | EmptyString => True
  end.

(** Replacing with the patterns [ps] one after the other. *)
Definition passes (ps : list matcher) (s : string) : string :=
  fold_left (fun sanitized pattern => replaceAll pattern sanitized) ps s.

End Sanitizer.

(** ** [connection-manager.ts]: pools, errors and queries *)

Inductive DatabaseType : Type := crm | operation.

Definition databaseName (database : DatabaseType) : string :=
  match database with
  | crm => "crm"
  | operation => "operation"
  end.

Record DatabaseConfig : Type := {
  name : string;
  host : string;
  port : Z;
  user : string;
  password : string;
  database : string
}.

(** The statement kinds a validated query can have. *)
Inductive StatementKind : Type := SELECT | SHOW | DESCRIBE | EXPLAIN.

Definition kindName (k : StatementKind) : string :=
  match k with
  | SELECT => "SELECT"
  | SHOW => "SHOW"
  | DESCRIBE => "DESCRIBE"
  | EXPLAIN => "EXPLAIN"
  end.

(** The result of [validate], as its callers read it: [valid], and the
    optional [queryType] and [error]. *)
Record ValidationResult : Type := {
  valid : bool;
  queryType : option StatementKind;
  error : option string
}.

(** A row maps column names to values, in column order. *)
Definition Row : Type := list (string * jsval).

Record FieldPacket : Type := { fieldName : string; fieldType : option Z }.
Record FieldInfo : Type := { infoName : string; infoType : string }.

Record QueryResult : Type := {
  rows : list Row;
  fields : list FieldInfo;
  rowCount : Z;
  truncated : bool
}.

(** A pool is built from a configuration and keeps it. *)
Record Pool : Type := { poolOptions : DatabaseConfig }.

(** What the gateway asks of a pool. *)
Inductive PoolRequest : Type :=
| GetConnection (pool : Pool)
| Release (pool : Pool)
| Execute (pool : Pool) (sql : string) (params : list jsval).

(** How the driver settles [pool.execute]: rows and field packets, an error
    with its message, or nothing before the deadline of the query. *)
Inductive Reply : Type :=
| Answer (answerRows : list Row) (answerFields : list FieldPacket)
| Fails (message : string)
| NoAnswer.

Module Monad.

(** How an awaited promise settles: a value, a thrown [Error] with its
    message, or not at all while the caller waits. *)
Inductive outcome (A : Type) : Type :=
| Returned (a : A)
| Thrown (message : string)
| Pending.
Arguments Returned {A} a.
Arguments Thrown {A} message.
Arguments Pending {A}.

(** The fields of a [ConnectionManager] and the requests made to pools so
    far, oldest first. *)
Record ManagerState : Type := {
  pools : DatabaseType -> option Pool;
  configs : DatabaseType -> option DatabaseConfig;
  requests : list PoolRequest
}.

Definition M (A : Type) : Type := ManagerState -> outcome A * ManagerState.

Definition ret {A : Type} (a : A) : M A := fun st => (Returned a, st).
Definition throw {A : Type} (message : string) : M A := fun st => (Thrown message, st).

Definition bind {A B : Type} (m : M A) (k : A -> M B) : M B := fun st =>
  match m st with
  | (Returned a, st') => k a st'
  | (Thrown message, st') => (Thrown message, st')
  | (Pending, st') => (Pending, st')
  end.

(** [try { m } catch (error) { handler(error.message) }]. *)
Definition tryCatch {A : Type} (m : M A) (handler : string -> M A) : M A := fun st =>
  match m st with
  | (Thrown message, st') => handler message st'
  | settled => settled
  end.

(** [Promise.race([m, timeoutPromise])]: a promise that has not settled at
    the deadline loses to the rejection of the timer. *)
Definition race {A : Type} (m : M A) (timeoutMessage : string) : M A := fun st =>
  match m st with
  | (Pending, st') => (Thrown timeoutMessage, st')
  | settled => settled
  end.

Definition ask (request : PoolRequest) : M unit := fun st =>
  (Returned tt,
   {| pools := pools st; configs := configs st;
      requests := (requests st ++ [request])%list |}).

Definition getState : M ManagerState := fun st => (Returned st, st).

End Monad.

Notation "x <- m ;; k" := (Monad.bind m (fun x => k))
  (at level 61, m at next level, right associativity).
Notation "m ;;; k" := (Monad.bind m (fun _ => k))
  (at level 61, right associativity).

Module ConnectionManager.
Import JsString Monad.

Definition sanitizeMessage : string -> string := Sanitizer.sanitizeMessage.

Definition createConnectionErrorMessage (config : DatabaseConfig) (errorMessage : string)
  : string :=
  let safeDetails :=
    name config ++ "@" ++ host config ++ ":" ++ ofZ (port config) ++ "/" ++ database config in
  let sanitizedError := sanitizeMessage errorMessage in
  "Database connection failed: " ++ safeDetails ++ " - " ++ sanitizedError.

(** [/\bLIMIT\s+\d+/i] at the first character of [s]; [prevWord] tells
    whether a word character stands before it. *)
Definition limitAt (prevWord : bool) (s : string) : bool :=
  negb prevWord &&
  match ciPrefix "LIMIT" s with
  | Some r =>
      let w := span isWhitespace r in
      negb (w =? 0)%nat && headIs isDigit (drop w r)
  | None => false
  end.

Fixpoint hasLimitFrom (prevWord : bool) (s : string) : bool :=
  limitAt prevWord s ||
  match s with
  | String c s' => hasLimitFrom (isWordChar c) s'
  | EmptyString => false
  end.

(** [/\bLIMIT\s+\d+/i.test(query)]. *)
Definition hasLimit (query : string) : bool := hasLimitFrom false query.

Definition addLimitToQuery (query : string) (limit : jsnum) : string :=
  let normalizedQuery := toUpperCase (trim query) in
  if hasLimit query then query
  else if startsWith "SHOW" normalizedQuery
          || startsWith "DESCRIBE" normalizedQuery
          || startsWith "EXPLAIN" normalizedQuery
  then query
  else trim query ++ " LIMIT " ++ JsNumber.toString limit.

Definition typeMap (typeNum : Z) : option string :=
  match typeNum with
  | 0 => Some "DECIMAL" | 1 => Some "TINYINT" | 2 => Some "SMALLINT"
  | 3 => Some "INT" | 4 => Some "FLOAT" | 5 => Some "DOUBLE"
  | 6 => Some "NULL" | 7 => Some "TIMESTAMP" | 8 => Some "BIGINT"
  | 9 => Some "MEDIUMINT" | 10 => Some "DATE" | 11 => Some "TIME"
  | 12 => Some "DATETIME" | 13 => Some "YEAR" | 14 => Some "NEWDATE"
  | 15 => Some "VARCHAR" | 16 => Some "BIT" | 245 => Some "JSON"
  | 246 => Some "NEWDECIMAL" | 247 => Some "ENUM" | 248 => Some "SET"
  | 249 => Some "TINY_BLOB" | 250 => Some "MEDIUM_BLOB"
  | 251 => Some "LONG_BLOB" | 252 => Some "BLOB"
  | 253 => Some "VAR_STRING" | 254 => Some "STRING" | 255 => Some "GEOMETRY"
  | _ => None
  end.

Definition getFieldTypeName (typeNum : option Z) : string :=
  match typeMap (match typeNum with Some n => n | None => 253 end) with
  | Some typeName => typeName
  | None => "UNKNOWN"
  end.

(** [rows.slice(0, limit)]: a negative end counts from the end, NaN counts
    as zero, and the infinities are the two ends. *)
Definition slice0 {A : Type} (l : list A) (limit : jsnum) : list A :=
  match limit with
  | Fin z =>
      if z <? 0
      then firstn (Z.to_nat (Z.max (Z.of_nat (List.length l) + z) 0)) l
      else firstn (Z.to_nat z) l
  | PosInf => l
  | NaN | NegInf => []
  end.

Definition timeoutMessage : string :=
  "Query exceeded " ++ ofZ (LIMITS.TIMEOUT_MS / 1000) ++ " second timeout limit".

(** The state once [request] has been made. *)
Definition asked (st : ManagerState) (request : PoolRequest) : ManagerState :=
  {| pools := pools st; configs := configs st;
     requests := (requests st ++ [request])%list |}.

(** The result [executeWithLimit] builds from the answer of the driver. *)
Definition shaped (answerRows : list Row) (answerFields : list FieldPacket) (limit : jsnum)
  : QueryResult :=
  let truncated := JsNumber.gtb (Fin (Z.of_nat (List.length answerRows))) limit in
  let resultRows := if truncated then slice0 answerRows limit else answerRows in
  {| rows := resultRows;
     fields := List.map (fun field => {| infoName := fieldName field;
                                         infoType := getFieldTypeName (fieldType field) |})
                        answerFields;
     rowCount := Z.of_nat (List.length resultRows);
     truncated := truncated |}.

Section Manager.

(** The classifier of [src/query-validator.ts], which the manager imports. *)
Variable validate : string -> ValidationResult.

(** The driver: [pool.getConnection()] gives a connection ([None]) or fails
    with a message, [pool.execute(sql, params)] settles with a [Reply]. *)
Variable getConnection : Pool -> option string.
Variable execute : Pool -> string -> list jsval -> Reply.

Definition createPool (config : DatabaseConfig) : Pool := {| poolOptions := config |}.

Definition initialize (crmConfig operationConfig : DatabaseConfig) : M unit := fun st =>
  let select (forCrm forOperation : DatabaseConfig) (d : DatabaseType) :=
    match d with crm => forCrm | operation => forOperation end in
  (Returned tt,
   {| pools := fun d => Some (createPool (select crmConfig operationConfig d));
      configs := fun d => Some (select crmConfig operationConfig d);
      requests := requests st |}).

Definition getPool (database : DatabaseType) : M Pool :=
  st <- getState ;;
  match pools st database with
  | Some pool => ret pool
  | None =>
      throw ("Connection pool not initialized for database: " ++ databaseName database)
  end.

Definition poolGetConnection (pool : Pool) : M unit :=
  ask (GetConnection pool) ;;;
  match getConnection pool with
  | None => ret tt
  | Some message => throw message
  end.

Definition poolExecute (pool : Pool) (sql : string) (params : list jsval)
  : M (list Row * list FieldPacket) :=
  ask (Execute pool sql params) ;;;
  match execute pool sql params with
  | Answer answerRows answerFields => ret (answerRows, answerFields)
  | Fails message => throw message
  | NoAnswer => fun st => (Pending, st)
  end.

Definition testConnection (database : DatabaseType) : M unit :=
  pool <- getPool database ;;
  st <- getState ;;
  let config := configs st database in
  tryCatch
    (poolGetConnection pool ;;; ask (Release pool))
    (fun errorMessage =>
       match config with
       | Some config => throw (createConnectionErrorMessage config errorMessage)
       | None => throw ("Database connection failed: " ++ databaseName database)
       end).

Definition executeWithLimit (pool : Pool) (query : string) (params : list jsval)
  (limit : jsnum) : M QueryResult :=
  let queryWithLimit := addLimitToQuery query (JsNumber.add limit (Fin 1)) in
  answer <- poolExecute pool queryWithLimit params ;;
  let (answerRows, answerFields) := answer in
  let truncated := JsNumber.gtb (Fin (Z.of_nat (List.length answerRows))) limit in
  let resultRows := if truncated then slice0 answerRows limit else answerRows in
  let fieldInfo :=
    List.map (fun field => {| infoName := fieldName field;
                              infoType := getFieldTypeName (fieldType field) |})
             answerFields in
  ret {| rows := resultRows;
         fields := fieldInfo;
         rowCount := Z.of_nat (List.length resultRows);
         truncated := truncated |}.

(** [validation.error || 'Invalid query']: an absent or empty reason gives
    the fallback. *)
Definition rejectionMessage (validation : ValidationResult) : string :=
  match error validation with
  | Some (String c reason) => String c reason
  | _ => "Invalid query"
  end.

Definition effectiveLimitOf (limit : optnum) : jsnum :=
  match limit with
  | Num n => n
  | Undefined | Null => Fin LIMITS.QUERY_DEFAULT
  end.

Definition executeQuery (database : DatabaseType) (query : string)
  (params : list jsval) (limit : optnum) : M QueryResult :=
  let validation := validate query in
  if negb (valid validation) then throw (rejectionMessage validation)
  else
    pool <- getPool database ;;
    let effectiveLimit := effectiveLimitOf limit in
    tryCatch
      (race (executeWithLimit pool query params effectiveLimit) timeoutMessage)
      (fun message => throw (sanitizeMessage message)).

End Manager.

End ConnectionManager.

(** The rows MySQL returns for the query [sent] when the query of the caller
    selects the rows [source]: all of them when the query was sent as it
    is, the first [k] of them when [LIMIT k] was appended to it. *)
Definition engineRows (query sent : string) (k : Z) (source : list Row) : list Row :=
  if String.eqb sent query then source else firstn (Z.to_nat k) source.

(** ** [tools/preview-data.ts] *)

Module PreviewData.
Import JsString Monad.

Record PreviewDataInput : Type := {
  table : string;
  inputDatabase : option DatabaseType;
  columns : option (list string);
  limit : optnum;
  where_ : option string
}.

Record PreviewDataOutput : Type := {
  outputTable : string;
  outputColumns : list string;
  outputRows : list Row;
  totalRows : Z;
  truncatedFields : list string
}.

Definition DEFAULT_DATABASE : DatabaseType := crm.

(** The class of [escapeSqlIdentifier]: backtick, both quotes, backslash and
    semicolon. *)
Definition isDangerous (c : ascii) : bool :=
  (code c =? 96)%N || (code c =? 39)%N || (code c =? 34)%N ||
  (code c =? 92)%N || (code c =? 59)%N.

Definition isSemicolon (c : ascii) : bool := (code c =? 59)%N.

Definition escapeSqlIdentifier (identifier : string) : string :=
  filter (fun c => negb (isDangerous c)) identifier.

Definition ellipsis : string := "...".

Definition truncateText (value : jsval) : jsval :=
  match value with
  | JStr s =>
      if (LIMITS.TEXT_TRUNCATE <? String.length s)%nat
      then JStr (String.substring 0 LIMITS.TEXT_TRUNCATE s ++ ellipsis)
      else value
  | _ => value
  end.

(** [s.endsWith(suffix)]. *)
Definition endsWith (suffix s : string) : bool :=
  String.eqb (drop (String.length s - String.length suffix) s) suffix
  && (String.length suffix <=? String.length s)%nat.

Definition isTruncated (original truncated : jsval) : bool :=
  match original, truncated with
  | JStr o, JStr t =>
      (LIMITS.TEXT_TRUNCATE <? String.length o)%nat && endsWith ellipsis t
  | _, _ => false
  end.

Definition enforceRowLimit (requestedLimit : optnum) : jsnum :=
  match requestedLimit with
  | Undefined | Null => Fin LIMITS.PREVIEW_DEFAULT
  | Num n =>
      if JsNumber.ltb n (Fin 1) then Fin LIMITS.PREVIEW_DEFAULT
      else if JsNumber.gtb n (Fin LIMITS.PREVIEW_MAX) then Fin LIMITS.PREVIEW_MAX
      else n
  end.

Definition quoteIdentifier (identifier : string) : string :=
  "`" ++ escapeSqlIdentifier identifier ++ "`".

Definition buildColumnList (columns : option (list string)) : string :=
  match columns with
  | None | Some [] => "*"
  | Some cols => join ", " (List.map quoteIdentifier cols)
  end.

Definition sanitizeWhereClause (where_ : option string) : option string :=
  match where_ with
  | None | Some EmptyString => None
  | Some text =>
      match trim text with
      | EmptyString => None
      | trimmed => Some (filter (fun c => negb (isSemicolon c)) trimmed)
      end
  end.

(** The query [previewData] builds before it calls the manager. *)
Definition previewQuery (input : PreviewDataInput) : string :=
  let tableName := table input in
  let limit := enforceRowLimit (limit input) in
  let columnList := buildColumnList (columns input) in
  let whereClause := sanitizeWhereClause (where_ input) in
  let query := "SELECT " ++ columnList ++ " FROM " ++ quoteIdentifier tableName in
  let query :=
    match whereClause with
    | Some (String c w) => query ++ " WHERE " ++ String c w
    | _ => query
    end in
  query ++ " LIMIT " ++ JsNumber.toString limit.

(** [set.add(key)] on a set kept in insertion order. *)
Definition addOnce (key : string) (set : list string) : list string :=
  if List.existsb (String.eqb key) set then set else (set ++ [key])%list.

Section Tool.
Variable validate : string -> ValidationResult.
Variable execute : Pool -> string -> list jsval -> Reply.

Definition previewData (input : PreviewDataInput) : M PreviewDataOutput :=
  let database := match inputDatabase input with Some d => d | None => DEFAULT_DATABASE end in
  let tableName := table input in
  let query := previewQuery input in
  tryCatch
    (result <- ConnectionManager.executeQuery validate execute database query [] Undefined ;;
     let processedRows :=
       List.map (List.map (fun cell => (fst cell, truncateText (snd cell)))) (rows result) in
     let truncatedFieldsSet :=
       fold_left
         (fun set row =>
            fold_left
              (fun set cell =>
                 if isTruncated (snd cell) (truncateText (snd cell))
                 then addOnce (fst cell) set else set)
              row set)
         (rows result) [] in
     let returnedColumns :=
       match rows result with
       | row :: _ => List.map fst row
       | [] => match columns input with Some cols => cols | None => [] end
       end in
     ret {| outputTable := tableName;
            outputColumns := returnedColumns;
            outputRows := processedRows;
            totalRows := Z.of_nat (List.length processedRows);
            truncatedFields := truncatedFieldsSet |})
    (fun errorMessage =>
       if includes "doesn't exist" errorMessage || includes "Unknown table" errorMessage
       then throw ("Table '" ++ tableName ++ "' does not exist in database '"
                   ++ databaseName database ++ "'")
       else throw errorMessage).

End Tool.

End PreviewData.

(** ** [tools/show-relations.ts]: the relationship classifier *)

Module ShowRelations.
Import JsString Monad.

Inductive RelationType : Type := OneToOne | OneToMany.

Definition relationTypeName (r : RelationType) : string :=
  match r with
  | OneToOne => "one-to-one"
  | OneToMany => "one-to-many"
  end.

(** The query of [determineRelationType], line by line. *)
Definition uniqueQuery : string :=
  LF ++ "    SELECT COUNT(*) as unique_count" ++
  LF ++ "    FROM INFORMATION_SCHEMA.STATISTICS" ++
  LF ++ "    WHERE TABLE_SCHEMA = DATABASE()" ++
  LF ++ "      AND TABLE_NAME = ?" ++
  LF ++ "      AND COLUMN_NAME = ?" ++
  LF ++ "      AND NON_UNIQUE = 0" ++
  LF ++ "  ".

(** [row.key], [undefined] when the row has no such column. *)
Fixpoint property (key : string) (row : Row) : jsval :=
  match row with
  | [] => JUndefined
  | (k, v) :: row' => if String.eqb k key then v else property key row'
  end.

Definition falsy (v : jsval) : bool :=
  match v with
  | JUndefined | JNull | JBool false | JNum 0 | JStr EmptyString => true
  | _ => false
  end.

(** [v || 0]. *)
Definition orZero (v : jsval) : jsval := if falsy v then JNum 0 else v.

Section Tool.
Variable validate : string -> ValidationResult.
Variable execute : Pool -> string -> list jsval -> Reply.

(** The conversion of a string to a number by the JavaScript runtime, on
    the integers; [None] is NaN. *)
Variable stringToNumber : string -> option Z.

(** [Number(v)]; [None] is NaN. *)
Definition toNumber (v : jsval) : option Z :=
  match v with
  | JUndefined => None
  | JNull => Some 0
  | JBool b => Some (if b then 1 else 0)
  | JNum n => Some n
  | JStr s => stringToNumber s
  | JBuffer bytes => stringToNumber (string_of_list_ascii bytes)
  end.

(** [uniqueCount > 0], false for NaN. *)
Definition positive (n : option Z) : bool :=
  match n with
  | Some n => 0 <? n
  | None => false
  end.

Definition determineRelationType (database : DatabaseType) (tableName columnName : string)
  : M RelationType :=
  tryCatch
    (result <- ConnectionManager.executeQuery validate execute database uniqueQuery
                 [JStr tableName; JStr columnName] Undefined ;;
     match rows result with
     | row :: _ =>
         let uniqueCount := toNumber (orZero (property "unique_count" row)) in
         ret (if positive uniqueCount then OneToOne else OneToMany)
     | [] => ret OneToMany
     end)
    (fun _ => ret OneToMany).

End Tool.

End ShowRelations.

(** ** [INFORMATION_SCHEMA.STATISTICS], as far as the classifier asks *)

(** The view of the indexes of the current schema and a server that answers
    counting statements over it.  The server reads the statement it is
    sent: the words of the text decide what is counted. *)
Module Catalog.
Import JsString.

(** A row of the view: one column of one index. *)
Record StatisticsRow : Type := {
  TABLE_NAME : string;
  INDEX_NAME : string;
  SEQ_IN_INDEX : Z;
  COLUMN_NAME : string;
  NON_UNIQUE : Z
}.

(** The words of a statement: its longest runs without white space. *)
Fixpoint wordsFrom (word : string) (sql : string) : list string :=
  match sql with
  | EmptyString =>
      match word with
      | EmptyString => []
      | _ => [word]
      end
  | String c sql' =>
      if isWhitespace c then
        match word with
        | EmptyString => wordsFrom EmptyString sql'
        | _ => word :: wordsFrom EmptyString sql'
        end
      else wordsFrom (word ++ String c EmptyString) sql'
  end.

Definition words (sql : string) : list string := wordsFrom EmptyString sql.

(** A statement that counts the rows of the view of the current schema
    which meet every comparison of a column with a value, under a name for
    the count, and with the LIMIT it may end with. *)
Record CountStatement : Type := {
  countName : string;
  comparisons : list (string * jsval);
  rowLimit : option Z
}.

Definition isKeyword (keyword word : string) : bool :=
  String.eqb (toUpperCase word) keyword.

Definition COLUMNS : list string :=
  ["TABLE_NAME"; "INDEX_NAME"; "SEQ_IN_INDEX"; "COLUMN_NAME"; "NON_UNIQUE"].

Definition isColumn (word : string) : bool :=
  existsb (String.eqb (toUpperCase word)) COLUMNS.

(** The value a comparison names: a placeholder stands for the next
    parameter, digits for a number. *)
Definition valueOf (word : string) (params : list jsval) : option (jsval * list jsval) :=
  if String.eqb word "?" then
    match params with
    | value :: params' => Some (value, params')
    | [] => None
    end
  else
    match NilZero.uint_of_string word with
    | Some digits => Some (JNum (Z.of_uint digits), params)
    | None => None
    end.

(** The comparisons after the one of the schema, each introduced by AND, up
    to the end of the statement or its LIMIT; every parameter must be used. *)
Fixpoint readComparisons (sqlWords : list string) (params : list jsval)
  : option (list (string * jsval) * option Z) :=
  match sqlWords with
  | [] =>
      match params with
      | [] => Some ([], None)
      | _ => None
      end
  | first :: rest1 =>
      match rest1 with
      | [] => None
      | second :: rest2 =>
          if isKeyword "LIMIT" first then
            match rest2, params, NilZero.uint_of_string second with
            | [], [], Some digits => Some ([], Some (Z.of_uint digits))
            | _, _, _ => None
            end
          else
            match rest2 with
            | third :: fourth :: rest4 =>
                if isKeyword "AND" first && isColumn second && String.eqb third "=" then
                  match valueOf fourth params with
                  | Some (value, params') =>
                      match readComparisons rest4 params' with
                      | Some (more, rowLimit) =>
                          Some ((toUpperCase second, value) :: more, rowLimit)
                      | None => None
                      end
                  | None => None
                  end
                else None
            | _ => None
            end
      end
  end.

Definition readStatement (sql : string) (params : list jsval) : option CountStatement :=
  match words sql with
  | select :: count :: as_ :: name :: from :: view :: where_ :: schema :: equals :: current
      :: rest =>
      if isKeyword "SELECT" select && isKeyword "COUNT(*)" count && isKeyword "AS" as_ &&
         isKeyword "FROM" from && isKeyword "INFORMATION_SCHEMA.STATISTICS" view &&
         isKeyword "WHERE" where_ && isKeyword "TABLE_SCHEMA" schema &&
         String.eqb equals "=" && isKeyword "DATABASE()" current
      then
        match readComparisons rest params with
        | Some (read, limit) =>
            Some {| countName := name; comparisons := read; rowLimit := limit |}
        | None => None
        end
      else None
  | _ => None
  end.

Definition cell (column : string) (r : StatisticsRow) : jsval :=
  if String.eqb column "TABLE_NAME" then JStr (TABLE_NAME r)
  else if String.eqb column "INDEX_NAME" then JStr (INDEX_NAME r)
  else if String.eqb column "SEQ_IN_INDEX" then JNum (SEQ_IN_INDEX r)
  else if String.eqb column "COLUMN_NAME" then JStr (COLUMN_NAME r)
  else if String.eqb column "NON_UNIQUE" then JNum (NON_UNIQUE r)
  else JUndefined.

(** Equality of a cell and a value: names as they are spelled, numbers by
    their value. *)
Definition sameValue (a b : jsval) : bool :=
  match a, b with
  | JStr x, JStr y => String.eqb x y
  | JNum x, JNum y => x =? y
  | _, _ => false
  end.

Definition meets (r : StatisticsRow) (comparison : string * jsval) : bool :=
  sameValue (cell (fst comparison) r) (snd comparison).

Definition counted (statistics : list StatisticsRow) (statement : CountStatement) : Z :=
  Z.of_nat (List.length
    (List.filter (fun r => forallb (meets r) (comparisons statement)) statistics)).

(** The rows of the answer: the one row of the count, unless a LIMIT of no
    rows cuts it off. *)
Definition answerOf (statistics : list StatisticsRow) (statement : CountStatement)
  : list Row :=
  let answer := [[(countName statement, JNum (counted statistics statement))]] in
  match rowLimit statement with
  | Some n => firstn (Z.to_nat n) answer
  | None => answer
  end.

(** The server: a statement it can read is answered with its count, any
    other text is an error. *)
Definition server (statistics : list StatisticsRow) : Pool -> string -> list jsval -> Reply :=
  fun _ sql params =>
    match readStatement sql params with
    | Some statement => Answer (answerOf statistics statement) []
    | None => Fails "You have an error in your SQL syntax"
    end.

(** A unique entry of the view for the column. *)
Definition isUniqueEntry (tableName columnName : string) (r : StatisticsRow) : bool :=
  String.eqb (TABLE_NAME r) tableName && String.eqb (COLUMN_NAME r) columnName
  && (NON_UNIQUE r =? 0).

(** The column is one of the columns of some unique index of the table. *)
Definition inUniqueIndex (statistics : list StatisticsRow) (tableName columnName : string)
  : Prop :=
  exists r, In r statistics /\ TABLE_NAME r = tableName /\
            COLUMN_NAME r = columnName /\ NON_UNIQUE r = 0.

(** The columns of an index of a table, in the order of the rows. *)
Definition indexColumns (statistics : list StatisticsRow) (tableName indexName : string)
  : list string :=
  List.map COLUMN_NAME
    (List.filter
       (fun r => String.eqb (TABLE_NAME r) tableName && String.eqb (INDEX_NAME r) indexName)
       statistics).

(** The column carries a unique constraint: some unique index of the table
    is an index on this column and no other, so that no two rows of the
    table agree on the column. *)
Definition carriesUniqueConstraint (statistics : list StatisticsRow)
  (tableName columnName : string) : bool :=
  existsb
    (fun r =>
       String.eqb (TABLE_NAME r) tableName && (NON_UNIQUE r =? 0) &&
       match indexColumns statistics tableName (INDEX_NAME r) with
       | [column] => String.eqb column columnName
       | _ => false
       end)
    statistics.

End Catalog.

(** ** The query classifier *)

(** Modelled from the spec: the classifier [validate] of
    [src/query-validator.ts], a file that is not among the sources (its
    property tests and its callers are).  Section 4.1 of the specification:
    the text is normalised by stripping leading and trailing white space and
    leading line and block comments; the leading keyword must be one of
    SELECT, SHOW, DESCRIBE and EXPLAIN, whatever its case; the whole
    normalised text is scanned for a forbidden keyword standing as a word of
    its own, whatever its case; an accepted query carries its statement
    kind.  The specification words one rejection reason, for a leading
    keyword that is not allowed; the reason given for a forbidden keyword is
    this model's. *)
Module QueryValidator.
Import JsString.

Definition ALLOWED_STATEMENTS : list StatementKind := [SELECT; SHOW; DESCRIBE; EXPLAIN].

Definition FORBIDDEN_KEYWORDS : list string :=
  ["INSERT"; "UPDATE"; "DELETE"; "DROP"; "ALTER"; "TRUNCATE";
   "CREATE"; "REPLACE"; "GRANT"; "REVOKE"; "LOCK"; "UNLOCK"].

(** Where the scan for the first token stands: in the statement, behind the
    first character of an opener or a closer, or inside a comment. *)
Inductive Scan : Type :=
| InCode
| InLineComment
| OpeningBlock
| InBlockComment
| ClosingBlock.

Definition isDash (c : ascii) : bool := (code c =? 45)%N.
Definition isSlash (c : ascii) : bool := (code c =? 47)%N.
Definition isStar (c : ascii) : bool := (code c =? 42)%N.

(** Drops leading white space, line comments (two dashes up to the end of
    the line) and block comments (up to the closing star and slash, or up
    to the end of the text when the comment is not closed). *)
Fixpoint stripLeading (mode : Scan) (s : string) : string :=
  match s with
  | EmptyString => EmptyString
  | String c s' =>
      match mode with
      | InCode =>
          if isWhitespace c then stripLeading InCode s'
          else if isDash c && headIs isDash s' then stripLeading InLineComment s'
          else if isSlash c && headIs isStar s' then stripLeading OpeningBlock s'
          else s
      | InLineComment =>
          if isLineTerminator c then stripLeading InCode s'
          else stripLeading InLineComment s'
      | OpeningBlock => stripLeading InBlockComment s'
      | InBlockComment =>
          if isStar c && headIs isSlash s' then stripLeading ClosingBlock s'
          else stripLeading InBlockComment s'
      | ClosingBlock => stripLeading InCode s'
      end
  end.

Definition normalize (text : string) : string := trimEnd (stripLeading InCode text).

(** The first token: the longest run of word characters at the start. *)
Definition leadingKeyword (normalized : string) : string :=
  String.substring 0 (span isWordChar normalized) normalized.

(** [word] is [keyword] up to the case of its letters. *)
Definition ciEqb (keyword word : string) : bool :=
  match ciPrefix keyword word with
  | Some EmptyString => true
  | _ => false
  end.

Definition statementKind (word : string) : option StatementKind :=
  List.find (fun k => ciEqb (kindName k) word) ALLOWED_STATEMENTS.

(** [keyword] stands at the first character of [s] as a word of its own;
    [prevWord] tells whether a word character stands before it. *)
Definition wordAt (keyword : string) (prevWord : bool) (s : string) : bool :=
  negb prevWord &&
  match ciPrefix keyword s with
  | Some r => negb (headIs isWordChar r)
  | None => false
  end.

Fixpoint containsWordFrom (keyword : string) (prevWord : bool) (s : string) : bool :=
  wordAt keyword prevWord s ||
  match s with
  | String c s' => containsWordFrom keyword (isWordChar c) s'
  | EmptyString => false
  end.

Definition containsWord (keyword text : string) : bool :=
  containsWordFrom keyword false text.

Definition forbiddenKeyword (text : string) : option string :=
  List.find (fun keyword => containsWord keyword text) FORBIDDEN_KEYWORDS.

Definition reject (reason : string) : ValidationResult :=
  {| valid := false; queryType := None; error := Some reason |}.

(** Modelled from the spec: [validate] of [src/query-validator.ts], after
    the contract of section 4.1 and the properties of section 8.  The
    leading keyword is read from the normalized text.  The scan for the
    forbidden keywords reads the text as it was given: a forbidden word
    rejects the query wherever it stands, also inside a comment in front of
    the statement, which normalizing would drop. *)
Definition validate (text : string) : ValidationResult :=
  let normalized := normalize text in
  match statementKind (leadingKeyword normalized) with
  | None => reject "only read-only statements are allowed"
  | Some kind =>
      match forbiddenKeyword text with
      | Some keyword => reject ("forbidden keyword: " ++ keyword)
      | None => {| valid := true; queryType := Some kind; error := None |}
      end
  end.

Definition isReadOnly (text : string) : bool := valid (validate text).

End QueryValidator.

(** ** Notions the statements use *)

Module Words.
Import JsString.

(** [a] and [b] are the same word up to the case of ASCII letters. *)
Fixpoint sameWord (a b : string) : Prop :=
  match a, b with
  | EmptyString, EmptyString => True
  | String x a', String y b' => ciEq x y = true /\ sameWord a' b'
  | _, _ => False
  end.

(** The last character of [prefix] is a word character; [before] answers
    for the empty prefix. *)
Fixpoint endsInWordChar (before : bool) (prefix : string) : bool :=
  match prefix with
  | EmptyString => before
  | String c prefix' => endsInWordChar (isWordChar c) prefix'
  end.

(** [keyword] occurs in [text] as a word of its own, in any case: no word
    character stands right before or right after the occurrence. *)
Definition occursAsWord (keyword text : string) : Prop :=
  exists before word after,
    text = before ++ word ++ after /\
    sameWord keyword word /\
    endsInWordChar false before = false /\
    headIs isWordChar after = false.

Fixpoint allWordChars (s : string) : Prop :=
  match s with
  | EmptyString => True
  | String c s' => isWordChar c = true /\ allWordChars s'
  end.

(** [word] is the leading keyword of [text]: the word characters [text]
    starts with, up to the first character that is none. *)
Definition leadingWord (text word : string) : Prop :=
  exists rest,
    text = word ++ rest /\ allWordChars word /\ headIs isWordChar rest = false.

(** [part] occurs in [text]. *)
Definition occursIn (part text : string) : Prop :=
  exists before after, text = before ++ part ++ after.

(** No character of [body] ends a line. *)
Definition noLineEnd (body : string) : Prop :=
  forall c, occurs c body -> isLineTerminator c = false.

(** What stands in front of a statement and is skipped: white space, line
    comments (two dashes, then the line up to and with its end) and block
    comments (from slash-star to the first star-slash after it), in any
    number and order. *)
Inductive skipped : string -> Prop :=
| skipped_nothing : skipped EmptyString
| skipped_space (c : ascii) (rest : string) :
    isWhitespace c = true -> skipped rest -> skipped (String c rest)
| skipped_line (body : string) (c : ascii) (rest : string) :
    noLineEnd body -> isLineTerminator c = true -> skipped rest ->
    skipped ("--" ++ body ++ String c rest)
| skipped_block (body rest : string) :
    includes "*/" body = false -> skipped rest ->
    skipped ("/*" ++ body ++ "*/" ++ rest).

(** A text with nothing in it but white space and comments, the last of
    which may be left open. *)
Definition onlyComments (text : string) : Prop :=
  exists lead tail,
    text = lead ++ tail /\ skipped lead /\
    (tail = EmptyString \/
     (exists body, tail = "--" ++ body /\ noLineEnd body) \/
     (exists body, tail = "/*" ++ body /\ includes "*/" body = false)).

End Words.

Module Clauses.
Import JsString Words.

Fixpoint allWhitespace (s : string) : Prop :=
  match s with
  | EmptyString => True
  | String c s' => isWhitespace c = true /\ allWhitespace s'
  end.

(** The text holds the word LIMIT, in any case and with no word character
    right before it, then white space, then a digit. *)
Definition limitClauseIn (query : string) : Prop :=
  exists before word spaces digit after,
    query = before ++ word ++ spaces ++ String digit after /\
    sameWord "LIMIT" word /\
    endsInWordChar false before = false /\
    spaces <> EmptyString /\ allWhitespace spaces /\
    isDigit digit = true.

(** The text starts with [keyword], in any case. *)
Definition startsWithWord (keyword text : string) : Prop :=
  exists word rest, text = word ++ rest /\ sameWord keyword word.

(** The statements that never get a LIMIT appended. *)
Definition UNLIMITED : list string := ["SHOW"; "DESCRIBE"; "EXPLAIN"].

(** A keyword in upper case letters where an S is followed by a letter
    other than S: the upper case of no single character spells part of it
    with more than one letter. *)
Fixpoint plainKeyword (keyword : string) : Prop :=
  match keyword with
  | EmptyString => True
  | String k keyword' =>
      isUpper k = true /\
      (k = "S"%char -> headIs (fun d => negb (Ascii.eqb d "S")) keyword' = true) /\
      plainKeyword keyword'
  end.

Fixpoint allUpper (s : string) : Prop :=
  match s with
  | EmptyString => True
  | String c s' => isUpper c = true /\ allUpper s'
  end.




End Clauses.

(** ** A configuration, a manager and a server to run the model on *)

Module Sample.
Import Monad.

Definition config : DatabaseConfig :=
  {| name := "crm"; host := "db1"; port := 3306; user := "app";
     password := "secret123"; database := "shop" |}.

Definition fresh : ManagerState :=
  {| pools := fun _ => None; configs := fun _ => None; requests := [] |}.

(** The manager once [initialize] has built its two pools. *)
Definition ready : ManagerState :=
  snd (ConnectionManager.initialize config config fresh).

(** A table of [n] rows. *)
Definition table (n : nat) : list Row :=
  List.map (fun i => [("id", JNum (Z.of_nat i))]) (seq 1 n).

(** A server for one query: [source] is what [query] selects, and the rows
    sent back follow the LIMIT the gateway may have appended. *)
Definition server (query : string) (k : Z) (source : list Row)
  : Pool -> string -> list jsval -> Reply :=
  fun _ sent _ => Answer (engineRows query sent k source) [].

(** The indexes of a schema of orders: the lines of an order have the
    order and the product as their primary key and an index on the product;
    a profile belongs to one user. *)
Definition shopIndexes : list Catalog.StatisticsRow :=
  [ {| Catalog.TABLE_NAME := "order_items"; Catalog.INDEX_NAME := "PRIMARY";
       Catalog.SEQ_IN_INDEX := 1; Catalog.COLUMN_NAME := "order_id";
       Catalog.NON_UNIQUE := 0 |};
    {| Catalog.TABLE_NAME := "order_items"; Catalog.INDEX_NAME := "PRIMARY";
       Catalog.SEQ_IN_INDEX := 2; Catalog.COLUMN_NAME := "product_id";
       Catalog.NON_UNIQUE := 0 |};
    {| Catalog.TABLE_NAME := "order_items"; Catalog.INDEX_NAME := "fk_product";
       Catalog.SEQ_IN_INDEX := 1; Catalog.COLUMN_NAME := "product_id";
       Catalog.NON_UNIQUE := 1 |};
    {| Catalog.TABLE_NAME := "profiles"; Catalog.INDEX_NAME := "PRIMARY";
       Catalog.SEQ_IN_INDEX := 1; Catalog.COLUMN_NAME := "id";
       Catalog.NON_UNIQUE := 0 |};
    {| Catalog.TABLE_NAME := "profiles"; Catalog.INDEX_NAME := "uq_user";
       Catalog.SEQ_IN_INDEX := 1; Catalog.COLUMN_NAME := "user_id";
       Catalog.NON_UNIQUE := 0 |} ].

(** A runtime that reads no number from a string. *)
Definition noNumber : string -> option Z := fun _ => None.

(** A preview whose WHERE text ends in the two dashes of a line comment. *)
Definition commentedPreview : PreviewData.PreviewDataInput :=
  {| PreviewData.table := "users"; PreviewData.inputDatabase := None;
     PreviewData.columns := None; PreviewData.limit := Undefined;
     PreviewData.where_ := Some "1=1 --" |}.

(** A message with a connection URL inside the user part of another, the
    inner one with a line feed in its user part and one after its host. *)
Definition nestedUrl : string :=
  "mysql://mysql://a" ++ JsString.LF ++ "b:c@d" ++ JsString.LF ++ ":e@f".

End Sample.

(** ** [tools/run-query.ts]: the tool and its checks *)

Module RunQueryTool.
Import JsString Monad.

Record RunQueryInput : Type := {
  query : string;
  inputDatabase : option DatabaseType;
  limit : optnum
}.

Record RunQueryOutput : Type := {
  outputColumns : list string;
  outputRows : list Row;
  outputRowCount : Z;
  outputTruncated : bool;
  executionTime : Z
}.

Definition DEFAULT_DATABASE : DatabaseType := crm.

Definition isTruncationFlagConsistent (actualRowCount limit : jsnum) (truncated : bool)
  : bool :=
  if truncated then true else JsNumber.leb actualRowCount limit.

(** [validation.error || 'Query validation failed']. *)
Definition validationMessage (validation : ValidationResult) : string :=
  match error validation with
  | Some (String c reason) => String c reason
  | _ => "Query validation failed"
  end.

Section Tool.
Variable validate : string -> ValidationResult.
Variable execute : Pool -> string -> list jsval -> Reply.

(** What [Date.now()] gives before and after the query. *)
Variable startTime endTime : Z.

Definition runQuery (input : RunQueryInput) : M RunQueryOutput :=
  let database := match inputDatabase input with Some d => d | None => DEFAULT_DATABASE end in
  let query := query input in
  let limit := RunQuery.enforceQueryLimit (limit input) in
  let validation := validate query in
  if negb (valid validation) then throw (validationMessage validation)
  else
    tryCatch
      (result <- ConnectionManager.executeQuery validate execute database query [] (Num limit) ;;
       let executionTime := endTime - startTime in
       let columns := List.map infoName (fields result) in
       ret {| outputColumns := columns;
              outputRows := rows result;
              outputRowCount := rowCount result;
              outputTruncated := truncated result;
              executionTime := executionTime |})
      (fun errorMessage => throw ("Query execution failed: " ++ errorMessage)).

End Tool.

End RunQueryTool.

(** ** [tools/preview-data.ts]: the check of the returned columns *)

Module PreviewChecks.
Import JsString.

(** [String.prototype.toLowerCase], character by character: the ASCII
    capitals and the accented capitals of the modelled range, the
    multiplication sign apart. *)
Definition lowerChar (c : ascii) : ascii :=
  if isUpper c then ascii_of_N (code c + 32)
  else if inRange 192 222 c && negb (code c =? 215)%N then ascii_of_N (code c + 32)
  else c.

Fixpoint toLowerCase (s : string) : string :=
  match s with
  | String c s' => String (lowerChar c) (toLowerCase s')
  | EmptyString => EmptyString
  end.

(** [Object.keys(row)]. *)
Definition keys (row : Row) : list string := List.map fst row.

Definition rowsContainOnlySpecifiedColumns (rows : list Row) (specifiedColumns : list string)
  : bool :=
  match rows with
  | [] => true
  | _ =>
      let specifiedSet := List.map toLowerCase specifiedColumns in
      List.forallb
        (fun row =>
           List.forallb
             (fun col => List.existsb (String.eqb (toLowerCase col)) specifiedSet)
             (keys row))
        rows
  end.

End PreviewChecks.

(** ** [tools/db-stats.ts]: the order check *)

Module DbStats.

Record TableStat : Type := {
  statTable : string;
  statRows : jsnum;
  statSize : string
}.

(** The loop compares every entry with the one before it. *)
Fixpoint isDescendingByRows (stats : list TableStat) : bool :=
  match stats with
  | previous :: (current :: _) as rest =>
      if JsNumber.gtb (statRows current) (statRows previous) then false
      else isDescendingByRows rest
  | _ => true
  end.

End DbStats.

(** ** Conversions the tools apply to the cells of a row *)

Module Convert.

Section Conversions.
(** [String(n)] for a number and [String(b)] for a [Buffer]: the decimal
    or exponent form the runtime chooses, and the decoding of the bytes. *)
Variable numberToString : Z -> string.
Variable bufferToString : list ascii -> string.

(** [String(v)]. *)
Definition toStr (v : jsval) : string :=
  match v with
  | JUndefined => "undefined"
  | JNull => "null"
  | JBool true => "true"
  | JBool false => "false"
  | JNum n => numberToString n
  | JStr s => s
  | JBuffer bytes => bufferToString bytes
  end.

(** [String(v || fallback)]. *)
Definition strOr (fallback : string) (v : jsval) : string :=
  if ShowRelations.falsy v then fallback else toStr v.

End Conversions.

(** [Number(v) || 0] once [Number(v)] is known: NaN and zero give zero. *)
Definition orZeroNumber (n : option Z) : Z :=
  match n with
  | Some n => n
  | None => 0
  end.

(** The loop [for (const a of l) { out.push(await f(a)) }]. *)
Fixpoint forEach {A B : Type} (f : A -> Monad.M B) (l : list A) : Monad.M (list B) :=
  match l with
  | [] => Monad.ret []
  | a :: l' =>
      b <- f a ;;
      bs <- forEach f l' ;;
      Monad.ret (b :: bs)
  end.

End Convert.

(** ** [tools/list-tables.ts] *)

Module ListTables.
Import JsString Monad.

Inductive TableType : Type := BaseTable | View.

Definition tableTypeName (t : TableType) : string :=
  match t with
  | BaseTable => "BASE TABLE"
  | View => "VIEW"
  end.

Record TableInfo : Type := {
  tableName : string;
  tableType : TableType;
  tableRowCount : Z;
  engine : string
}.

Record ListTablesOutput : Type := {
  tables : list TableInfo;
  outputDatabase : string
}.

Definition DEFAULT_DATABASE : DatabaseType := crm.

Definition determineTableType (row : Row) : TableType :=
  match ShowRelations.property "Engine" row with
  | JNull | JUndefined => View
  | _ => BaseTable
  end.

Section Tool.
Variable validate : string -> ValidationResult.
Variable execute : Pool -> string -> list jsval -> Reply.
Variable stringToNumber : string -> option Z.
Variable numberToString : Z -> string.
Variable bufferToString : list ascii -> string.

Definition tableInfoOf (row : Row) : TableInfo :=
  {| tableName :=
       Convert.strOr numberToString bufferToString EmptyString
         (ShowRelations.property "Name" row);
     tableType := determineTableType row;
     tableRowCount :=
       Convert.orZeroNumber
         (ShowRelations.toNumber stringToNumber (ShowRelations.property "Rows" row));
     engine :=
       Convert.strOr numberToString bufferToString "N/A"
         (ShowRelations.property "Engine" row) |}.

Definition listTables (inputDatabase : option DatabaseType) : M ListTablesOutput :=
  let database := match inputDatabase with Some d => d | None => DEFAULT_DATABASE end in
  let query := "SHOW TABLE STATUS" in
  result <- ConnectionManager.executeQuery validate execute database query [] Undefined ;;
  let tables := List.map tableInfoOf (rows result) in
  ret {| tables := tables; outputDatabase := databaseName database |}.

End Tool.

End ListTables.

(** ** [tools/describe-table.ts] *)

Module DescribeTable.
Import JsString Monad.

Record ColumnInfo : Type := {
  columnName : string;
  columnType : string;
  nullable : bool;
  default : option string;
  extra : string;
  comment : string
}.

Record ForeignKeyInfo : Type := {
  foreignKeyName : string;
  foreignKeyColumn : string;
  referencedTable : string;
  referencedColumn : string
}.

Record IndexInfo : Type := {
  indexName : string;
  indexColumns : list string;
  unique : bool;
  indexType : string
}.

Record DescribeTableOutput : Type := {
  outputTable : string;
  columns : list ColumnInfo;
  primaryKey : list string;
  foreignKeys : list ForeignKeyInfo;
  indexes : list IndexInfo
}.

Definition DEFAULT_DATABASE : DatabaseType := crm.

(** The copy of [escapeSqlIdentifier] this file has: the same class. *)
Definition escapeSqlIdentifier (identifier : string) : string :=
  filter (fun c => negb (PreviewData.isDangerous c)) identifier.

Definition describeQuery (tableName : string) : string :=
  "DESCRIBE `" ++ escapeSqlIdentifier tableName ++ "`".

Definition showIndexQuery (tableName : string) : string :=
  "SHOW INDEX FROM `" ++ escapeSqlIdentifier tableName ++ "`".

Definition foreignKeyQuery : string :=
  LF ++ "    SELECT " ++
  LF ++ "      CONSTRAINT_NAME as constraint_name," ++
  LF ++ "      COLUMN_NAME as column_name," ++
  LF ++ "      REFERENCED_TABLE_NAME as referenced_table," ++
  LF ++ "      REFERENCED_COLUMN_NAME as referenced_column" ++
  LF ++ "    FROM INFORMATION_SCHEMA.KEY_COLUMN_USAGE" ++
  LF ++ "    WHERE TABLE_SCHEMA = DATABASE()" ++
  LF ++ "      AND TABLE_NAME = ?" ++
  LF ++ "      AND REFERENCED_TABLE_NAME IS NOT NULL" ++
  LF ++ "  ".

(** The value of the [Map] that groups the rows of SHOW INDEX. *)
Record IndexEntry : Type := {
  entryColumns : list string;
  entryUnique : bool;
  entryType : string
}.

(** [indexMap.has(key)]; the map is kept in insertion order. *)
Definition has (key : string) (indexMap : list (string * IndexEntry)) : bool :=
  List.existsb (fun binding => String.eqb (fst binding) key) indexMap.

(** [indexMap.get(key)!.columns.push(column)]. *)
Fixpoint pushColumn (key column : string) (indexMap : list (string * IndexEntry))
  : list (string * IndexEntry) :=
  match indexMap with
  | [] => []
  | (k, entry) :: indexMap' =>
      if String.eqb k key
      then (k, {| entryColumns := (entryColumns entry ++ [column])%list;
                  entryUnique := entryUnique entry;
                  entryType := entryType entry |}) :: indexMap'
      else (k, entry) :: pushColumn key column indexMap'
  end.

Section Tool.
Variable validate : string -> ValidationResult.
Variable execute : Pool -> string -> list jsval -> Reply.
Variable stringToNumber : string -> option Z.
Variable numberToString : Z -> string.
Variable bufferToString : list ascii -> string.

Definition columnInfoOf (row : Row) : ColumnInfo :=
  {| columnName :=
       Convert.strOr numberToString bufferToString EmptyString
         (ShowRelations.property "Field" row);
     columnType :=
       Convert.strOr numberToString bufferToString EmptyString
         (ShowRelations.property "Type" row);
     nullable :=
       match ShowRelations.property "Null" row with
       | JStr s => String.eqb s "YES"
       | _ => false
       end;
     default :=
       match ShowRelations.property "Default" row with
       | JNull => None
       | v => Some (Convert.toStr numberToString bufferToString v)
       end;
     extra :=
       Convert.strOr numberToString bufferToString EmptyString
         (ShowRelations.property "Extra" row);
     comment := EmptyString |}.

Definition getColumnInfo (database : DatabaseType) (tableName : string)
  : M (list ColumnInfo) :=
  tryCatch
    (let query := describeQuery tableName in
     result <- ConnectionManager.executeQuery validate execute database query [] Undefined ;;
     ret (List.map columnInfoOf (rows result)))
    (fun errorMessage =>
       if includes "doesn't exist" errorMessage || includes "Unknown table" errorMessage
       then ret []
       else throw errorMessage).

(** The four values the loop of [getIndexInfo] reads from a row. *)
Definition keyNameOf (row : Row) : string :=
  Convert.strOr numberToString bufferToString EmptyString
    (ShowRelations.property "Key_name" row).

Definition columnNameOf (row : Row) : string :=
  Convert.strOr numberToString bufferToString EmptyString
    (ShowRelations.property "Column_name" row).

Definition nonUniqueOf (row : Row) : bool :=
  match ShowRelations.toNumber stringToNumber (ShowRelations.property "Non_unique" row) with
  | Some n => n =? 1
  | None => false
  end.

Definition indexTypeOf (row : Row) : string :=
  Convert.strOr numberToString bufferToString "BTREE"
    (ShowRelations.property "Index_type" row).

(** One turn of the loop, on the map and the primary key built so far. *)
Definition indexStep (state : list (string * IndexEntry) * list string) (row : Row)
  : list (string * IndexEntry) * list string :=
  let indexMap := fst state in
  let primaryKey := snd state in
  let keyName := keyNameOf row in
  let columnName := columnNameOf row in
  let nonUnique := nonUniqueOf row in
  let indexType := indexTypeOf row in
  let primaryKey :=
    if String.eqb keyName "PRIMARY" then (primaryKey ++ [columnName])%list
    else primaryKey in
  let indexMap :=
    if negb (has keyName indexMap)
    then (indexMap ++ [(keyName, {| entryColumns := [];
                                    entryUnique := negb nonUnique;
                                    entryType := indexType |})])%list
    else indexMap in
  (pushColumn keyName columnName indexMap, primaryKey).

Definition indexInfoOf (binding : string * IndexEntry) : IndexInfo :=
  {| indexName := fst binding;
     indexColumns := entryColumns (snd binding);
     unique := entryUnique (snd binding);
     indexType := entryType (snd binding) |}.

(** What [getIndexInfo] makes of the rows of SHOW INDEX. *)
Definition groupIndexes (indexRows : list Row) : list IndexInfo * list string :=
  let state := fold_left indexStep indexRows ([], []) in
  (List.map indexInfoOf (fst state), snd state).

(** *** Notions for the study of the grouping *)

(** The rows of SHOW INDEX that belong to the index [keyName], in order. *)
Definition rowsOf (keyName : string) (indexRows : list Row) : list Row :=
  List.filter (fun row => String.eqb (keyNameOf row) keyName) indexRows.

(** The state of the loop once it has read the rows [seen]: one binding for
    each key name, which holds the columns of the rows of that name and the
    uniqueness and type of the first of them, and the columns of the rows
    named PRIMARY. *)
Definition grouped (seen : list Row) (state : list (string * IndexEntry) * list string)
  : Prop :=
  NoDup (List.map fst (fst state)) /\
  (forall keyName, In keyName (List.map fst (fst state)) <-> rowsOf keyName seen <> []) /\
  (forall keyName entry, In (keyName, entry) (fst state) ->
     entryColumns entry = List.map columnNameOf (rowsOf keyName seen) /\
     exists first rest,
       rowsOf keyName seen = first :: rest /\
       entryUnique entry = negb (nonUniqueOf first) /\
       entryType entry = indexTypeOf first) /\
  snd state = List.map columnNameOf (rowsOf "PRIMARY" seen).

Definition getIndexInfo (database : DatabaseType) (tableName : string)
  : M (list IndexInfo * list string) :=
  let query := showIndexQuery tableName in
  result <- ConnectionManager.executeQuery validate execute database query [] Undefined ;;
  ret (groupIndexes (rows result)).

Definition foreignKeyInfoOf (row : Row) : ForeignKeyInfo :=
  {| foreignKeyName :=
       Convert.strOr numberToString bufferToString EmptyString
         (ShowRelations.property "constraint_name" row);
     foreignKeyColumn :=
       Convert.strOr numberToString bufferToString EmptyString
         (ShowRelations.property "column_name" row);
     referencedTable :=
       Convert.strOr numberToString bufferToString EmptyString
         (ShowRelations.property "referenced_table" row);
     referencedColumn :=
       Convert.strOr numberToString bufferToString EmptyString
         (ShowRelations.property "referenced_column" row) |}.

Definition getForeignKeyInfo (database : DatabaseType) (tableName : string)
  : M (list ForeignKeyInfo) :=
  result <- ConnectionManager.executeQuery validate execute database foreignKeyQuery
              [JStr tableName] Undefined ;;
  ret (List.map foreignKeyInfoOf (rows result)).

Definition missingTable (tableName : string) (database : DatabaseType) : string :=
  "Table '" ++ tableName ++ "' does not exist in database '" ++ databaseName database ++ "'".

Definition describeTable (tableName : string) (inputDatabase : option DatabaseType)
  : M DescribeTableOutput :=
  let database := match inputDatabase with Some d => d | None => DEFAULT_DATABASE end in
  columns <- getColumnInfo database tableName ;;
  match columns with
  | [] => throw (missingTable tableName database)
  | _ =>
      indexInfo <- getIndexInfo database tableName ;;
      foreignKeys <- getForeignKeyInfo database tableName ;;
      ret {| outputTable := tableName;
             columns := columns;
             primaryKey := snd indexInfo;
             foreignKeys := foreignKeys;
             indexes := fst indexInfo |}
  end.

End Tool.

End DescribeTable.

(** ** [tools/show-relations.ts]: the tool *)

Module ShowRelationsTool.
Import JsString Monad.

Record RelationInfo : Type := {
  relationTable : string;
  relationColumn : string;
  foreignKey : string;
  relationType : ShowRelations.RelationType
}.

Record ShowRelationsOutput : Type := {
  outputTable : string;
  referencedBy : list RelationInfo;
  references : list RelationInfo;
  message : option string
}.

Definition DEFAULT_DATABASE : DatabaseType := crm.

Definition outgoingQuery : string :=
  LF ++ "    SELECT " ++
  LF ++ "      kcu.CONSTRAINT_NAME as constraint_name," ++
  LF ++ "      kcu.COLUMN_NAME as column_name," ++
  LF ++ "      kcu.REFERENCED_TABLE_NAME as referenced_table," ++
  LF ++ "      kcu.REFERENCED_COLUMN_NAME as referenced_column" ++
  LF ++ "    FROM INFORMATION_SCHEMA.KEY_COLUMN_USAGE kcu" ++
  LF ++ "    WHERE kcu.TABLE_SCHEMA = DATABASE()" ++
  LF ++ "      AND kcu.TABLE_NAME = ?" ++
  LF ++ "      AND kcu.REFERENCED_TABLE_NAME IS NOT NULL" ++
  LF ++ "  ".

Definition incomingQuery : string :=
  LF ++ "    SELECT " ++
  LF ++ "      kcu.CONSTRAINT_NAME as constraint_name," ++
  LF ++ "      kcu.TABLE_NAME as source_table," ++
  LF ++ "      kcu.COLUMN_NAME as source_column," ++
  LF ++ "      kcu.REFERENCED_COLUMN_NAME as referenced_column" ++
  LF ++ "    FROM INFORMATION_SCHEMA.KEY_COLUMN_USAGE kcu" ++
  LF ++ "    WHERE kcu.TABLE_SCHEMA = DATABASE()" ++
  LF ++ "      AND kcu.REFERENCED_TABLE_NAME = ?" ++
  LF ++ "  ".

Section Tool.
Variable validate : string -> ValidationResult.
Variable execute : Pool -> string -> list jsval -> Reply.
Variable stringToNumber : string -> option Z.
Variable numberToString : Z -> string.
Variable bufferToString : list ascii -> string.

Definition getOutgoingRelations (database : DatabaseType) (tableName : string)
  : M (list RelationInfo) :=
  result <- ConnectionManager.executeQuery validate execute database outgoingQuery
              [JStr tableName] Undefined ;;
  Convert.forEach
    (fun row =>
       let referencedTable :=
         Convert.strOr numberToString bufferToString EmptyString
           (ShowRelations.property "referenced_table" row) in
       let columnName :=
         Convert.strOr numberToString bufferToString EmptyString
           (ShowRelations.property "column_name" row) in
       let constraintName :=
         Convert.strOr numberToString bufferToString EmptyString
           (ShowRelations.property "constraint_name" row) in
       relationType <- ShowRelations.determineRelationType validate execute stringToNumber
                         database tableName columnName ;;
       ret {| relationTable := referencedTable;
              relationColumn := columnName;
              foreignKey := constraintName;
              relationType := relationType |})
    (rows result).

Definition getIncomingRelations (database : DatabaseType) (tableName : string)
  : M (list RelationInfo) :=
  result <- ConnectionManager.executeQuery validate execute database incomingQuery
              [JStr tableName] Undefined ;;
  Convert.forEach
    (fun row =>
       let sourceTable :=
         Convert.strOr numberToString bufferToString EmptyString
           (ShowRelations.property "source_table" row) in
       let sourceColumn :=
         Convert.strOr numberToString bufferToString EmptyString
           (ShowRelations.property "source_column" row) in
       let constraintName :=
         Convert.strOr numberToString bufferToString EmptyString
           (ShowRelations.property "constraint_name" row) in
       relationType <- ShowRelations.determineRelationType validate execute stringToNumber
                         database sourceTable sourceColumn ;;
       ret {| relationTable := sourceTable;
              relationColumn := sourceColumn;
              foreignKey := constraintName;
              relationType := relationType |})
    (rows result).

Definition showRelations (tableName : string) (inputDatabase : option DatabaseType)
  : M ShowRelationsOutput :=
  let database := match inputDatabase with Some d => d | None => DEFAULT_DATABASE end in
  references <- getOutgoingRelations database tableName ;;
  referencedBy <- getIncomingRelations database tableName ;;
  ret {| outputTable := tableName;
         referencedBy := referencedBy;
         references := references;
         message :=
           match referencedBy, references with
           | [], [] => Some ("No relationships found for table '" ++ tableName ++ "'")
           | _, _ => None
           end |}.

End Tool.

End ShowRelationsTool.

(* ================================================================= *)
(** * Part II: properties *)
(* ================================================================= *)

(** ** Strings *)

Section StringFacts.
Import JsString.

Lemma append_nil_r (s : string) : s ++ "" = s.
Proof. induction s as [|c s IH]; simpl; [reflexivity | now rewrite IH]. Qed.

Lemma append_assoc (a b c : string) : (a ++ b) ++ c = a ++ b ++ c.
Proof. induction a as [|x a IH]; simpl; [reflexivity | now rewrite IH]. Qed.

Lemma length_append (a b : string) :
  String.length (a ++ b) = (String.length a + String.length b)%nat.
Proof. induction a as [|x a IH]; simpl; [reflexivity | now rewrite IH]. Qed.

Lemma length_substring0 (n : nat) (s : string) :
  (n <= String.length s)%nat -> String.length (String.substring 0 n s) = n.
Proof.
  revert s; induction n as [|n IH]; intros [|c s] H; simpl in *;
    try lia; try reflexivity.
  now rewrite IH by lia.
Qed.

Lemma substring0_append (n : nat) (a b : string) :
  String.length a = n -> String.substring 0 n (a ++ b) = a.
Proof.
  revert a; induction n as [|n IH]; intros [|c a] H; simpl in *;
    try discriminate.
  - now destruct b.
  - f_equal; apply IH; lia.
Qed.

Lemma prefix_cons (k c : ascii) (a b : string) :
  String.prefix (String k a) (String c b) = Ascii.eqb k c && String.prefix a b.
Proof.
cbn; destruct (ascii_dec k c) as [->|Hn].
- now rewrite Ascii.eqb_refl.
- apply Ascii.eqb_neq in Hn; now rewrite Hn.
Qed.

End StringFacts.

(** ** Row limits of the two tools *)

Ltac split_hyps :=
  repeat match goal with
  | H : _ \/ _ |- _ => destruct H
  | H : exists _, _ |- _ => destruct H
  | H : _ /\ _ |- _ => destruct H
  | H : Num _ = Num _ |- _ => injection H as <-
  | H : @eq optnum _ _ |- _ => discriminate H
  end.

(** Comparisons of numbers, brought back to the integers. *)
Ltac compare_limits :=
  cbn [JsNumber.ltb JsNumber.gtb JsNumber.leb] in *;
  repeat match goal with
  | H : (_ <? _) = true |- _ => apply Z.ltb_lt in H
  | H : (_ <? _) = false |- _ => apply Z.ltb_ge in H
  | H : (_ <=? _) = true |- _ => apply Z.leb_le in H
  | H : (_ <=? _) = false |- _ => apply Z.leb_gt in H
  | H : true = false |- _ => discriminate H
  | H : false = true |- _ => discriminate H
  end;
  repeat match goal with
  | |- context [?a <? ?b] => destruct (Z.ltb_spec a b)
  | |- context [?a >? ?b] => destruct (Z.gtb_spec a b)
  | |- context [?a <=? ?b] => destruct (Z.leb_spec a b)
  end; try lia; try reflexivity; try discriminate; try (split; reflexivity).

(** C3, as the code has it.  For every limit that is absent or a number
    other than NaN both enforcers return a value inside their range; an
    absent limit and a limit below 1 give the default (1000 and 10), a limit
    above the cap gives the cap (5000 and 100), and a limit inside the range
    is returned unchanged. *)
Theorem enforce_limits_clamp (L : optnum) :
L <> Num NaN ->
(exists q, RunQuery.enforceQueryLimit L = Fin q /\ 1 <= q <= 5000) /\
(exists p, PreviewData.enforceRowLimit L = Fin p /\ 1 <= p <= 100) /\
(L = Undefined \/ L = Null \/ (exists n, L = Num n /\ JsNumber.ltb n (Fin 1) = true) ->
   RunQuery.enforceQueryLimit L = Fin 1000 /\ PreviewData.enforceRowLimit L = Fin 10) /\
(forall n, L = Num n -> JsNumber.gtb n (Fin 5000) = true ->
   RunQuery.enforceQueryLimit L = Fin 5000) /\
(forall n, L = Num n -> JsNumber.gtb n (Fin 100) = true ->
   PreviewData.enforceRowLimit L = Fin 100) /\
(forall n, L = Num n ->
   JsNumber.leb (Fin 1) n = true -> JsNumber.leb n (Fin 5000) = true ->
   RunQuery.enforceQueryLimit L = n) /\
(forall n, L = Num n ->
   JsNumber.leb (Fin 1) n = true -> JsNumber.leb n (Fin 100) = true ->
   PreviewData.enforceRowLimit L = n).
Proof.
intros Hnan.
unfold RunQuery.enforceQueryLimit, PreviewData.enforceRowLimit,
  LIMITS.QUERY_DEFAULT, LIMITS.QUERY_MAX, LIMITS.PREVIEW_DEFAULT,
  LIMITS.PREVIEW_MAX.
destruct L as [| | [| | |z]]; try (now elim Hnan);
  (split; [|split; [|split; [|split; [|split; [|split]]]]]);
  intros; split_hyps; try (eexists; split; [reflexivity | lia]);
  compare_limits;
  try (eexists; split; [reflexivity | lia]).
Qed.

Lemma enforce_limits_clamp_witness :
RunQuery.enforceQueryLimit (Num (Fin 7)) = Fin 7 /\
PreviewData.enforceRowLimit (Num (Fin 500)) = Fin 100.
Proof.
split.
- destruct (enforce_limits_clamp (Num (Fin 7))) as (_ & _ & _ & _ & _ & H & _);
    [discriminate|].
  apply (H (Fin 7) eq_refl); reflexivity.
- destruct (enforce_limits_clamp (Num (Fin 500))) as (_ & _ & _ & _ & H & _);
    [discriminate|].
  apply (H (Fin 500) eq_refl); reflexivity.
Defined.

(** C3, as the specification words it, fails above the cap: 5001 is out of
    range for a free-form query and 101 for a preview, and neither gives the
    default. *)
Lemma enforce_limits_above_cap :
RunQuery.enforceQueryLimit (Num (Fin 5001)) <> Fin 1000 /\
PreviewData.enforceRowLimit (Num (Fin 101)) <> Fin 10.
Proof. split; vm_compute; discriminate. Qed.

(** Neither comparison of an enforcer holds for NaN, which comes back as it
    is: the case the theorem above leaves out. *)
Lemma enforce_limits_nan :
RunQuery.enforceQueryLimit (Num NaN) = NaN /\
PreviewData.enforceRowLimit (Num NaN) = NaN.
Proof. split; reflexivity. Qed.

(** ** Text truncation *)

(** C8.  A string longer than 200 characters becomes its first 200 characters
    followed by the ellipsis, 203 characters in all; a shorter string and
    every value that is not a string are returned as they are. *)
Theorem truncateText_spec (value : jsval) :
(forall s, value = JStr s -> (200 < String.length s)%nat ->
   exists t, PreviewData.truncateText value = JStr t /\
     String.length t = 203%nat /\
     (exists body, t = body ++ PreviewData.ellipsis) /\
     String.substring 0 200 t = String.substring 0 200 s) /\
(forall s, value = JStr s -> (String.length s <= 200)%nat ->
   PreviewData.truncateText value = value) /\
((forall s, value <> JStr s) -> PreviewData.truncateText value = value).
Proof.
unfold PreviewData.truncateText, LIMITS.TEXT_TRUNCATE.
repeat split.
- intros s -> Hlen.
  destruct (Nat.ltb_spec 200 (String.length s)) as [_|]; [|lia].
  eexists; split; [reflexivity|].
  assert (Hpre : String.length (String.substring 0 200 s) = 200%nat)
    by (apply length_substring0; lia).
  repeat split.
  + rewrite length_append, Hpre; reflexivity.
  + eexists; reflexivity.
  + now apply substring0_append.
- intros s -> Hlen.
  destruct (Nat.ltb_spec 200 (String.length s)); [lia | reflexivity].
- intros Hns; destruct value; try reflexivity.
  now elim (Hns s).
Qed.

(** A string of 201 characters comes back 203 long, one of 3 unchanged. *)
Lemma truncateText_spec_witness :
(exists t, PreviewData.truncateText (JStr (String.concat "" (repeat "a" 201))) = JStr t /\
   String.length t = 203%nat) /\
PreviewData.truncateText (JStr "abc") = JStr "abc" /\
PreviewData.truncateText (JNum 7) = JNum 7.
Proof.
split; [|split].
- destruct (truncateText_spec (JStr (String.concat "" (repeat "a" 201))))
    as [H _].
  destruct (H _ eq_refl) as [t [Ht [Hl _]]]; [vm_compute; lia|].
  exists t; split; assumption.
- destruct (truncateText_spec (JStr "abc")) as [_ [H _]].
  apply (H "abc" eq_refl); vm_compute; lia.
- destruct (truncateText_spec (JNum 7)) as [_ [_ H]].
  apply H; discriminate.
Defined.

(** ** Characters *)

Section CharFacts.
Import JsString.

Ltac all_chars c :=
  destruct c as [[] [] [] [] [] [] [] []]; try reflexivity; try discriminate.

Lemma isUpper_canon (c : ascii) : isUpper (canon c) = isLetter c.
Proof. all_chars c. Qed.

Lemma letter_not_space (c : ascii) : isLetter c = true -> isWhitespace c = false.
Proof. all_chars c. Qed.

Lemma letter_not_quote (c : ascii) :
  isLetter c = true -> Sanitizer.isQuote c = false.
Proof. all_chars c. Qed.

Lemma letter_not_sep (c : ascii) :
  isLetter c = true -> Sanitizer.isSep c = false.
Proof. all_chars c. Qed.

Lemma letter_not_bracket (c : ascii) : isLetter c = true -> c <> "["%char.
Proof. all_chars c. Qed.

Lemma ciEq_letter (k c : ascii) :
  ciEq k c = true -> isLetter k = true -> isLetter c = true.
Proof.
unfold ciEq; intros E Hk; apply Ascii.eqb_eq in E.
now rewrite <- isUpper_canon, <- E, isUpper_canon.
Qed.

Lemma letter_is_value (c : ascii) :
  isLetter c = true -> Sanitizer.isValue c = true.
Proof.
intros H; unfold Sanitizer.isValue.
now rewrite (letter_not_quote c H), (letter_not_space c H).
Qed.

End CharFacts.

(** ** The sanitizer: which patterns still match after one pass *)

Section SanitizerFacts.
Import JsString Sanitizer.

Lemma span_value_ahead (r : string) :
  let r1 := drop (span isWhitespace r) r in
  let r2 := drop (if headIs isQuote r1 then 1 else 0) r1 in
  (span isValue r2 =? 0)%nat = negb (valueAhead r).
Proof.
induction r as [|c r IH]; [reflexivity|].
cbn [span valueAhead].
destruct (isWhitespace c) eqn:Ec; [exact IH|].
cbn [drop headIs].
destruct (isQuote c) eqn:Eq; cbn [drop].
- destruct r as [|d r]; [reflexivity|].
  cbn [span headIs]; now destruct (isValue d).
- cbn [span]; unfold isValue; now rewrite Eq, Ec.
Qed.

Lemma kvMatchLen_some (kw s : string) :
  kvMatchLen kw s <> None <->
  exists sep r, ciPrefix kw s = Some (String sep r) /\
                isSep sep = true /\ valueAhead r = true.
Proof.
unfold kvMatchLen.
destruct (ciPrefix kw s) as [[|sep r]|].
- split; [congruence | intros (? & ? & ? & _); discriminate].
- destruct (isSep sep) eqn:Es.
  + pose proof (span_value_ahead r) as Hv; cbv zeta in Hv; rewrite Hv.
    destruct (valueAhead r) eqn:Ev; cbn [negb].
    * split; [intros _; now exists sep, r | discriminate].
    * split; [congruence|].
      intros (? & ? & E & _ & Hf); injection E as <- <-; congruence.
  + split; [congruence|].
    intros (? & ? & E & Hs & _); injection E as <- <-; congruence.
- split; [congruence | intros (? & ? & ? & _); discriminate].
Qed.

Section Copy.
Variable m : matcher.
Hypothesis m_letter : letterStart m.

Lemma m_empty : m EmptyString = None.
Proof.
destruct (m EmptyString) eqn:E; [|reflexivity].
now destruct (m_letter _ _ E) as [_ H].
Qed.

Lemma replaceFrom_empty (k : nat) : replaceFrom m k EmptyString = EmptyString.
Proof. cbn; destruct k; [now rewrite m_empty | reflexivity]. Qed.

(** What the scan does with the first character. *)
Lemma replaceFrom_head (c : ascii) (s : string) :
  (exists n, m (String c s) = Some (S n) /\ isLetter c = true /\
     replaceFrom m 0 (String c s) = REDACTED ++ replaceFrom m n s) \/
  (m (String c s) = None /\
     replaceFrom m 0 (String c s) = String c (replaceFrom m 0 s)).
Proof.
cbn [replaceFrom].
destruct (m (String c s)) as [[|n]|] eqn:E.
- now destruct (m_letter _ _ E) as [H _].
- left; exists n; destruct (m_letter _ _ E) as [_ H]; auto.
- right; auto.
Qed.

Lemma head_value_copy (s : string) :
  headIs isValue (replaceFrom m 0 s) = true -> headIs isValue s = true.
Proof.
destruct s as [|c s]; [now rewrite replaceFrom_empty|].
destruct (replaceFrom_head c s) as [(n & _ & Hc & ->)|[_ ->]]; cbn [headIs].
- intros _; now apply letter_is_value.
- trivial.
Qed.

Lemma valueAhead_copy (s : string) :
  valueAhead (replaceFrom m 0 s) = true -> valueAhead s = true.
Proof.
induction s as [|c s IH]; [now rewrite replaceFrom_empty|].
destruct (replaceFrom_head c s) as [(n & _ & Hc & ->)|[_ ->]]; cbn [valueAhead].
- intros _.
  now rewrite (letter_not_space c Hc), (letter_not_quote c Hc).
- destruct (isWhitespace c); [exact IH|].
  destruct (isQuote c); [apply head_value_copy | trivial].
Qed.

Lemma ciPrefix_copy (kw : string) :
  lettersOnly kw ->
  forall s sep rout,
    ciPrefix kw (replaceFrom m 0 s) = Some (String sep rout) ->
    isSep sep = true ->
    exists r, ciPrefix kw s = Some (String sep r) /\ rout = replaceFrom m 0 r.
Proof.
induction kw as [|k kw IH]; intros Hkw s sep rout H Hsep.
- cbn [ciPrefix] in *.
  destruct s as [|c s]; [now rewrite replaceFrom_empty in H|].
  destruct (replaceFrom_head c s) as [(n & _ & _ & E)|[_ E]];
    rewrite E in H; injection H as <- <-.
  + discriminate.
  + now exists s.
- assert (Hk : isLetter k = true) by (apply Hkw; now left).
  assert (Hkw' : lettersOnly kw) by (intros c Hc; apply Hkw; now right).
  destruct s as [|c s]; [now rewrite replaceFrom_empty in H|].
  destruct (replaceFrom_head c s) as [(n & _ & _ & E)|[_ E]]; rewrite E in H.
  + cbn [REDACTED append ciPrefix] in H.
    destruct (ciEq k "[") eqn:Ek; [|discriminate].
    now apply ciEq_letter in Ek.
  + cbn [ciPrefix] in *.
    destruct (ciEq k c); [|discriminate].
    now apply IH.
Qed.

(** A key pattern that matches at the head of the copy matched at the head
    of the original. *)
Lemma kvMatchLen_copy (kw s : string) :
  lettersOnly kw ->
  kvMatchLen kw (replaceFrom m 0 s) <> None -> kvMatchLen kw s <> None.
Proof.
intros Hkw H.
apply kvMatchLen_some in H; destruct H as (sep & rout & Hp & Hs & Hv).
destruct (ciPrefix_copy kw Hkw _ _ _ Hp Hs) as (r & Hr & ->).
apply kvMatchLen_some; exists sep, r; auto using valueAhead_copy.
Qed.

Lemma matchesIn_quiet (kw : string) :
  lettersOnly kw -> tokenClean (kvMatchLen kw) ->
  forall s k, quiet (kvMatchLen kw) m s ->
    matchesIn (kvMatchLen kw) (replaceFrom m k s) = false.
Proof.
intros Hkw Hclean; induction s as [|c s IH]; intros k [Hq Hs].
- rewrite replaceFrom_empty; cbn; now rewrite (Hq m_empty).
- destruct k as [|k]; [|cbn [replaceFrom]; now apply IH].
  destruct (replaceFrom_head c s) as [(n & _ & _ & E)|[Em E]].
  + rewrite E, Hclean; now apply IH.
  + assert (Hn : kvMatchLen kw (replaceFrom m 0 (String c s)) = None).
    { destruct (kvMatchLen kw (replaceFrom m 0 (String c s))) eqn:Ek;
        [|reflexivity].
      exfalso; apply (kvMatchLen_copy kw (String c s) Hkw);
        [congruence | now apply Hq]. }
    rewrite E in *; cbn [matchesIn]; rewrite Hn; now apply IH.
Qed.

(** A replacement changes the string when its pattern matches somewhere. *)
Lemma replaceFrom_changes (s : string) :
  matchesIn m s = true -> replaceFrom m 0 s <> s.
Proof.
induction s as [|c s IH]; cbn [matchesIn].
- now rewrite m_empty.
- destruct (replaceFrom_head c s) as [(n & Em & Hc & E)|[Em E]];
    rewrite E, Em.
  + intros _ H; injection H as H _; symmetry in H.
    now apply letter_not_bracket in H.
  + intros H E'; injection E' as E'; now apply IH.
Qed.

End Copy.

Lemma replaceFrom_id (m : matcher) (s : string) :
  matchesIn m s = false -> replaceFrom m 0 s = s.
Proof.
induction s as [|c s IH]; cbn [matchesIn replaceFrom].
- now destruct (m EmptyString).
- destruct (m (String c s)); [discriminate|].
  intros H; now rewrite IH.
Qed.

Lemma quiet_refl (m : matcher) (s : string) : quiet m m s.
Proof. induction s; cbn; auto. Qed.

Lemma quiet_unmatched (mi mj : matcher) (s : string) :
  matchesIn mi s = false -> quiet mi mj s.
Proof.
induction s as [|c s IH]; cbn [matchesIn quiet].
- destruct (mi EmptyString); [discriminate | auto].
- destruct (mi (String c s)); [discriminate | auto].
Qed.

End SanitizerFacts.

(** ** The sanitizer: idempotence *)

Section SanitizerIdempotence.
Import JsString Sanitizer.

Lemma kvMatchLen_letterStart (k : ascii) (kw : string) :
  isLetter k = true -> letterStart (kvMatchLen (String k kw)).
Proof.
intros Hk s n; unfold kvMatchLen; cbn [ciPrefix].
destruct s as [|c s]; [discriminate|].
destruct (ciEq k c) eqn:E; [|discriminate].
destruct (ciPrefix kw s) as [[|sep r]|]; try discriminate.
destruct (isSep sep); [|discriminate].
destruct (_ =? 0)%nat; [discriminate|].
intros H; injection H as <-; split; [cbn; lia|].
cbn [headIs]; now apply (ciEq_letter k).
Qed.

Lemma ciPrefix_cons (k : ascii) (lit s : string) :
  ciPrefix (String k lit) s =
  match s with
  | String c s' => if ciEq k c then ciPrefix lit s' else None
  | EmptyString => None
  end.
Proof. reflexivity. Qed.

Lemma urlMatchLen_letterStart : letterStart urlMatchLen.
Proof.
intros s n; unfold urlMatchLen; rewrite ciPrefix_cons.
destruct s as [|c s]; [discriminate|].
destruct (ciEq "m" c) eqn:E; [|discriminate].
intros H; split; [|cbn [headIs]; now apply (ciEq_letter "m")].
destruct (ciPrefix _ s) as [r|]; [|discriminate].
destruct (span _ r); [discriminate|].
destruct (drop _ r) as [|d r1]; [discriminate|].
destruct (lastAt _ 0 r1); [|discriminate].
injection H as <-; lia.
Qed.

Lemma keyword_letters (kw : string) : In kw KEYWORDS -> lettersOnly kw.
Proof.
intros H c Hc; cbn in H.
repeat (destruct H as [<-|H]; [cbn in Hc; intuition (subst; reflexivity)|]).
contradiction.
Qed.

Lemma keyword_letterStart (kw : string) :
  In kw KEYWORDS -> letterStart (kvMatchLen kw).
Proof.
intros H; cbn in H.
repeat (destruct H as [<-|H]; [now apply kvMatchLen_letterStart|]).
contradiction.
Qed.

Lemma keyword_tokenClean (kw : string) :
  In kw KEYWORDS -> tokenClean (kvMatchLen kw).
Proof.
intros H rest; cbn in H.
repeat (destruct H as [<-|H]; [reflexivity|]).
contradiction.
Qed.

Lemma pattern_letterStart (m : matcher) :
  In m SENSITIVE_PATTERNS -> letterStart m.
Proof.
unfold SENSITIVE_PATTERNS; intros H; apply in_app_or in H.
destruct H as [H|[<-|[]]]; [|exact urlMatchLen_letterStart].
apply in_map_iff in H; destruct H as (kw & <- & H).
now apply keyword_letterStart.
Qed.

(** A key pattern without a match gets none from later replacements. *)
Lemma passes_keep_unmatched (kw : string) (ps : list matcher) :
  In kw KEYWORDS -> (forall m, In m ps -> letterStart m) ->
  forall s, matchesIn (kvMatchLen kw) s = false ->
            matchesIn (kvMatchLen kw) (passes ps s) = false.
Proof.
intros Hkw; induction ps as [|m ps IH]; intros Hps s Hs; [exact Hs|].
cbn [passes fold_left]; apply IH; [intros; apply Hps; now right|].
apply matchesIn_quiet;
  auto using keyword_letters, keyword_tokenClean, quiet_unmatched.
apply Hps; now left.
Qed.

(** Once a key pattern has had its turn it matches nowhere, whatever
    replacements come before and after it. *)
Lemma passes_unmatched (kw : string) (before after : list matcher) (s : string) :
  In kw KEYWORDS -> (forall m, In m after -> letterStart m) ->
  matchesIn (kvMatchLen kw) (passes (before ++ kvMatchLen kw :: after)%list s) = false.
Proof.
intros Hkw Hafter; unfold passes; rewrite fold_left_app; cbn [fold_left].
apply (passes_keep_unmatched kw after Hkw Hafter).
apply matchesIn_quiet;
  auto using keyword_letters, keyword_tokenClean, keyword_letterStart, quiet_refl.
Qed.

Lemma keyword_split (kw : string) :
  In kw KEYWORDS ->
  exists before after,
    SENSITIVE_PATTERNS = (before ++ kvMatchLen kw :: after)%list /\
    forall m, In m after -> letterStart m.
Proof.
intros H; apply in_split in H; destruct H as (l1 & l2 & E).
exists (List.map kvMatchLen l1), (List.map kvMatchLen l2 ++ [urlMatchLen])%list.
split.
- unfold SENSITIVE_PATTERNS; rewrite E, map_app; cbn [List.map].
  now rewrite <- app_assoc.
- intros m Hm; apply pattern_letterStart; unfold SENSITIVE_PATTERNS.
  rewrite E, map_app; cbn [List.map]; apply in_or_app.
  apply in_app_or in Hm; destruct Hm as [Hm|Hm].
  + left; apply in_or_app; right; now right.
  + now right.
Qed.

Lemma sanitized_key_unmatched (kw x : string) :
  In kw KEYWORDS -> matchesIn (kvMatchLen kw) (sanitizeMessage x) = false.
Proof.
intros H; destruct (keyword_split kw H) as (before & after & E & Hafter).
unfold sanitizeMessage; rewrite E.
now apply (passes_unmatched kw before after x).
Qed.

Lemma passes_keys_id (kws : list string) (s : string) :
  (forall kw, In kw kws -> matchesIn (kvMatchLen kw) s = false) ->
  passes (List.map kvMatchLen kws) s = s.
Proof.
induction kws as [|kw kws IH]; intros H; [reflexivity|].
cbn [List.map passes fold_left]; unfold replaceAll.
rewrite replaceFrom_id by (apply H; now left).
apply IH; intros; apply H; now right.
Qed.

(** On a sanitized message only the connection URL pattern can still act. *)
Lemma sanitize_sanitized (x : string) :
  sanitizeMessage (sanitizeMessage x) = replaceAll urlMatchLen (sanitizeMessage x).
Proof.
unfold sanitizeMessage at 1; unfold SENSITIVE_PATTERNS.
rewrite fold_left_app; cbn [fold_left]; f_equal.
apply passes_keys_id; intros; now apply sanitized_key_unmatched.
Qed.

End SanitizerIdempotence.

(** C4, as the code has it.  After one pass none of the five key patterns
    matches any more, and a second pass returns the message unchanged exactly
    when the connection URL pattern has no match left in it. *)
Theorem sanitizeMessage_idempotent_iff (x : string) :
(forall kw, In kw Sanitizer.KEYWORDS ->
   Sanitizer.matchesIn (Sanitizer.kvMatchLen kw) (Sanitizer.sanitizeMessage x) = false) /\
(Sanitizer.sanitizeMessage (Sanitizer.sanitizeMessage x) = Sanitizer.sanitizeMessage x <->
 Sanitizer.matchesIn Sanitizer.urlMatchLen (Sanitizer.sanitizeMessage x) = false).
Proof.
split; [intros; now apply sanitized_key_unmatched|].
rewrite sanitize_sanitized; unfold Sanitizer.replaceAll; split.
- intros H.
  destruct (Sanitizer.matchesIn _ (Sanitizer.sanitizeMessage x)) eqn:E;
    [|reflexivity].
  now elim (replaceFrom_changes _ urlMatchLen_letterStart _ E).
- apply replaceFrom_id.
Qed.

(** C4, as the specification words it, fails: the user of a connection URL
    may span lines, its password may not.  In the message below the first
    pass redacts the inner URL, which joins the outer one with a password on
    its own line, and the second pass redacts that. *)
Lemma sanitizeMessage_not_idempotent :
Sanitizer.sanitizeMessage Sample.nestedUrl =
  "mysql://[REDACTED]" ++ JsString.LF ++ ":e@f" /\
Sanitizer.sanitizeMessage (Sanitizer.sanitizeMessage Sample.nestedUrl) = "[REDACTED]" /\
Sanitizer.sanitizeMessage (Sanitizer.sanitizeMessage Sample.nestedUrl) <>
  Sanitizer.sanitizeMessage Sample.nestedUrl.
Proof. repeat split; vm_compute; discriminate. Qed.

(** ** The classifier *)

Section ClassifierFacts.
Import JsString QueryValidator Words.

Lemma ciEq_refl (c : ascii) : ciEq c c = true.
Proof. unfold ciEq; apply Ascii.eqb_refl. Qed.

Lemma ciEq_trans (a b c : ascii) :
  ciEq a b = true -> ciEq b c = true -> ciEq a c = true.
Proof.
unfold ciEq; intros H1 H2; apply Ascii.eqb_eq in H1, H2.
apply Ascii.eqb_eq; congruence.
Qed.

Lemma ciEq_sym (a b : ascii) : ciEq a b = ciEq b a.
Proof. unfold ciEq; apply Ascii.eqb_sym. Qed.

(** A literal is consumed exactly when the text starts with a word equal to
    it up to case. *)
Lemma ciPrefix_iff (lit s r : string) :
  ciPrefix lit s = Some r <-> exists word, s = word ++ r /\ sameWord lit word.
Proof.
revert s; induction lit as [|k lit IH]; intros s; cbn [ciPrefix].
- split.
  + intros [= ->]; now exists EmptyString.
  + intros ([|c w] & -> & H); [reflexivity | contradiction].
- destruct s as [|c s].
  + split; [discriminate|].
    intros ([|x w] & E & H); [contradiction | discriminate].
  + split.
    * destruct (ciEq k c) eqn:E; [|discriminate].
      intros H; apply IH in H; destruct H as (w & -> & Hw).
      exists (String c w); cbn; auto.
    * intros ([|x w] & E & H); [contradiction|].
      cbn in E, H; injection E as <- ->; destruct H as [-> H].
      apply IH; now exists w.
Qed.

Lemma ciEqb_iff (keyword word : string) :
  ciEqb keyword word = true <-> sameWord keyword word.
Proof.
unfold ciEqb; split.
- destruct (ciPrefix keyword word) as [[|]|] eqn:E; try discriminate.
  intros _; apply ciPrefix_iff in E; destruct E as (w & -> & H).
  now rewrite append_nil_r.
- intros H.
  assert (E : ciPrefix keyword word = Some EmptyString)
    by (apply ciPrefix_iff; exists word; now rewrite append_nil_r).
  now rewrite E.
Qed.

Lemma sameWord_trans (a b c : string) :
  sameWord a b -> sameWord b c -> sameWord a c.
Proof.
revert b c; induction a as [|x a IH]; intros [|y b] [|z c]; cbn; try tauto.
intros [H1 H2] [H3 H4]; split; [now apply (ciEq_trans x y z) | now apply (IH b)].
Qed.

Lemma sameWord_sym (a b : string) : sameWord a b -> sameWord b a.
Proof.
revert b; induction a as [|x a IH]; intros [|y b]; cbn; try tauto.
intros [H1 H2]; split; [now rewrite ciEq_sym | now apply IH].
Qed.

(** The scan finds a keyword exactly where it occurs as a word. *)
Lemma containsWordFrom_iff (keyword : string) (s : string) (prevWord : bool) :
  containsWordFrom keyword prevWord s = true <->
  exists before word after,
    s = before ++ word ++ after /\ sameWord keyword word /\
    endsInWordChar prevWord before = false /\ headIs isWordChar after = false.
Proof.
revert prevWord; induction s as [|c s IH]; intros prevWord;
  cbn [containsWordFrom]; rewrite orb_true_iff; unfold wordAt;
  rewrite andb_true_iff, negb_true_iff.
- split.
  + intros [[Hp H]|]; [|discriminate].
    destruct (ciPrefix keyword EmptyString) as [r|] eqn:E; [|discriminate].
    apply negb_true_iff in H; apply ciPrefix_iff in E.
    destruct E as (w & E & Hw); now exists EmptyString, w, r.
  + intros (b & w & a & E & Hw & Hb & Ha); left.
    destruct b; [|discriminate]; cbn in E, Hb; split; [exact Hb|].
    assert (E' : ciPrefix keyword EmptyString = Some a)
      by (apply ciPrefix_iff; now exists w).
    now rewrite E', Ha.
- rewrite IH; split.
  + intros [[Hp H]|(b & w & a & -> & Hw & Hb & Ha)].
    * destruct (ciPrefix keyword (String c s)) as [r|] eqn:E; [|discriminate].
      apply negb_true_iff in H; apply ciPrefix_iff in E.
      destruct E as (w & E & Hw); now exists EmptyString, w, r.
    * now exists (String c b), w, a.
  + intros ([|x b] & w & a & E & Hw & Hb & Ha).
    * left; cbn in E, Hb; split; [exact Hb|].
      assert (E' : ciPrefix keyword (String c s) = Some a)
        by (apply ciPrefix_iff; now exists w).
      now rewrite E', Ha.
    * right; cbn in E, Hb; injection E as <- ->; now exists b, w, a.
Qed.

Lemma containsWord_iff (keyword text : string) :
  containsWord keyword text = true <-> occursAsWord keyword text.
Proof. apply containsWordFrom_iff. Qed.

Lemma forbiddenKeyword_none (normalized : string) :
  forbiddenKeyword normalized = None <->
  forall keyword, In keyword FORBIDDEN_KEYWORDS -> ~ occursAsWord keyword normalized.
Proof.
unfold forbiddenKeyword; split.
- intros H keyword Hin Hocc; apply containsWord_iff in Hocc.
  now rewrite (find_none _ _ H keyword Hin) in Hocc.
- intros H.
  destruct (find _ FORBIDDEN_KEYWORDS) as [keyword|] eqn:E; [|reflexivity].
  apply find_some in E; destruct E as [Hin Hc].
  apply containsWord_iff in Hc; now elim (H keyword Hin).
Qed.

(** The first token is the leading word. *)
Lemma leadingKeyword_iff (text word : string) :
  leadingWord text word <-> word = leadingKeyword text.
Proof.
unfold leadingWord, leadingKeyword; split.
- intros (rest & -> & Hw & Hr).
  induction word as [|c w IH]; cbn in *.
  + destruct rest as [|d rest]; [reflexivity|].
    cbn in *; now rewrite Hr.
  + destruct Hw as [-> Hw]; cbn; f_equal; now apply IH.
- intros ->; induction text as [|c s IH]; cbn [span].
  + exists EmptyString; cbn; auto.
  + destruct (isWordChar c) eqn:E.
    * destruct IH as (rest & E' & Hw & Hr).
      exists rest; cbn; repeat split; auto.
      now rewrite <- E'.
    * exists (String c s); cbn; auto.
Qed.

Lemma statementKind_iff (word : string) (k : StatementKind) :
  statementKind word = Some k <-> sameWord (kindName k) word.
Proof.
unfold statementKind; split.
- intros H; apply find_some in H; now apply ciEqb_iff.
- intros H.
  destruct (find _ ALLOWED_STATEMENTS) as [k'|] eqn:E.
  + apply find_some in E; destruct E as [_ E]; apply ciEqb_iff in E.
    assert (Hkk : ciEqb (kindName k) (kindName k') = true)
      by (apply ciEqb_iff, (sameWord_trans _ word); auto using sameWord_sym).
    destruct k, k'; try reflexivity; discriminate.
  + apply ciEqb_iff in H.
    assert (Hin : In k ALLOWED_STATEMENTS) by (destruct k; cbn; auto).
    now rewrite (find_none _ _ E k Hin) in H.
Qed.

Lemma canon_upper (c : ascii) : isUpper c = true -> canon c = c.
Proof. destruct c as [[] [] [] [] [] [] [] []]; try reflexivity; discriminate. Qed.

Lemma upperChar_letter (c : ascii) :
  isLetter c = true -> upperChar c = String (canon c) EmptyString.
Proof. destruct c as [[] [] [] [] [] [] [] []]; try reflexivity; discriminate. Qed.

(** A word that is a keyword up to case is the keyword once in upper case. *)
Lemma toUpperCase_keyword (keyword word : string) :
  Clauses.allUpper keyword -> sameWord keyword word -> toUpperCase word = keyword.
Proof.
revert word; induction keyword as [|k kw IH]; intros [|c w]; cbn; try tauto.
intros [Hk Hkw] [E Hw].
assert (Hc : isLetter c = true).
{ apply (ciEq_letter k c E); unfold isLetter; now rewrite Hk. }
rewrite (upperChar_letter c Hc), (IH w Hkw Hw); cbn; f_equal.
unfold ciEq in E; apply Ascii.eqb_eq in E.
now rewrite <- E, canon_upper.
Qed.

(** *** What normalizing skips *)

Lemma isDash_eq (c : ascii) : isDash c = true -> c = "-"%char.
Proof. destruct c as [[] [] [] [] [] [] [] []]; try reflexivity; discriminate. Qed.

Lemma isSlash_eq (c : ascii) : isSlash c = true -> c = "/"%char.
Proof. destruct c as [[] [] [] [] [] [] [] []]; try reflexivity; discriminate. Qed.

Lemma isStar_eq (c : ascii) : isStar c = true -> c = "*"%char.
Proof. destruct c as [[] [] [] [] [] [] [] []]; try reflexivity; discriminate. Qed.

Lemma lineTerminator_space (c : ascii) :
  isLineTerminator c = true -> isWhitespace c = true /\ isDash c = false.
Proof. destruct c as [[] [] [] [] [] [] [] []]; try discriminate; split; reflexivity. Qed.

Lemma wordChar_code (c : ascii) :
  isWordChar c = true -> isWhitespace c = false /\ isDash c = false /\ isSlash c = false.
Proof.
destruct c as [[] [] [] [] [] [] [] []]; try discriminate; repeat split; reflexivity.
Qed.

Lemma includes_tail (p : string) (c : ascii) (s : string) :
  includes p (String c s) = false ->
  String.prefix p (String c s) = false /\ includes p s = false.
Proof. cbn [includes]; intros H; now apply orb_false_iff in H. Qed.

Lemma noLineEnd_tail (c : ascii) (body : string) :
  noLineEnd (String c body) -> isLineTerminator c = false /\ noLineEnd body.
Proof.
intros H; split; [apply H; now left | intros d Hd; apply H; now right].
Qed.

Lemma lineComment_closed (body : string) (c : ascii) (rest : string) :
  noLineEnd body -> isLineTerminator c = true ->
  stripLeading InLineComment (body ++ String c rest) = stripLeading InCode rest.
Proof.
intros Hb Hc; induction body as [|d body IH]; cbn [append stripLeading].
- now rewrite Hc.
- destruct (noLineEnd_tail _ _ Hb) as [-> Hb']; now apply IH.
Qed.

Lemma lineComment_open (body : string) :
  noLineEnd body -> stripLeading InLineComment body = EmptyString.
Proof.
induction body as [|d body IH]; intros Hb; [reflexivity|]; cbn [stripLeading].
destruct (noLineEnd_tail _ _ Hb) as [-> Hb']; now apply IH.
Qed.

(** Inside a block comment without a closer no character closes it. *)
Lemma blockComment_step (d : ascii) (body rest : string) :
  includes "*/" (String d body) = false ->
  isStar d && headIs isSlash (body ++ "*" ++ rest) = false.
Proof.
intros H; apply includes_tail in H; destruct H as [H _].
destruct (isStar d) eqn:Ed; [|reflexivity]; cbn [andb].
apply isStar_eq in Ed; subst d.
destruct body as [|e body]; [reflexivity|]; cbn [append headIs].
destruct (isSlash e) eqn:Ee; [|reflexivity].
apply isSlash_eq in Ee; subst e.
rewrite prefix_cons, Ascii.eqb_refl, prefix_cons, Ascii.eqb_refl in H.
now destruct body.
Qed.

Lemma blockComment_closed (body rest : string) :
  includes "*/" body = false ->
  stripLeading InBlockComment (body ++ "*/" ++ rest) = stripLeading InCode rest.
Proof.
induction body as [|d body IH]; intros Hb.
- reflexivity.
- change (String d body ++ "*/" ++ rest) with (String d (body ++ "*" ++ "/" ++ rest)).
  cbn [stripLeading]; rewrite (blockComment_step d body ("/" ++ rest) Hb).
  apply IH; now apply includes_tail in Hb.
Qed.

Lemma blockComment_open (body : string) :
  includes "*/" body = false -> stripLeading InBlockComment body = EmptyString.
Proof.
induction body as [|d body IH]; intros Hb; [reflexivity|]; cbn [stripLeading].
assert (Hs : isStar d && headIs isSlash body = false).
{ apply includes_tail in Hb; destruct Hb as [Hb _].
  destruct (isStar d) eqn:Ed; [|reflexivity]; cbn [andb].
  apply isStar_eq in Ed; subst d.
  destruct body as [|e body]; [reflexivity|]; cbn [headIs].
  destruct (isSlash e) eqn:Ee; [|reflexivity].
  apply isSlash_eq in Ee; subst e.
  rewrite prefix_cons, Ascii.eqb_refl, prefix_cons, Ascii.eqb_refl in Hb.
  now destruct body. }
rewrite Hs; apply IH; now apply includes_tail in Hb.
Qed.

(** What is skipped is dropped. *)
Lemma stripLeading_skipped (lead rest : string) :
  skipped lead -> stripLeading InCode (lead ++ rest) = stripLeading InCode rest.
Proof.
induction 1 as [|c lead Hc _ IH|body c lead Hb Hc _ IH|body lead Hb _ IH].
- reflexivity.
- cbn [append stripLeading]; now rewrite Hc.
- rewrite !append_assoc; cbn [append stripLeading]; cbn.
  rewrite lineComment_closed; [exact IH | exact Hb | exact Hc].
- rewrite !append_assoc; cbn [append stripLeading]; cbn.
  change (body ++ String "*" (String "/" (lead ++ rest)))
    with (body ++ "*/" ++ (lead ++ rest)).
  now rewrite blockComment_closed.
Qed.

(** A statement that starts with a word character is left as it is. *)
Lemma stripLeading_statement (body : string) :
  headIs isWordChar body = true -> stripLeading InCode body = body.
Proof.
destruct body as [|c body]; [discriminate|]; cbn [headIs stripLeading]; intros Hc.
destruct (wordChar_code c Hc) as (-> & -> & ->); reflexivity.
Qed.

(** What a scan that leaves something has read, by the place it started
    from. *)
Lemma stripLeading_read (text : string) : forall mode,
  stripLeading mode text <> EmptyString ->
  match mode with
  | InCode =>
      exists lead, skipped lead /\ text = lead ++ stripLeading mode text
  | InLineComment =>
      exists body c lead,
        noLineEnd body /\ isLineTerminator c = true /\ skipped lead /\
        text = body ++ String c (lead ++ stripLeading mode text)
  | OpeningBlock =>
      exists x body lead,
        includes "*/" body = false /\ skipped lead /\
        text = String x (body ++ "*/" ++ lead ++ stripLeading mode text)
  | InBlockComment =>
      exists body lead,
        includes "*/" body = false /\ skipped lead /\
        text = body ++ "*/" ++ lead ++ stripLeading mode text
  | ClosingBlock =>
      exists x lead, skipped lead /\ text = String x (lead ++ stripLeading mode text)
  end.
Proof.
induction text as [|c s IH]; intros mode; [now destruct mode|].
destruct mode; cbn [stripLeading].
- (* in the statement *)
  destruct (isWhitespace c) eqn:Ew.
  { intros H; destruct (IH InCode H) as (lead & Hl & E).
    exists (String c lead); split; [now constructor | cbn; now rewrite <- E]. }
  destruct (isDash c && headIs isDash s) eqn:Ed.
  { intros H; apply andb_true_iff in Ed; destruct Ed as [Ec Es].
    apply isDash_eq in Ec; subst c.
    destruct (IH InLineComment H) as (body & c & lead & Hb & Hc & Hl & E).
    destruct body as [|d body].
    - cbn [append] in E; rewrite E in Es; cbn in Es.
      apply lineTerminator_space in Hc; destruct Hc as [_ Hc]; congruence.
    - cbn [append] in E; rewrite E in Es; cbn [headIs] in Es.
      apply isDash_eq in Es; subst d.
      destruct (noLineEnd_tail _ _ Hb) as [_ Hb'].
      exists ("--" ++ body ++ String c lead); split; [now constructor|].
      cbn [append]; f_equal; rewrite append_assoc; exact E. }
  destruct (isSlash c && headIs isStar s) eqn:Es.
  { intros H; apply andb_true_iff in Es; destruct Es as [Ec Es].
    apply isSlash_eq in Ec; subst c.
    destruct (IH OpeningBlock H) as (x & body & lead & Hb & Hl & E).
    rewrite E in Es; cbn [headIs] in Es; apply isStar_eq in Es; subst x.
    exists ("/*" ++ body ++ "*/" ++ lead); split; [now constructor|].
    cbn [append]; f_equal; rewrite append_assoc; exact E. }
  intros _; exists EmptyString; split; [constructor | reflexivity].
- (* in a line comment *)
  destruct (isLineTerminator c) eqn:Ec.
  + intros H; destruct (IH InCode H) as (lead & Hl & E).
    exists EmptyString, c, lead; repeat split; try assumption.
    * intros d Hd; cbn in Hd; destruct Hd.
    * cbn; now rewrite <- E.
  + intros H; destruct (IH InLineComment H) as (body & c' & lead & Hb & Hc & Hl & E).
    exists (String c body), c', lead; repeat split; try assumption.
    * intros d Hd; cbn in Hd; destruct Hd as [<-|Hd]; [exact Ec | now apply Hb].
    * cbn; now rewrite <- E.
- (* behind the slash of an opener *)
  intros H; destruct (IH InBlockComment H) as (body & lead & Hb & Hl & E).
  exists c, body, lead; repeat split; try assumption; now rewrite <- E.
- (* in a block comment *)
  destruct (isStar c && headIs isSlash s) eqn:Es.
  + intros H; apply andb_true_iff in Es; destruct Es as [Ec Es].
    apply isStar_eq in Ec; subst c.
    destruct (IH ClosingBlock H) as (x & lead & Hl & E).
    rewrite E in Es; cbn [headIs] in Es; apply isSlash_eq in Es; subst x.
    exists EmptyString, lead; repeat split; try assumption.
    cbn [append]; f_equal; exact E.
  + intros H; destruct (IH InBlockComment H) as (body & lead & Hb & Hl & E).
    exists (String c body), lead; repeat split; try assumption.
    * cbn [includes]; rewrite Hb, orb_false_r.
      destruct (isStar c) eqn:Ec.
      -- apply isStar_eq in Ec; subst c; cbn [andb] in Es.
         rewrite prefix_cons, Ascii.eqb_refl; cbn [andb].
         destruct body as [|e body]; [reflexivity|].
         rewrite E in Es; cbn [append headIs] in Es.
         rewrite prefix_cons.
         destruct (Ascii.eqb_spec "/" e) as [<-|Hn]; [discriminate | reflexivity].
      -- rewrite prefix_cons.
         destruct (Ascii.eqb_spec "*" c) as [<-|Hn]; [discriminate | reflexivity].
    * cbn [append]; f_equal; exact E.
- (* behind the star of a closer *)
  intros H; destruct (IH InCode H) as (lead & Hl & E).
  exists c, lead; split; [assumption | now rewrite <- E].
Qed.

(** Trailing white space is no part of the first token. *)
Lemma leadingKeyword_trimEnd (body : string) :
  leadingKeyword (trimEnd body) = leadingKeyword body.
Proof.
unfold leadingKeyword; induction body as [|c body IH]; [reflexivity|].
cbn [trimEnd span].
destruct (isWordChar c) eqn:Ec.
- destruct (wordChar_code c Ec) as (Ew & _).
  destruct (trimEnd body) as [|d r] eqn:Et.
  + rewrite Ew; cbn [span]; rewrite Ec; cbn.
    cbn in IH; now rewrite <- IH.
  + cbn [span]; rewrite Ec; cbn; now rewrite <- IH.
- destruct (trimEnd body) as [|d r]; [destruct (isWhitespace c)|];
    cbn [span]; rewrite ?Ec; reflexivity.
Qed.

Lemma sameWord_kind_head (kind : StatementKind) (word rest : string) :
  sameWord (kindName kind) word -> headIs isWordChar (word ++ rest) = true.
Proof.
destruct word as [|c word]; [now destruct kind|].
intros H; cbn [append headIs].
assert (Hc : exists k, isUpper k = true /\ ciEq k c = true)
  by (destruct kind; cbn [kindName sameWord] in H; destruct H as [H _];
      eexists; (split; [|exact H]); reflexivity).
destruct Hc as (k & Hk & E).
assert (Hl : isLetter c = true)
  by (apply (ciEq_letter k c E); unfold isLetter; now rewrite Hk).
revert Hl; clear; destruct c as [[] [] [] [] [] [] [] []]; try reflexivity; discriminate.
Qed.

(** The kind [validate] reads off a text with something skipped in front. *)
Lemma statementKind_normalize (lead body word : string) (kind : StatementKind) :
  skipped lead -> leadingWord body word -> sameWord (kindName kind) word ->
  statementKind (leadingKeyword (normalize (lead ++ body))) = Some kind.
Proof.
intros Hl Hw Hk; unfold normalize.
rewrite stripLeading_skipped by exact Hl.
assert (Hb : headIs isWordChar body = true).
{ destruct Hw as (rest & -> & _); now apply (sameWord_kind_head kind). }
rewrite stripLeading_statement by exact Hb.
rewrite leadingKeyword_trimEnd.
apply leadingKeyword_iff in Hw; subst word; now apply statementKind_iff.
Qed.

Lemma statementKind_read (text : string) (kind : StatementKind) :
  statementKind (leadingKeyword (normalize text)) = Some kind ->
  exists lead body word,
    text = lead ++ body /\ skipped lead /\
    leadingWord body word /\ sameWord (kindName kind) word.
Proof.
unfold normalize; rewrite leadingKeyword_trimEnd; intros H.
apply statementKind_iff in H.
assert (Hne : stripLeading InCode text <> EmptyString).
{ intros E; rewrite E in H; now destruct kind. }
destruct (stripLeading_read text InCode Hne) as (lead & Hl & E).
exists lead, (stripLeading InCode text), (leadingKeyword (stripLeading InCode text)).
repeat split; try assumption.
now apply leadingKeyword_iff.
Qed.

Lemma onlyComments_normalize (text : string) :
  onlyComments text -> normalize text = EmptyString.
Proof.
intros (lead & tail & -> & Hl & Ht); unfold normalize.
rewrite stripLeading_skipped by exact Hl.
destruct Ht as [->|[(body & -> & Hb)|(body & -> & Hb)]].
- reflexivity.
- cbn; now rewrite lineComment_open.
- cbn; now rewrite blockComment_open.
Qed.

End ClassifierFacts.

(** C1.  [validate] accepts a text exactly when, behind the white space and
    the comments it starts with, the leading word of the text is SELECT,
    SHOW, DESCRIBE or EXPLAIN in any case, and no forbidden keyword occurs
    anywhere in the text as a word of its own, comments included.  An
    accepted text is given the kind its leading word spells, which is that
    word in upper case.  A text with nothing but white space and comments
    is rejected. *)
Theorem validate_spec (text : string) :
(valid (QueryValidator.validate text) = true <->
   (exists lead body kind word,
      text = lead ++ body /\ Words.skipped lead /\
      Words.leadingWord body word /\ Words.sameWord (kindName kind) word) /\
   (forall keyword, In keyword QueryValidator.FORBIDDEN_KEYWORDS ->
      ~ Words.occursAsWord keyword text)) /\
(forall lead body kind word,
   text = lead ++ body -> Words.skipped lead ->
   Words.leadingWord body word -> Words.sameWord (kindName kind) word ->
   valid (QueryValidator.validate text) = true ->
   queryType (QueryValidator.validate text) = Some kind /\
   kindName kind = JsString.toUpperCase word) /\
(Words.onlyComments text -> valid (QueryValidator.validate text) = false).
Proof.
unfold QueryValidator.validate; cbv zeta.
pose proof (forbiddenKeyword_none text) as Hf.
split; [|split].
- destruct (QueryValidator.statementKind _) as [kind|] eqn:Ek.
  + destruct (QueryValidator.forbiddenKeyword text) as [keyword|] eqn:Ef;
      cbn [valid QueryValidator.reject].
    * split; [discriminate|].
      intros [_ Hn]; apply Hf in Hn; discriminate.
    * split; [|reflexivity].
      intros _; split; [|now apply Hf].
      destruct (statementKind_read text kind Ek) as (lead & body & word & H).
      now exists lead, body, kind, word.
  + cbn [valid QueryValidator.reject]; split; [discriminate|].
    intros [(lead & body & kind & word & -> & Hl & Hw & Hk) _].
    now rewrite (statementKind_normalize lead body word kind) in Ek.
- intros lead body kind word -> Hl Hw Hk.
  rewrite (statementKind_normalize lead body word kind Hl Hw Hk).
  destruct (QueryValidator.forbiddenKeyword _); cbn [valid queryType QueryValidator.reject];
    [discriminate|].
  intros _; split; [reflexivity|].
  symmetry; apply (toUpperCase_keyword (kindName kind)); [|exact Hk].
  destruct kind; cbn; tauto.
- intros Ho; rewrite (onlyComments_normalize text Ho); reflexivity.
Qed.

(** The scenarios of the specification and of the property tests of the
    classifier: identifiers that merely contain a keyword pass, a stacked
    statement does not, comments and white space in front are skipped, and a
    text with nothing but them is rejected. *)
Lemma validate_scenarios :
let verdict text :=
  (valid (QueryValidator.validate text), queryType (QueryValidator.validate text)) in
verdict "SELECT * FROM updated_records" = (true, Some SELECT) /\
verdict "SELECT created_at FROM posts" = (true, Some SELECT) /\
verdict "select * from t; DROP TABLE t" = (false, None) /\
verdict "sElEcT * FROM t" = (true, Some SELECT) /\
verdict "/* comment */SELECT a FROM b" = (true, Some SELECT) /\
verdict ("-- comment" ++ JsString.LF ++ "SELECT a FROM b") = (true, Some SELECT) /\
verdict "EXPLAIN SELECT * FROM t" = (true, Some EXPLAIN) /\
verdict "iNsErT INTO t (col) VALUES (1)" = (false, None) /\
verdict "-- only comment" = (false, None) /\
verdict "/* only comment */" = (false, None) /\
verdict "   " = (false, None) /\
verdict EmptyString = (false, None).
Proof. repeat split. Qed.

(** A forbidden keyword rejects the text wherever it stands: inside a
    comment in front of the statement, inside a later comment, inside an
    executable comment. *)
Lemma validate_comments :
valid (QueryValidator.validate "/* drop */ SELECT 1") = false /\
valid (QueryValidator.validate "SELECT 1 /* drop */") = false /\
valid (QueryValidator.validate "/*! INSERT INTO t */ SELECT * FROM u") = false.
Proof. repeat split; reflexivity. Qed.

(** The property test of the classifier also lists the statement below among
    the valid ones; the whole-word rule of the specification rejects it. *)
Lemma validate_show_create :
valid (QueryValidator.validate "SHOW CREATE TABLE orders") = false.
Proof. reflexivity. Qed.

(** ** The LIMIT clause *)

Section LimitFacts.
Import JsString Words Clauses ConnectionManager.

Lemma span_split (p : ascii -> bool) (s : string) :
  s = String.substring 0 (span p s) s ++ drop (span p s) s.
Proof.
induction s as [|c s IH]; [reflexivity|].
cbn [span]; destruct (p c); cbn; [now rewrite <- IH | reflexivity].
Qed.

Lemma length_span (p : ascii -> bool) (s : string) :
  String.length (String.substring 0 (span p s) s) = span p s.
Proof.
induction s as [|c s IH]; [reflexivity|].
cbn [span]; destruct (p c); cbn; [now rewrite IH | reflexivity].
Qed.

Lemma span_whitespace (s : string) :
  allWhitespace (String.substring 0 (span isWhitespace s) s).
Proof.
induction s as [|c s IH]; cbn; [exact I|].
destruct (isWhitespace c) eqn:E; cbn; auto.
Qed.

Lemma span_append (p : ascii -> bool) (a : string) (d : ascii) (rest : string) :
  (forall c, occurs c a -> p c = true) -> p d = false ->
  span p (a ++ String d rest) = String.length a /\
  drop (String.length a) (a ++ String d rest) = String d rest.
Proof.
intros Ha Hd; induction a as [|c a IH]; cbn.
- now rewrite Hd.
- rewrite (Ha c) by now left.
  destruct IH as [-> ->]; [intros; apply Ha; now right | auto].
Qed.

Lemma allWhitespace_occurs (a : string) :
  allWhitespace a -> forall c, occurs c a -> isWhitespace c = true.
Proof.
induction a as [|x a IH]; cbn; [tauto|].
intros [Hx Ha] c [<-|Hc]; auto.
Qed.

Lemma digit_not_space (c : ascii) : isDigit c = true -> isWhitespace c = false.
Proof. destruct c as [[] [] [] [] [] [] [] []]; try reflexivity; discriminate. Qed.

Lemma limitAt_iff (prevWord : bool) (s : string) :
  limitAt prevWord s = true <->
  prevWord = false /\
  exists word spaces digit after,
    s = word ++ spaces ++ String digit after /\ sameWord "LIMIT" word /\
    spaces <> EmptyString /\ allWhitespace spaces /\ isDigit digit = true.
Proof.
unfold limitAt; rewrite andb_true_iff, negb_true_iff.
apply and_iff_compat_l; split.
- destruct (ciPrefix "LIMIT" s) as [r|] eqn:E; [|discriminate].
  apply ciPrefix_iff in E; destruct E as (word & -> & Hw).
  rewrite andb_true_iff, negb_true_iff; intros [Hn Hd].
  pose proof (span_split isWhitespace r) as Hr.
  pose proof (span_whitespace r) as Hs.
  destruct (drop (span isWhitespace r) r) as [|digit after]; [discriminate|].
  exists word, (String.substring 0 (span isWhitespace r) r), digit, after.
  repeat split; auto; [now rewrite <- Hr|].
  intros E; apply (f_equal String.length) in E.
  rewrite length_span in E; now rewrite E in Hn.
- intros (word & spaces & digit & after & -> & Hw & Hne & Hs & Hd).
  assert (E : ciPrefix "LIMIT" (word ++ spaces ++ String digit after)
              = Some (spaces ++ String digit after))
    by (apply ciPrefix_iff; now exists word).
  rewrite E.
  destruct (span_append isWhitespace spaces digit after) as [-> ->];
    [now apply allWhitespace_occurs | now apply digit_not_space |].
  destruct spaces; [contradiction | cbn; now rewrite Hd].
Qed.

Lemma hasLimitFrom_iff (s : string) (prevWord : bool) :
  hasLimitFrom prevWord s = true <->
  exists before word spaces digit after,
    s = before ++ word ++ spaces ++ String digit after /\
    sameWord "LIMIT" word /\ endsInWordChar prevWord before = false /\
    spaces <> EmptyString /\ allWhitespace spaces /\ isDigit digit = true.
Proof.
revert prevWord; induction s as [|c s IH]; intros prevWord;
  cbn [hasLimitFrom]; rewrite orb_true_iff, limitAt_iff.
- split.
  + intros [(Hp & w & sp & d & a & H)|]; [|discriminate].
    exists EmptyString, w, sp, d, a; cbn; tauto.
  + intros ([|x b] & w & sp & d & a & E & H); [|discriminate].
    left; cbn in *; split; [tauto|]; exists w, sp, d, a; tauto.
- rewrite IH; split.
  + intros [(Hp & w & sp & d & a & H)|(b & w & sp & d & a & -> & H)].
    * exists EmptyString, w, sp, d, a; cbn; tauto.
    * exists (String c b), w, sp, d, a; cbn; tauto.
  + intros ([|x b] & w & sp & d & a & E & H).
    * left; cbn in *; split; [tauto|]; exists w, sp, d, a; tauto.
    * right; cbn in E; injection E as <- ->.
      exists b, w, sp, d, a; cbn in *; tauto.
Qed.

Lemma hasLimit_iff (query : string) :
  hasLimit query = true <-> limitClauseIn query.
Proof. apply hasLimitFrom_iff. Qed.

Lemma upperChar_cases (c : ascii) :
  (isLetter c = true /\ upperChar c = String (canon c) EmptyString) \/
  (isLetter c = false /\ upperChar c = "SS") \/
  (isLetter c = false /\ exists d, upperChar c = String d EmptyString /\ isUpper d = false).
Proof.
destruct c as [[] [] [] [] [] [] [] []];
  try (left; split; reflexivity);
  try (right; left; split; reflexivity);
  right; right; split; try reflexivity; eexists; split; reflexivity.
Qed.

(** [startsWith] on the upper case of a text, for a plain keyword: the text
    starts with the keyword in some case. *)
Lemma startsWith_upper (keyword text : string) :
  plainKeyword keyword ->
  startsWith keyword (toUpperCase text) = true <-> startsWithWord keyword text.
Proof.
unfold startsWith, startsWithWord.
revert text; induction keyword as [|k kw IH]; intros text Hk.
- split; [intros _; now exists EmptyString, text | now destruct (toUpperCase text)].
- destruct Hk as (Hup & HS & Hkw); destruct text as [|c t].
  + split; [discriminate | intros ([|x w] & r & E & H); [contradiction | discriminate]].
  + cbn [toUpperCase].
    assert (Hlet : ciEq k c = true -> isLetter c = true).
    { intros E; apply (ciEq_letter k c E); unfold isLetter; now rewrite Hup. }
    destruct (upperChar_cases c) as [[Hc ->]|[[Hc ->]|[Hc (d & -> & Hd)]]];
      cbn [append]; rewrite ?prefix_cons, ?andb_true_iff.
    * rewrite (IH t Hkw), Ascii.eqb_eq; split.
      -- intros [-> (w & r & -> & Hw)]; exists (String c w), r; split; [reflexivity|].
         cbn [sameWord]; split; [|exact Hw].
         unfold ciEq; rewrite (canon_upper (canon c)) by now rewrite isUpper_canon.
         apply Ascii.eqb_refl.
      -- intros ([|x w] & r & E & Hw); [contradiction|].
         cbn [append sameWord] in E, Hw; injection E as <- ->;
           destruct Hw as [E Hw]; split.
         ++ unfold ciEq in E; apply Ascii.eqb_eq in E.
            now rewrite <- E, canon_upper.
         ++ now exists w, r.
    * split.
      -- intros [E H]; apply Ascii.eqb_eq in E; subst k.
         specialize (HS eq_refl); destruct kw as [|k2 kw]; [discriminate|].
         rewrite prefix_cons in H; cbn in HS.
         apply andb_true_iff in H; destruct H as [H _].
         rewrite H in HS; discriminate.
      -- intros ([|x w] & r & E & Hw); [contradiction|].
         cbn [append sameWord] in E, Hw; injection E as <- ->;
           destruct Hw as [E _].
         apply Hlet in E; congruence.
    * split.
      -- intros [E _]; apply Ascii.eqb_eq in E; congruence.
      -- intros ([|x w] & r & E & Hw); [contradiction|].
         cbn [append sameWord] in E, Hw; injection E as <- ->;
           destruct Hw as [E _].
         apply Hlet in E; congruence.
Qed.

Lemma unlimited_plain (keyword : string) :
  In keyword UNLIMITED -> plainKeyword keyword.
Proof.
intros H; cbn in H.
repeat (destruct H as [<-|H]; [cbn; intuition discriminate|]).
contradiction.
Qed.

End LimitFacts.

(** *** Statements without comments *)

Section PlainStatements.
Import JsString QueryValidator Words Clauses.





End PlainStatements.




(** Where the tests of [addLimitToQuery] and the claim part ways, on texts
    the theorem above leaves out.  The test for SHOW reads the start of the
    trimmed text, so a SHOW behind a comment gets a LIMIT; the test for a
    LIMIT wants a digit, so a LIMIT with a placeholder gets a second one;
    and it reads quoted text too, so a SELECT that only quotes the words
    gets none. *)
Lemma addLimitToQuery_lexical :
queryType (QueryValidator.validate "/* c */ SHOW TABLES") = Some SHOW /\
ConnectionManager.addLimitToQuery "/* c */ SHOW TABLES" (Fin 1001) =
  "/* c */ SHOW TABLES LIMIT 1001" /\
ConnectionManager.addLimitToQuery "SELECT a FROM t LIMIT ?" (Fin 1001) =
  "SELECT a FROM t LIMIT ? LIMIT 1001" /\
ConnectionManager.addLimitToQuery "SELECT 'LIMIT 5' FROM t" (Fin 1001) =
  "SELECT 'LIMIT 5' FROM t".
Proof. repeat split; vm_compute; reflexivity. Qed.

(** ** Failed connections *)

Section MessageFacts.
Import JsString Words.

Lemma occursIn_here (part rest : string) : occursIn part (part ++ rest).
Proof. now exists EmptyString, rest. Qed.

Lemma occursIn_later (part before text : string) :
  occursIn part text -> occursIn part (before ++ text).
Proof.
intros (b & a & ->); exists (before ++ b), a; now rewrite append_assoc.
Qed.

End MessageFacts.

(** C6, as the code has it.  The message of a failed connection is the
    fixed opening, the logical name, the host, the port and the schema of
    the configuration, and the text of the driver as the sanitizer leaves
    it: none of the five key patterns (password, pwd, secret, token, key
    with a value) matches in that text any more.  So the message holds the
    four fields; it is built from them and from the sanitized text alone,
    and two configurations that differ in user and password give the same
    message; and it is the message [testConnection] throws when the driver
    refuses the connection. *)
Theorem connection_error_message (config : DatabaseConfig) (errorMessage : string) :
ConnectionManager.createConnectionErrorMessage config errorMessage =
  "Database connection failed: " ++ name config ++ "@" ++ host config ++ ":" ++
  JsString.ofZ (port config) ++ "/" ++ database config ++ " - " ++
  Sanitizer.sanitizeMessage errorMessage /\
(forall keyword,
   In keyword Sanitizer.KEYWORDS ->
   Sanitizer.matchesIn (Sanitizer.kvMatchLen keyword)
     (Sanitizer.sanitizeMessage errorMessage) = false) /\
(Words.occursIn (name config)
   (ConnectionManager.createConnectionErrorMessage config errorMessage) /\
 Words.occursIn (host config)
   (ConnectionManager.createConnectionErrorMessage config errorMessage) /\
 Words.occursIn (JsString.ofZ (port config))
   (ConnectionManager.createConnectionErrorMessage config errorMessage) /\
 Words.occursIn (database config)
   (ConnectionManager.createConnectionErrorMessage config errorMessage)) /\
(forall other,
   name other = name config -> host other = host config ->
   port other = port config -> database other = database config ->
   ConnectionManager.createConnectionErrorMessage other errorMessage =
   ConnectionManager.createConnectionErrorMessage config errorMessage) /\
(forall getConnection database st pool,
   Monad.pools st database = Some pool ->
   Monad.configs st database = Some config ->
   getConnection pool = Some errorMessage ->
   fst (ConnectionManager.testConnection getConnection database st) =
   Monad.Thrown (ConnectionManager.createConnectionErrorMessage config errorMessage)).
Proof.
split; [|split; [|split; [|split]]].
- unfold ConnectionManager.createConnectionErrorMessage,
    ConnectionManager.sanitizeMessage; cbv zeta.
  now rewrite !append_assoc.
- intros keyword Hk; now apply sanitized_key_unmatched.
- unfold ConnectionManager.createConnectionErrorMessage; cbv zeta.
  rewrite !append_assoc; repeat split.
  + apply occursIn_later, occursIn_here.
  + do 3 apply occursIn_later; apply occursIn_here.
  + do 5 apply occursIn_later; apply occursIn_here.
  + do 7 apply occursIn_later; apply occursIn_here.
- unfold ConnectionManager.createConnectionErrorMessage; cbv zeta.
  now intros other -> -> -> ->.
- intros getConnection database st pool Hp Hc He.
  unfold ConnectionManager.testConnection, ConnectionManager.getPool,
    ConnectionManager.poolGetConnection, Monad.bind, Monad.tryCatch,
    Monad.getState, Monad.ask, Monad.ret, Monad.throw.
  cbn; rewrite Hp; cbn; rewrite Hc, He; reflexivity.
Qed.

(** The scenario of the specification with a driver that repeats the
    password it was given: the message names the host, and the key and
    its value are redacted, whatever user and password the configuration
    holds. *)
Lemma connection_error_message_witness :
ConnectionManager.createConnectionErrorMessage
  {| name := "crm"; host := "db1"; port := 3306; user := "root";
     password := "other"; database := "shop" |}
  "Access denied for app (using password=secret123)" =
ConnectionManager.createConnectionErrorMessage Sample.config
  "Access denied for app (using password=secret123)" /\
ConnectionManager.createConnectionErrorMessage Sample.config
  "Access denied for app (using password=secret123)" =
"Database connection failed: crm@db1:3306/shop - Access denied for app (using [REDACTED]" /\
JsString.includes "secret123"
  (ConnectionManager.createConnectionErrorMessage Sample.config
     "Access denied for app (using password=secret123)") = false.
Proof.
destruct (connection_error_message Sample.config
            "Access denied for app (using password=secret123)")
  as (Hmessage & _ & _ & Hsame & _).
split; [apply Hsame; reflexivity|].
rewrite Hmessage; split; vm_compute; reflexivity.
Defined.

(** C6, as the specification words it, fails: the sanitizer looks for the
    shapes of credentials, not for the configured password, so a driver text
    that names the password outside those shapes passes it on. *)
Lemma connection_error_message_leaks :
JsString.includes "db1"
  (ConnectionManager.createConnectionErrorMessage
     {| name := "crm"; host := "db1"; port := 3306; user := "app";
        password := "secret123"; database := "shop" |}
     "Access denied for app (tried secret123)") = true /\
JsString.includes "secret123"
  (ConnectionManager.createConnectionErrorMessage
     {| name := "crm"; host := "db1"; port := 3306; user := "app";
        password := "secret123"; database := "shop" |}
     "Access denied for app (tried secret123)") = true.
Proof. split; vm_compute; reflexivity. Qed.

(** ** [executeQuery] *)

Section ExecuteFacts.
Import Monad ConnectionManager.
Variable validate : string -> ValidationResult.
Variable execute : Pool -> string -> list jsval -> Reply.

(** An accepted query on an initialised pool: one request, and the result
    follows the reply. *)
Lemma executeQuery_accepted database query params limit st pool :
  valid (validate query) = true ->
  pools st database = Some pool ->
  let sent := addLimitToQuery query (JsNumber.add (effectiveLimitOf limit) (Fin 1)) in
  executeQuery validate execute database query params limit st =
  (match execute pool sent params with
   | Answer answerRows answerFields =>
       Returned (shaped answerRows answerFields (effectiveLimitOf limit))
   | Fails message => Thrown (sanitizeMessage message)
   | NoAnswer => Thrown (sanitizeMessage timeoutMessage)
   end,
   asked st (Execute pool sent params)).
Proof.
intros Hv Hp sent; unfold executeQuery; rewrite Hv; cbn [negb].
unfold getPool, executeWithLimit, poolExecute, bind, tryCatch, race, getState,
  ask, ret, throw; cbn; rewrite Hp; cbn; fold sent.
now destruct (execute pool sent params).
Qed.

Lemma executeQuery_no_pool database query params limit st :
  valid (validate query) = true ->
  pools st database = None ->
  executeQuery validate execute database query params limit st =
  (Thrown ("Connection pool not initialized for database: " ++ databaseName database), st).
Proof.
intros Hv Hp; unfold executeQuery; rewrite Hv; cbn [negb].
unfold getPool, bind, tryCatch, getState, throw; cbn; now rewrite Hp.
Qed.

Lemma executeQuery_rejected_state database query params limit st :
  valid (validate query) = false ->
  executeQuery validate execute database query params limit st =
  (Thrown (rejectionMessage (validate query)), st).
Proof. intros Hv; unfold executeQuery; now rewrite Hv. Qed.

(** [executeQuery] always settles. *)
Lemma executeQuery_settles database query params limit st :
  fst (executeQuery validate execute database query params limit st) <> Pending.
Proof.
destruct (valid (validate query)) eqn:Hv.
- destruct (pools st database) as [pool|] eqn:Hp.
  + rewrite (executeQuery_accepted _ _ _ _ _ pool Hv Hp); cbn.
    now destruct (execute pool _ params).
  + now rewrite executeQuery_no_pool.
- now rewrite executeQuery_rejected_state.
Qed.

Lemma slice0_length {A : Type} (l : list A) (limit : Z) :
  0 <= limit -> Z.of_nat (List.length l) > limit ->
  slice0 l (Fin limit) = firstn (Z.to_nat limit) l /\
  Z.of_nat (List.length (slice0 l (Fin limit))) = limit.
Proof.
intros H0 Hl; unfold slice0.
destruct (Z.ltb_spec limit 0); [lia|].
split; [reflexivity|]; rewrite length_firstn; lia.
Qed.

(** The rows [shaped] keeps under a limit that is not negative: the first
    rows up to the limit, all of them under infinity. *)
Lemma shaped_kept (l : list Row) (fieldPackets : list FieldPacket) (limit : jsnum) :
  JsNumber.leb (Fin 0) limit = true ->
  JsNumber.leb (Fin (Z.of_nat (List.length (rows (shaped l fieldPackets limit))))) limit
    = true /\
  (forall L, limit = Fin L ->
     rows (shaped l fieldPackets limit) = firstn (Z.to_nat L) l /\
     (truncated (shaped l fieldPackets limit) = true <->
      (List.length (rows (shaped l fieldPackets limit)) + 1 <= List.length l)%nat)).
Proof.
unfold shaped; cbn [rows truncated].
destruct limit as [| | |L]; cbn [JsNumber.leb JsNumber.gtb JsNumber.ltb];
  try discriminate.
- intros _; split; [reflexivity | discriminate].
- intros H0; apply Z.leb_le in H0.
  destruct (Z.ltb_spec L (Z.of_nat (List.length l))) as [Hgt|Hle].
  + destruct (slice0_length l L H0) as [Hs Hlen]; [lia|].
    split; [apply Z.leb_le; lia|].
    intros L' [= <-]; rewrite Hs in *; rewrite length_firstn in *.
    split; [reflexivity | split; [lia | reflexivity]].
  + split; [apply Z.leb_le; lia|].
    intros L' [= <-]; rewrite firstn_all2 by lia.
    split; [reflexivity | split; [discriminate | lia]].
Qed.

End ExecuteFacts.

(** C7.  A query the classifier rejects makes [executeQuery] throw at once:
    the manager is left as it was, so no pool was looked up and nothing was
    asked of one, and the message is the reason of the verdict when the
    verdict carries one (the fixed text [Invalid query] otherwise). *)
Theorem executeQuery_rejected
  (validate : string -> ValidationResult)
  (execute : Pool -> string -> list jsval -> Reply)
  (database : DatabaseType) (query : string) (params : list jsval)
  (limit : optnum) (st : Monad.ManagerState) :
valid (validate query) = false ->
ConnectionManager.executeQuery validate execute database query params limit st =
  (Monad.Thrown (ConnectionManager.rejectionMessage (validate query)), st) /\
Monad.requests
  (snd (ConnectionManager.executeQuery validate execute database query params limit st)) =
  Monad.requests st /\
(forall reason, error (validate query) = Some reason -> reason <> EmptyString ->
   ConnectionManager.rejectionMessage (validate query) = reason) /\
(error (validate query) = None \/ error (validate query) = Some EmptyString ->
   ConnectionManager.rejectionMessage (validate query) = "Invalid query").
Proof.
intros Hv; rewrite (executeQuery_rejected_state validate execute _ _ _ _ _ Hv).
unfold ConnectionManager.rejectionMessage.
repeat split.
- intros reason -> Hr; now destruct reason.
- intros [-> | ->]; reflexivity.
Qed.

(** A stacked statement is turned away with the reason of the classifier and
    the log of requests stays empty. *)
Lemma executeQuery_rejected_witness :
ConnectionManager.executeQuery QueryValidator.validate (fun _ _ _ => NoAnswer)
  crm "select * from t; DROP TABLE t" [] Undefined
  {| Monad.pools := fun _ => None; Monad.configs := fun _ => None; Monad.requests := [] |} =
(Monad.Thrown "forbidden keyword: DROP",
 {| Monad.pools := fun _ => None; Monad.configs := fun _ => None; Monad.requests := [] |}).
Proof.
destruct (executeQuery_rejected QueryValidator.validate (fun _ _ _ => NoAnswer)
  crm "select * from t; DROP TABLE t" [] Undefined
  {| Monad.pools := fun _ => None; Monad.configs := fun _ => None; Monad.requests := [] |})
  as (H & _); [reflexivity | exact H].
Defined.

(** C2, as the code has it.  When the effective limit is not negative, a
    result of [executeQuery] counts its rows and has no more of them than
    the limit.  For a driver that answers with the rows of the query (all
    of them, or as many as the appended LIMIT allows) the result holds the
    first rows of the source up to the limit and is flagged as truncated
    exactly when the source has at least one row more than it returns;
    under the limit Infinity the result holds every row of the answer and
    is not flagged. *)
Theorem executeQuery_row_limit
  (validate : string -> ValidationResult)
  (execute : Pool -> string -> list jsval -> Reply)
  (database : DatabaseType) (query : string) (params : list jsval)
  (limit : optnum) (st st' : Monad.ManagerState) (result : QueryResult) :
JsNumber.leb (Fin 0) (ConnectionManager.effectiveLimitOf limit) = true ->
ConnectionManager.executeQuery validate execute database query params limit st =
  (Monad.Returned result, st') ->
rowCount result = Z.of_nat (List.length (rows result)) /\
JsNumber.leb (Fin (rowCount result)) (ConnectionManager.effectiveLimitOf limit) = true /\
(forall L pool source answerFields,
   ConnectionManager.effectiveLimitOf limit = Fin L ->
   Monad.pools st database = Some pool ->
   execute pool (ConnectionManager.addLimitToQuery query (Fin (L + 1))) params =
   Answer
     (engineRows query (ConnectionManager.addLimitToQuery query (Fin (L + 1))) (L + 1) source)
     answerFields ->
   rows result = firstn (Z.to_nat L) source /\
   (truncated result = true <->
    (List.length (rows result) + 1 <= List.length source)%nat)) /\
(forall pool source answerFields,
   ConnectionManager.effectiveLimitOf limit = PosInf ->
   Monad.pools st database = Some pool ->
   execute pool (ConnectionManager.addLimitToQuery query PosInf) params =
   Answer source answerFields ->
   rows result = source /\
   (truncated result = true <->
    (List.length (rows result) + 1 <= List.length source)%nat)).
Proof.
intros H0 Hrun.
destruct (valid (validate query)) eqn:Hv;
  [|rewrite executeQuery_rejected_state in Hrun by exact Hv; discriminate].
destruct (Monad.pools st database) as [pool|] eqn:Hp;
  [|rewrite executeQuery_no_pool in Hrun by assumption; discriminate].
rewrite (executeQuery_accepted validate execute _ _ _ _ _ pool Hv Hp) in Hrun.
cbv zeta in Hrun.
destruct (execute pool _ params) as [answerRows answerFields| |] eqn:Ex;
  try discriminate.
injection Hrun as <- <-.
destruct (shaped_kept answerRows answerFields _ H0) as [Hle Hfin].
split; [reflexivity|]; split; [exact Hle|]; split.
- intros L pool' source fields' EL [= <-] Hans.
  rewrite EL in Ex, Hfin, H0 |- *; cbn [JsNumber.add] in Ex.
  rewrite Hans in Ex; injection Ex as <- <-.
  cbn [JsNumber.leb] in H0; apply Z.leb_le in H0.
  destruct (Hfin L eq_refl) as [Hk Ht]; rewrite Ht, Hk; clear Hk Ht.
  unfold engineRows.
  destruct (String.eqb _ query); [split; [reflexivity|]; now rewrite length_firstn|].
  rewrite firstn_firstn, Nat.min_l by lia.
  rewrite !length_firstn; split; [reflexivity | lia].
- intros pool' source fields' EL [= <-] Hans.
  rewrite EL in Ex |- *; cbn [JsNumber.add] in Ex.
  rewrite Hans in Ex; injection Ex as <- <-.
  unfold ConnectionManager.shaped; cbn [rows truncated JsNumber.gtb JsNumber.ltb].
  split; [reflexivity|]; split; [discriminate | lia].
Qed.

(** The scenario of the specification: 150 matching rows under a limit of
    100 give 100 rows and the truncation flag. *)
Lemma executeQuery_row_limit_witness :
exists result st',
  ConnectionManager.executeQuery QueryValidator.validate
    (Sample.server "SELECT * FROM t" 101 (Sample.table 150))
    crm "SELECT * FROM t" [] (Num (Fin 100)) Sample.ready = (Monad.Returned result, st') /\
  rowCount result = 100 /\ truncated result = true.
Proof.
assert (Hrun : exists result st',
  ConnectionManager.executeQuery QueryValidator.validate
    (Sample.server "SELECT * FROM t" 101 (Sample.table 150))
    crm "SELECT * FROM t" [] (Num (Fin 100)) Sample.ready = (Monad.Returned result, st'))
  by (vm_compute; eauto).
destruct Hrun as (result & st' & Hrun); exists result, st'.
split; [exact Hrun|].
destruct (executeQuery_row_limit _ _ _ _ _ (Num (Fin 100)) _ _ _ eq_refl Hrun)
  as (Hcount & _ & Hsource & _).
destruct (Hsource 100 (ConnectionManager.createPool Sample.config) (Sample.table 150) []
            eq_refl eq_refl eq_refl) as [Hrows Htrunc].
split.
- rewrite Hcount, Hrows; reflexivity.
- apply Htrunc; rewrite Hrows; vm_compute; lia.
Defined.

(** C2, as the specification words it, fails for a negative limit, which
    [executeQuery] takes as it comes: on a database without tables SHOW
    TABLES under the limit -1 gives no row, which is more than the limit
    allows, and the flag of truncation though no row was left behind. *)
Lemma executeQuery_negative_limit :
ConnectionManager.executeQuery QueryValidator.validate
  (Sample.server "SHOW TABLES" 0 []) crm "SHOW TABLES" [] (Num (Fin (-1))) Sample.ready =
  (Monad.Returned {| rows := []; fields := []; rowCount := 0; truncated := true |},
   ConnectionManager.asked Sample.ready
     (Execute (ConnectionManager.createPool Sample.config) "SHOW TABLES" [])) /\
JsNumber.leb (Fin 0) (ConnectionManager.effectiveLimitOf (Num (Fin (-1)))) = false /\
~ (List.length (@nil Row) + 1 <= List.length (@nil Row))%nat.
Proof. split; [vm_compute; reflexivity | split; [reflexivity | cbn; lia]]. Qed.

(** ** The relationship classifier *)

Section RelationFacts.
Import Catalog.

Lemma filter_nonempty_iff (statistics : list StatisticsRow) (tableName columnName : string) :
  0 < Z.of_nat (List.length (List.filter (isUniqueEntry tableName columnName) statistics)) <->
  inUniqueIndex statistics tableName columnName.
Proof.
unfold inUniqueIndex; split.
- destruct (List.filter _ statistics) as [|r l] eqn:E; [cbn; lia|].
  intros _.
  assert (Hr : In r (List.filter (isUniqueEntry tableName columnName) statistics))
    by (rewrite E; now left).
  apply filter_In in Hr; destruct Hr as [Hin Hr]; unfold isUniqueEntry in Hr.
  apply andb_true_iff in Hr; destruct Hr as [Hr H0].
  apply andb_true_iff in Hr; destruct Hr as [Ht Hc].
  exists r; repeat split; auto.
  + now apply String.eqb_eq.
  + now apply String.eqb_eq.
  + now apply Z.eqb_eq.
- intros (r & Hin & Ht & Hc & H0).
  assert (Hr : In r (List.filter (isUniqueEntry tableName columnName) statistics)).
  { apply filter_In; split; [exact Hin|]; unfold isUniqueEntry.
    now rewrite Ht, Hc, H0, !String.eqb_refl. }
  destruct (List.filter _ statistics); [contradiction | cbn; lia].
Qed.

(** What the server reads in the statement of the classifier, as the
    manager sends it. *)
Lemma uniqueQuery_read (tableName columnName : string) :
  readStatement
    (ConnectionManager.addLimitToQuery ShowRelations.uniqueQuery (Fin 1001))
    [JStr tableName; JStr columnName] =
  Some {| countName := "unique_count";
          comparisons := [("TABLE_NAME", JStr tableName);
                          ("COLUMN_NAME", JStr columnName);
                          ("NON_UNIQUE", JNum 0)];
          rowLimit := Some 1001 |}.
Proof. vm_compute; reflexivity. Qed.

(** The answer of the server to that statement: the number of unique
    entries of the column. *)
Lemma uniqueQuery_answer (statistics : list StatisticsRow) (pool : Pool)
  (tableName columnName : string) :
  server statistics pool
    (ConnectionManager.addLimitToQuery ShowRelations.uniqueQuery (Fin 1001))
    [JStr tableName; JStr columnName] =
  Answer
    [[("unique_count",
       JNum (Z.of_nat
               (List.length
                  (List.filter (isUniqueEntry tableName columnName) statistics))))]]
    [].
Proof.
unfold server; rewrite uniqueQuery_read.
unfold answerOf, counted; cbn [rowLimit countName comparisons].
change (firstn (Z.to_nat 1001) ?l) with l.
do 6 f_equal; f_equal; apply filter_ext; intros r.
cbn [forallb meets fst snd]; unfold isUniqueEntry.
change (cell "TABLE_NAME" r) with (JStr (TABLE_NAME r)).
change (cell "COLUMN_NAME" r) with (JStr (COLUMN_NAME r)).
change (cell "NON_UNIQUE" r) with (JNum (NON_UNIQUE r)).
cbn [sameValue]; now rewrite andb_true_r, andb_assoc.
Qed.

End RelationFacts.

(** C9.  A line of an order belongs to one order and an order has many
    lines: in the schema of [Sample.shopIndexes] the column order_id of
    order_items is the first of the two columns of the primary key, and no
    unique index is on it alone.  The statement of [determineRelationType]
    counts every unique index the column is part of, so the relationship of
    order_items.order_id comes out as one-to-one. *)
Theorem determineRelationType_composite_key :
Catalog.indexColumns Sample.shopIndexes "order_items" "PRIMARY" = ["order_id"; "product_id"] /\
Catalog.carriesUniqueConstraint Sample.shopIndexes "order_items" "order_id" = false /\
ShowRelations.determineRelationType QueryValidator.validate
  (Catalog.server Sample.shopIndexes) Sample.noNumber crm "order_items" "order_id"
  Sample.ready =
  (Monad.Returned ShowRelations.OneToOne,
   ConnectionManager.asked Sample.ready
     (Execute (ConnectionManager.createPool Sample.config)
        (ConnectionManager.addLimitToQuery ShowRelations.uniqueQuery (Fin 1001))
        [JStr "order_items"; JStr "order_id"])).
Proof. vm_compute; repeat split. Qed.

(** ** The query of a preview *)

Section PreviewFacts.
Import JsString PreviewData.

Lemma filter_occurs (p : ascii -> bool) (s : string) (c : ascii) :
  occurs c (filter p s) <-> occurs c s /\ p c = true.
Proof.
induction s as [|d s IH]; cbn; [tauto|].
destruct (p d) eqn:E; cbn; rewrite IH; intuition (subst; congruence).
Qed.

(** An escaped identifier keeps the characters of the identifier that are
    not dangerous, and only them. *)
Lemma escapeSqlIdentifier_occurs (identifier : string) (c : ascii) :
  occurs c (escapeSqlIdentifier identifier) <->
  occurs c identifier /\ isDangerous c = false.
Proof.
unfold escapeSqlIdentifier; rewrite filter_occurs, negb_true_iff; tauto.
Qed.

Lemma enforceRowLimit_range (requestedLimit : optnum) :
  requestedLimit <> Num NaN ->
  exists p, enforceRowLimit requestedLimit = Fin p /\ 1 <= p <= 100.
Proof.
intros Hnan.
unfold enforceRowLimit, LIMITS.PREVIEW_DEFAULT, LIMITS.PREVIEW_MAX.
destruct requestedLimit as [| | [| | |z]]; try (now elim Hnan);
  cbn; try (eexists; split; [reflexivity | lia]).
destruct (Z.ltb_spec z 1); [eexists; split; [reflexivity | lia]|].
destruct (Z.ltb_spec 100 z); eexists; (split; [reflexivity | lia]).
Qed.

Lemma sanitizeWhereClause_clean (text : option string) (clause : string) :
  sanitizeWhereClause text = Some clause -> ~ occurs ";"%char clause.
Proof.
unfold sanitizeWhereClause; destruct text as [[|c t]|]; try discriminate.
destruct (trim (String c t)) as [|d trimmed]; [discriminate|].
intros [= <-] H.
apply (proj1 (filter_occurs (fun c => negb (isSemicolon c)) (String d trimmed) ";")) in H.
destruct H as [_ H]; discriminate.
Qed.

End PreviewFacts.

(** The query of a preview is SELECT, the column list, FROM, the table
    between backticks, an optional WHERE clause, and LIMIT with the enforced
    preview limit as the runtime prints it.  The table and every listed
    column appear with their backticks, quotes, backslashes and semicolons
    removed and their other characters kept; the WHERE clause holds no
    semicolon. *)
Lemma previewQuery_parts (input : PreviewData.PreviewDataInput) :
exists columnList whereSuffix,
  PreviewData.previewQuery input =
    "SELECT " ++ columnList ++ " FROM `" ++
    PreviewData.escapeSqlIdentifier (PreviewData.table input) ++ "`" ++
    whereSuffix ++ " LIMIT " ++
    JsNumber.toString (PreviewData.enforceRowLimit (PreviewData.limit input)) /\
  (forall identifier c,
     JsString.occurs c (PreviewData.escapeSqlIdentifier identifier) <->
     JsString.occurs c identifier /\ PreviewData.isDangerous c = false) /\
  (columnList = "*" \/
   exists cols, PreviewData.columns input = Some cols /\
     columnList =
     JsString.join ", "
       (List.map (fun col => "`" ++ PreviewData.escapeSqlIdentifier col ++ "`") cols)) /\
  (whereSuffix = EmptyString \/
   exists clause, whereSuffix = " WHERE " ++ clause /\
                  ~ JsString.occurs ";"%char clause).
Proof.
unfold PreviewData.previewQuery; cbv zeta.
exists (PreviewData.buildColumnList (PreviewData.columns input)).
exists (match PreviewData.sanitizeWhereClause (PreviewData.where_ input) with
        | Some (String c w) => " WHERE " ++ String c w
        | _ => EmptyString
        end).
split; [|split; [|split]].
- unfold PreviewData.quoteIdentifier.
  destruct (PreviewData.sanitizeWhereClause _) as [[|c w]|];
    now rewrite !append_assoc.
- apply escapeSqlIdentifier_occurs.
- unfold PreviewData.buildColumnList.
  destruct (PreviewData.columns input) as [[|col cols]|]; auto.
  right; now eexists.
- destruct (PreviewData.sanitizeWhereClause _) as [[|c w]|] eqn:E; auto.
  right; eexists; split; [reflexivity|].
  now apply (sanitizeWhereClause_clean _ _ E).
Qed.

(** C10.  A preview of the table users whose WHERE text ends in the two
    dashes of a line comment.  The text [previewData] builds ends with
    LIMIT 10 like that of every preview, but the words are the body of the
    comment, which runs to the end of the text, and the statement in
    front of it has no LIMIT clause.  The manager finds the digits after
    LIMIT in the comment and appends no limit of its own, so the server is
    asked for every row; of the 1500 rows of the table the preview shows
    1000, the default cut of the manager, where the limit of the preview
    is 10. *)
Theorem previewQuery_limit_commented :
PreviewData.previewQuery Sample.commentedPreview =
  "SELECT * FROM `users` WHERE 1=1 " ++ "--" ++ " LIMIT 10" /\
Words.noLineEnd " LIMIT 10" /\
ConnectionManager.hasLimit "SELECT * FROM `users` WHERE 1=1 " = false /\
PreviewData.enforceRowLimit (PreviewData.limit Sample.commentedPreview) = Fin 10 /\
ConnectionManager.addLimitToQuery (PreviewData.previewQuery Sample.commentedPreview)
  (Fin 1001) = PreviewData.previewQuery Sample.commentedPreview /\
exists output st',
  PreviewData.previewData QueryValidator.validate
    (Sample.server (PreviewData.previewQuery Sample.commentedPreview) 1001
       (Sample.table 1500))
    Sample.commentedPreview Sample.ready = (Monad.Returned output, st') /\
  PreviewData.totalRows output = 1000 /\
  Monad.requests st' =
    [Execute (ConnectionManager.createPool Sample.config)
       "SELECT * FROM `users` WHERE 1=1 -- LIMIT 10" []].
Proof.
split; [reflexivity|]; split.
- intros c H; cbn in H.
  repeat (destruct H as [<-|H]; [reflexivity|]); contradiction.
- split; [reflexivity|]; split; [reflexivity|]; split; [reflexivity|].
  eexists _, _; split; [vm_compute; reflexivity|]; split; reflexivity.
Qed.

(** The text of a preview for a limit that is not a number: the enforcer
    hands it on, and the text ends with a LIMIT that MySQL cannot read. *)
Lemma previewQuery_limit_nan :
PreviewData.previewQuery
  {| PreviewData.table := "users"; PreviewData.inputDatabase := None;
     PreviewData.columns := None; PreviewData.limit := Num NaN;
     PreviewData.where_ := None |} =
"SELECT * FROM `users` LIMIT NaN".
Proof. reflexivity. Qed.

(** An input that tries to close the identifier and to stack a statement. *)
Lemma previewQuery_example :
PreviewData.previewQuery
  {| PreviewData.table := "users`; DROP TABLE users; --";
     PreviewData.inputDatabase := None;
     PreviewData.columns := Some ["id"; "na`me"];
     PreviewData.limit := Num (Fin 500);
     PreviewData.where_ := Some " id > 5; DELETE FROM users " |} =
"SELECT `id`, `name` FROM `users DROP TABLE users --` WHERE id > 5 DELETE FROM users LIMIT 100".
Proof. reflexivity. Qed.

(* ================================================================= *)
(** * Part III: further properties of the code *)
(* ================================================================= *)

(** ** Truncated text and escaped identifiers *)

Section TextFacts.
Import JsString PreviewData.

Lemma drop_append (a b : string) : drop (String.length a) (a ++ b) = b.
Proof. induction a as [|c a IH]; [reflexivity | exact IH]. Qed.

Lemma endsWith_append (body suffix : string) : endsWith suffix (body ++ suffix) = true.
Proof.
unfold endsWith; rewrite length_append.
replace (String.length body + String.length suffix - String.length suffix)%nat
  with (String.length body) by lia.
rewrite drop_append, String.eqb_refl; cbn.
apply Nat.leb_le; lia.
Qed.

Lemma filter_id (p : ascii -> bool) (s : string) :
  filter p s = s <-> forall c, occurs c s -> p c = true.
Proof.
induction s as [|d s IH]; cbn; [tauto|].
destruct (p d) eqn:E; split.
- intros [= H] c [<-|Hc]; [assumption | now apply IH].
- intros H; f_equal; apply IH; auto.
- intros H.
  assert (Hd : occurs d (filter p s)) by (rewrite H; now left).
  apply filter_occurs in Hd; destruct Hd as [_ Hd]; congruence.
- intros H; rewrite (H d (or_introl eq_refl)) in E; discriminate.
Qed.

End TextFacts.

(** X1.  Truncating twice is truncating once: a truncated text is 203
    characters long, and cutting it again after 200 characters gives the
    same text and the same ellipsis. *)
Theorem truncateText_idempotent (value : jsval) :
PreviewData.truncateText (PreviewData.truncateText value) = PreviewData.truncateText value.
Proof.
destruct value as [| | b | n | s | bytes]; try reflexivity.
unfold PreviewData.truncateText, LIMITS.TEXT_TRUNCATE.
destruct (Nat.ltb_spec 200 (String.length s)) as [Hlong|Hshort].
- assert (Hpre : String.length (String.substring 0 200 s) = 200%nat)
    by (apply length_substring0; lia).
  rewrite length_append, Hpre; cbn [PreviewData.ellipsis String.length Nat.add].
  destruct (Nat.ltb_spec 200 (200 + 3)) as [_|]; [|lia].
  now rewrite (substring0_append 200 _ _ Hpre).
- destruct (Nat.ltb_spec 200 (String.length s)); [lia | reflexivity].
Qed.

(** X2.  [isTruncated] tells exactly the values [truncateText] has cut: it
    holds of a value and its truncation if and only if the value is a string
    of more than 200 characters. *)
Theorem isTruncated_truncateText (value : jsval) :
PreviewData.isTruncated value (PreviewData.truncateText value) = true <->
exists s, value = JStr s /\ (200 < String.length s)%nat.
Proof.
destruct value as [| | b | n | s | bytes];
  try (cbn; split; [discriminate | intros (s & E & _); discriminate]).
unfold PreviewData.truncateText, PreviewData.isTruncated, LIMITS.TEXT_TRUNCATE.
destruct (Nat.ltb_spec 200 (String.length s)) as [Hlong|Hshort].
- rewrite endsWith_append; split; [intros _; now exists s | reflexivity].
- split; [discriminate|].
  intros (s' & [= <-] & H); lia.
Qed.

(** X3.  [escapeSqlIdentifier] returns an identifier unchanged exactly when
    it holds no backtick, quote, backslash or semicolon, and escaping an
    escaped identifier changes nothing. *)
Theorem escapeSqlIdentifier_fixpoint (identifier : string) :
(PreviewData.escapeSqlIdentifier identifier = identifier <->
 forall c, JsString.occurs c identifier -> PreviewData.isDangerous c = false) /\
PreviewData.escapeSqlIdentifier (PreviewData.escapeSqlIdentifier identifier) =
PreviewData.escapeSqlIdentifier identifier.
Proof.
unfold PreviewData.escapeSqlIdentifier; split.
- rewrite filter_id; split; intros H c Hc; specialize (H c Hc).
  + now apply negb_true_iff.
  + now apply negb_true_iff.
- apply filter_id; intros c Hc; now apply filter_occurs in Hc.
Qed.

(** ** Queries that already end in a LIMIT *)

Section AppendedLimit.
Import JsString Words Clauses ConnectionManager.

Lemma ofZ_head_digit (n : Z) : 0 <= n -> headIs isDigit (ofZ n) = true.
Proof.
intros Hn; unfold ofZ; destruct n as [|p|p]; [reflexivity| |lia].
cbn [Z.to_int NilZero.string_of_int]; unfold NilZero.string_of_uint.
now destruct (Pos.to_uint p).
Qed.

Lemma endsInWordChar_space (before : bool) (a : string) :
  endsInWordChar before (a ++ " ") = false.
Proof. revert before; induction a as [|c a IH]; intros before; [reflexivity | apply IH]. Qed.

(** A text that ends in LIMIT and a number that is not negative has its
    LIMIT clause. *)
Lemma hasLimit_appended (a : string) (n : Z) :
  0 <= n -> hasLimit (a ++ " LIMIT " ++ ofZ n) = true.
Proof.
intros Hn; apply hasLimit_iff.
pose proof (ofZ_head_digit n Hn) as Hd.
destruct (ofZ n) as [|d rest]; [discriminate|].
exists (a ++ " "), "LIMIT", " ", d, rest; repeat split; auto.
- now rewrite append_assoc.
- apply endsInWordChar_space.
- discriminate.
Qed.

End AppendedLimit.

(** X4.  The manager sends the query of a preview as [previewData] built
    it: when the limit of the preview is absent or a number other than NaN,
    the query ends in a LIMIT of its own with a row count in digits, so no
    second one is appended, whatever the table, the columns and the WHERE
    text are and whatever limit the manager would append. *)
Theorem previewQuery_sent_untouched (input : PreviewData.PreviewDataInput) (k : jsnum) :
PreviewData.limit input <> Num NaN ->
ConnectionManager.addLimitToQuery (PreviewData.previewQuery input) k =
PreviewData.previewQuery input.
Proof.
intros Hnan.
unfold ConnectionManager.addLimitToQuery.
assert (H : ConnectionManager.hasLimit (PreviewData.previewQuery input) = true).
{ unfold PreviewData.previewQuery; cbv zeta.
  destruct (enforceRowLimit_range (PreviewData.limit input) Hnan) as (p & -> & Hp).
  apply hasLimit_appended; lia. }
now rewrite H.
Qed.

Lemma previewQuery_sent_untouched_witness :
ConnectionManager.addLimitToQuery
  (PreviewData.previewQuery
     {| PreviewData.table := "users"; PreviewData.inputDatabase := None;
        PreviewData.columns := Some ["id"]; PreviewData.limit := Num PosInf;
        PreviewData.where_ := Some "id > 5" |}) (Fin 1001) =
"SELECT `id` FROM `users` WHERE id > 5 LIMIT 100".
Proof.
rewrite previewQuery_sent_untouched; [reflexivity | discriminate].
Defined.

(** X5.  Appending the LIMIT is idempotent for a limit that is finite and
    not negative: the text [addLimitToQuery] returns is returned unchanged
    by a second call, with the same or any other limit. *)
Theorem addLimitToQuery_idempotent (query : string) (k : Z) (k' : jsnum) :
0 <= k ->
ConnectionManager.addLimitToQuery (ConnectionManager.addLimitToQuery query (Fin k)) k' =
ConnectionManager.addLimitToQuery query (Fin k).
Proof.
intros Hk.
unfold ConnectionManager.addLimitToQuery at 2.
destruct (ConnectionManager.hasLimit query) eqn:El.
- unfold ConnectionManager.addLimitToQuery; now rewrite El.
- destruct (_ || _ || _) eqn:Es.
  + unfold ConnectionManager.addLimitToQuery; now rewrite El, Es.
  + unfold ConnectionManager.addLimitToQuery; cbn [JsNumber.toString].
    now rewrite (hasLimit_appended (JsString.trim query) k Hk), El, Es.
Qed.

Lemma addLimitToQuery_idempotent_witness :
ConnectionManager.addLimitToQuery
  (ConnectionManager.addLimitToQuery "SELECT * FROM t" (Fin 101)) NaN =
ConnectionManager.addLimitToQuery "SELECT * FROM t" (Fin 101).
Proof. apply (addLimitToQuery_idempotent "SELECT * FROM t" 101 NaN); lia. Defined.

(** Appending twice with a limit that is not finite appends twice: the
    words Infinity and NaN are no row count in digits. *)
Lemma addLimitToQuery_twice :
ConnectionManager.addLimitToQuery
  (ConnectionManager.addLimitToQuery "SELECT * FROM t" PosInf) (Fin 5) =
"SELECT * FROM t LIMIT Infinity LIMIT 5".
Proof. reflexivity. Qed.

(** ** What [executeQuery] returns and throws *)

Section OutcomeFacts.
Import Monad ConnectionManager.
Variable validate : string -> ValidationResult.
Variable execute : Pool -> string -> list jsval -> Reply.

(** A result comes from an accepted query, an initialised pool and an
    answer of the driver, after one request. *)
Lemma executeQuery_returned database query params limit st result st' :
  executeQuery validate execute database query params limit st = (Returned result, st') ->
  valid (validate query) = true /\
  exists pool answerRows answerFields,
    pools st database = Some pool /\
    execute pool (addLimitToQuery query (JsNumber.add (effectiveLimitOf limit) (Fin 1))) params =
      Answer answerRows answerFields /\
    result = shaped answerRows answerFields (effectiveLimitOf limit) /\
    st' = asked st (Execute pool (addLimitToQuery query (JsNumber.add (effectiveLimitOf limit) (Fin 1))) params).
Proof.
intros Hrun.
destruct (valid (validate query)) eqn:Hv;
  [|rewrite executeQuery_rejected_state in Hrun by exact Hv; discriminate].
destruct (pools st database) as [pool|] eqn:Hp;
  [|rewrite executeQuery_no_pool in Hrun by assumption; discriminate].
rewrite (executeQuery_accepted validate execute _ _ _ _ _ pool Hv Hp) in Hrun.
cbv zeta in Hrun; split; [reflexivity|].
destruct (execute pool _ params) as [answerRows answerFields| |] eqn:Ex;
  try discriminate.
injection Hrun as <- <-.
now exists pool, answerRows, answerFields.
Qed.

Lemma sanitize_timeoutMessage : sanitizeMessage timeoutMessage = timeoutMessage.
Proof. reflexivity. Qed.

(** The rows that are kept are the first rows of the answer. *)
Lemma shaped_rows (answerRows : list Row) (answerFields : list FieldPacket)
  (limit : jsnum) :
  exists n, rows (shaped answerRows answerFields limit) = firstn n answerRows.
Proof.
unfold shaped; cbn [rows].
destruct (JsNumber.gtb _ limit).
- unfold slice0; destruct limit as [| | |z];
    [exists 0%nat; reflexivity | exists (List.length answerRows); now rewrite firstn_all
    | exists 0%nat; reflexivity |].
  destruct (z <? 0); eexists; reflexivity.
- exists (List.length answerRows); now rewrite firstn_all.
Qed.

(** A result that is not flagged holds no more rows than a limit that is
    a number. *)
Lemma shaped_consistent (answerRows : list Row) (answerFields : list FieldPacket)
  (limit : jsnum) :
  limit <> NaN ->
  RunQueryTool.isTruncationFlagConsistent
    (Fin (rowCount (shaped answerRows answerFields limit))) limit
    (truncated (shaped answerRows answerFields limit)) = true.
Proof.
intros Hnan; unfold shaped, RunQueryTool.isTruncationFlagConsistent;
  cbn [rowCount truncated rows].
destruct limit as [| | |z]; [now elim Hnan | reflexivity | reflexivity |].
cbn [JsNumber.gtb JsNumber.ltb JsNumber.leb].
destruct (Z.ltb_spec z (Z.of_nat (List.length answerRows))); [reflexivity|].
now apply Z.leb_le.
Qed.

End OutcomeFacts.

(** X6.  Whatever the limit, also a negative one, the rows of a result of
    [executeQuery] are the first rows the driver returned, in the order of
    the driver, and the field names are those of the driver in their order;
    the count of rows is that of the rows kept; the one request made is the
    query with its LIMIT, and the pools are as they were. *)
Theorem executeQuery_result_prefix
  (validate : string -> ValidationResult)
  (execute : Pool -> string -> list jsval -> Reply)
  (database : DatabaseType) (query : string) (params : list jsval)
  (limit : optnum) (st st' : Monad.ManagerState) (result : QueryResult) :
ConnectionManager.executeQuery validate execute database query params limit st =
  (Monad.Returned result, st') ->
exists pool answerRows answerFields n,
  Monad.pools st database = Some pool /\
  execute pool
    (ConnectionManager.addLimitToQuery query (JsNumber.add (ConnectionManager.effectiveLimitOf limit) (Fin 1)))
    params = Answer answerRows answerFields /\
  rows result = firstn n answerRows /\
  List.map infoName (fields result) = List.map fieldName answerFields /\
  rowCount result = Z.of_nat (List.length (rows result)) /\
  Monad.requests st' =
    (Monad.requests st ++
     [Execute pool
        (ConnectionManager.addLimitToQuery query (JsNumber.add (ConnectionManager.effectiveLimitOf limit) (Fin 1)))
        params])%list /\
  Monad.pools st' = Monad.pools st.
Proof.
intros Hrun.
destruct (executeQuery_returned validate execute _ _ _ _ _ _ _ Hrun)
  as (_ & pool & answerRows & answerFields & Hp & Hex & -> & ->).
destruct (shaped_rows answerRows answerFields (ConnectionManager.effectiveLimitOf limit))
  as [n Hn].
exists pool, answerRows, answerFields, n; repeat split; auto.
unfold ConnectionManager.shaped; cbn [fields].
rewrite map_map; reflexivity.
Qed.

Lemma executeQuery_result_prefix_witness :
exists n,
  rows (ConnectionManager.shaped (Sample.table 3) [] (Fin (-1))) = firstn n (Sample.table 3).
Proof.
destruct (executeQuery_result_prefix QueryValidator.validate
            (fun _ _ _ => Answer (Sample.table 3) []) crm "SHOW TABLES" [] (Num (Fin (-1)))
            Sample.ready _ _ eq_refl)
  as (pool & answerRows & answerFields & n & _ & Hex & Hrows & _).
injection Hex as <- <-; exists n; exact Hrows.
Defined.

(** X7.  When the limit is absent or a number other than NaN, every result
    of [executeQuery] passes the check of the truncation flag that
    [run-query.ts] exports: a result that is not flagged holds no more rows
    than the limit. *)
Theorem executeQuery_flag_consistent
  (validate : string -> ValidationResult)
  (execute : Pool -> string -> list jsval -> Reply)
  (database : DatabaseType) (query : string) (params : list jsval)
  (limit : optnum) (st st' : Monad.ManagerState) (result : QueryResult) :
limit <> Num NaN ->
ConnectionManager.executeQuery validate execute database query params limit st =
  (Monad.Returned result, st') ->
RunQueryTool.isTruncationFlagConsistent
  (Fin (rowCount result)) (ConnectionManager.effectiveLimitOf limit) (truncated result) = true.
Proof.
intros Hnan Hrun.
destruct (executeQuery_returned validate execute _ _ _ _ _ _ _ Hrun)
  as (_ & pool & answerRows & answerFields & _ & _ & -> & _).
apply shaped_consistent.
destruct limit as [| |n]; cbn; congruence.
Qed.

Lemma executeQuery_flag_consistent_witness :
RunQueryTool.isTruncationFlagConsistent (Fin 100) (Fin 100) true = true.
Proof.
refine (executeQuery_flag_consistent QueryValidator.validate
          (Sample.server "SELECT * FROM t" 101 (Sample.table 150))
          crm "SELECT * FROM t" [] (Num (Fin 100)) Sample.ready _ _ _ eq_refl).
discriminate.
Defined.

(** With NaN for a limit the manager keeps every row of the answer and
    sets no flag, and the check of the flag fails. *)
Lemma executeQuery_flag_nan :
exists result st',
  ConnectionManager.executeQuery QueryValidator.validate
    (Sample.server "SHOW TABLES" 0 (Sample.table 3)) crm "SHOW TABLES" [] (Num NaN)
    Sample.ready = (Monad.Returned result, st') /\
  rowCount result = 3 /\ truncated result = false /\
  RunQueryTool.isTruncationFlagConsistent (Fin 3) NaN false = false.
Proof. eexists _, _; split; [vm_compute; reflexivity|]; repeat split. Qed.

(** X8.  An accepted query on an initialised pool never leaves
    [executeQuery] pending: a driver that does not answer in time gives the
    timeout error, a driver error gives its sanitized message, and in every
    message thrown none of the five key patterns of the sanitizer matches
    any more. *)
Theorem executeQuery_failures
  (validate : string -> ValidationResult)
  (execute : Pool -> string -> list jsval -> Reply)
  (database : DatabaseType) (query : string) (params : list jsval)
  (limit : optnum) (st : Monad.ManagerState) (pool : Pool) :
valid (validate query) = true ->
Monad.pools st database = Some pool ->
fst (ConnectionManager.executeQuery validate execute database query params limit st)
  <> Monad.Pending /\
(execute pool
   (ConnectionManager.addLimitToQuery query (JsNumber.add (ConnectionManager.effectiveLimitOf limit) (Fin 1)))
   params = NoAnswer ->
 fst (ConnectionManager.executeQuery validate execute database query params limit st) =
 Monad.Thrown "Query exceeded 30 second timeout limit") /\
(forall message,
   execute pool
     (ConnectionManager.addLimitToQuery query (JsNumber.add (ConnectionManager.effectiveLimitOf limit) (Fin 1)))
     params = Fails message ->
   fst (ConnectionManager.executeQuery validate execute database query params limit st) =
   Monad.Thrown (Sanitizer.sanitizeMessage message)) /\
(forall thrown,
   fst (ConnectionManager.executeQuery validate execute database query params limit st) =
   Monad.Thrown thrown ->
   forall kw, In kw Sanitizer.KEYWORDS ->
     Sanitizer.matchesIn (Sanitizer.kvMatchLen kw) thrown = false).
Proof.
intros Hv Hp.
rewrite (executeQuery_accepted validate execute _ _ _ _ _ pool Hv Hp); cbv zeta.
cbn [fst]; repeat split.
- now destruct (execute pool _ params).
- now intros ->.
- now intros message ->.
- intros thrown H kw Hkw.
  destruct (execute pool _ params); try discriminate;
    injection H as <-; now apply sanitized_key_unmatched.
Qed.

Lemma executeQuery_failures_witness :
fst (ConnectionManager.executeQuery QueryValidator.validate
       (fun _ _ _ => Fails "Access denied, password=hunter2")
       crm "SELECT 1" [] Undefined Sample.ready) =
Monad.Thrown (Sanitizer.sanitizeMessage "Access denied, password=hunter2").
Proof.
destruct (executeQuery_failures QueryValidator.validate
            (fun _ _ _ => Fails "Access denied, password=hunter2")
            crm "SELECT 1" [] Undefined Sample.ready
            (ConnectionManager.createPool Sample.config) eq_refl eq_refl)
  as (_ & _ & H & _).
now apply H.
Defined.

(** ** [runQuery] *)

Section RunQueryFacts.
Import Monad ConnectionManager.

Lemma shaped_count (answerRows : list Row) (answerFields : list FieldPacket) (limit : Z) :
  0 <= limit ->
  0 <= rowCount (shaped answerRows answerFields (Fin limit)) <= limit /\
  rowCount (shaped answerRows answerFields (Fin limit)) =
    Z.of_nat (List.length (rows (shaped answerRows answerFields (Fin limit)))).
Proof.
intros H0; unfold shaped; cbn [rows rowCount JsNumber.gtb JsNumber.ltb].
destruct (Z.ltb_spec limit (Z.of_nat (List.length answerRows))) as [Hgt|Hle].
- destruct (slice0_length answerRows limit H0) as [_ ->]; lia.
- lia.
Qed.

Lemma enforceQueryLimit_range (requestedLimit : optnum) :
  requestedLimit <> Num NaN ->
  exists q, RunQuery.enforceQueryLimit requestedLimit = Fin q /\ 1 <= q <= 5000.
Proof.
intros Hnan.
unfold RunQuery.enforceQueryLimit, LIMITS.QUERY_DEFAULT, LIMITS.QUERY_MAX.
destruct requestedLimit as [| | [| | |z]]; try (now elim Hnan);
  cbn; try (eexists; split; [reflexivity | lia]).
destruct (Z.ltb_spec z 1); [eexists; split; [reflexivity | lia]|].
destruct (Z.ltb_spec 5000 z); eexists; (split; [reflexivity | lia]).
Qed.

End RunQueryFacts.

(** X9.  When the requested limit is absent or a number other than NaN, a
    result of [runQuery] never holds more than 5000 rows, and never more
    than the limit [enforceQueryLimit] made of the request: the count is
    that of the rows, the columns are the field names of the manager in
    order, the flag of truncation passes the check of the tool, and the
    execution time is the difference of the two readings of the clock. *)
Theorem runQuery_row_cap
  (validate : string -> ValidationResult)
  (execute : Pool -> string -> list jsval -> Reply)
  (startTime endTime : Z)
  (input : RunQueryTool.RunQueryInput)
  (st st' : Monad.ManagerState) (output : RunQueryTool.RunQueryOutput) :
RunQueryTool.limit input <> Num NaN ->
RunQueryTool.runQuery validate execute startTime endTime input st =
  (Monad.Returned output, st') ->
RunQueryTool.outputRowCount output =
  Z.of_nat (List.length (RunQueryTool.outputRows output)) /\
JsNumber.leb (Fin (RunQueryTool.outputRowCount output))
  (RunQuery.enforceQueryLimit (RunQueryTool.limit input)) = true /\
RunQueryTool.outputRowCount output <= 5000 /\
(exists result st1,
   ConnectionManager.executeQuery validate execute
     (match RunQueryTool.inputDatabase input with
      | Some d => d
      | None => RunQueryTool.DEFAULT_DATABASE
      end)
     (RunQueryTool.query input) []
     (Num (RunQuery.enforceQueryLimit (RunQueryTool.limit input))) st =
     (Monad.Returned result, st1) /\
   RunQueryTool.outputColumns output = List.map infoName (fields result) /\
   RunQueryTool.outputRows output = rows result) /\
RunQueryTool.isTruncationFlagConsistent
  (Fin (RunQueryTool.outputRowCount output))
  (RunQuery.enforceQueryLimit (RunQueryTool.limit input))
  (RunQueryTool.outputTruncated output) = true /\
RunQueryTool.executionTime output = endTime - startTime.
Proof.
intros Hnan.
unfold RunQueryTool.runQuery; cbv zeta.
destruct (valid (validate (RunQueryTool.query input))) eqn:Hv; [|discriminate].
cbn [negb]; unfold Monad.tryCatch, Monad.bind.
destruct (ConnectionManager.executeQuery _ _ _ _ _ _ st) as [[result| |] st1] eqn:Hrun;
  try discriminate.
intros [= <- <-]; cbn.
destruct (executeQuery_returned validate execute _ _ _ _ _ _ _ Hrun)
  as (_ & pool & answerRows & answerFields & _ & _ & Hres & _).
cbn [ConnectionManager.effectiveLimitOf] in Hres.
destruct (enforceQueryLimit_range (RunQueryTool.limit input) Hnan) as (q & Hq & Hr).
rewrite Hq in Hres |- *.
destruct (shaped_count answerRows answerFields q) as [Hb Hc]; [lia|].
split; [subst result; exact Hc|].
split; [subst result; cbn [JsNumber.leb]; apply Z.leb_le; lia|].
split; [subst result; lia|].
split; [exists result, st1; repeat split|].
split; [|reflexivity].
subst result; now apply shaped_consistent.
Qed.

(** A request for 9000 rows of a table of 6000 comes back with 5000. *)
Lemma runQuery_row_cap_witness :
exists output st',
  RunQueryTool.runQuery QueryValidator.validate
    (Sample.server "SELECT * FROM t" 5001 (Sample.table 6000)) 10 25
    {| RunQueryTool.query := "SELECT * FROM t";
       RunQueryTool.inputDatabase := None;
       RunQueryTool.limit := Num (Fin 9000) |} Sample.ready = (Monad.Returned output, st') /\
  RunQueryTool.outputRowCount output <= 5000 /\
  RunQueryTool.executionTime output = 15.
Proof.
assert (Hrun : exists output st',
  RunQueryTool.runQuery QueryValidator.validate
    (Sample.server "SELECT * FROM t" 5001 (Sample.table 6000)) 10 25
    {| RunQueryTool.query := "SELECT * FROM t";
       RunQueryTool.inputDatabase := None;
       RunQueryTool.limit := Num (Fin 9000) |} Sample.ready = (Monad.Returned output, st'))
  by (vm_compute; eauto).
destruct Hrun as (output & st' & Hrun); exists output, st'.
split; [exact Hrun|].
destruct (fun Hnan => runQuery_row_cap _ _ _ _ _ _ _ _ Hnan Hrun)
  as (_ & _ & Hcap & _ & _ & Htime); [discriminate|].
split; assumption.
Defined.

(** X10.  [runQuery] has two kinds of failure and never stays pending.  A
    query its own validation rejects is refused with the reason of the
    verdict (or the fixed text [Query validation failed]), unprefixed, and
    the manager is not touched.  After validation every failure of the
    manager comes back with the prefix [Query execution failed: ] in front
    of the message the manager threw. *)
Theorem runQuery_failures
  (validate : string -> ValidationResult)
  (execute : Pool -> string -> list jsval -> Reply)
  (startTime endTime : Z)
  (input : RunQueryTool.RunQueryInput) (st : Monad.ManagerState) :
fst (RunQueryTool.runQuery validate execute startTime endTime input st) <> Monad.Pending /\
(valid (validate (RunQueryTool.query input)) = false ->
 RunQueryTool.runQuery validate execute startTime endTime input st =
   (Monad.Thrown (RunQueryTool.validationMessage (validate (RunQueryTool.query input))), st) /\
 forall reason,
   error (validate (RunQueryTool.query input)) = Some reason -> reason <> EmptyString ->
   RunQueryTool.validationMessage (validate (RunQueryTool.query input)) = reason) /\
(valid (validate (RunQueryTool.query input)) = true ->
 forall thrown st',
   RunQueryTool.runQuery validate execute startTime endTime input st =
     (Monad.Thrown thrown, st') ->
   exists message,
     thrown = "Query execution failed: " ++ message /\
     ConnectionManager.executeQuery validate execute
       (match RunQueryTool.inputDatabase input with
        | Some d => d
        | None => RunQueryTool.DEFAULT_DATABASE
        end)
       (RunQueryTool.query input) []
       (Num (RunQuery.enforceQueryLimit (RunQueryTool.limit input))) st =
     (Monad.Thrown message, st')).
Proof.
unfold RunQueryTool.runQuery; cbv zeta.
pose proof (executeQuery_settles validate execute
  (match RunQueryTool.inputDatabase input with
   | Some d => d
   | None => RunQueryTool.DEFAULT_DATABASE
   end)
  (RunQueryTool.query input) []
  (Num (RunQuery.enforceQueryLimit (RunQueryTool.limit input))) st) as Hsettle.
destruct (valid (validate (RunQueryTool.query input))) eqn:Hv; cbn [negb].
- unfold Monad.tryCatch, Monad.bind.
  destruct (ConnectionManager.executeQuery _ _ _ _ _ _ st) as [[result|message|] st1];
    [| |now elim Hsettle]; (split; [discriminate|]); (split; [discriminate|]);
    intros _ thrown st'; [discriminate|].
  intros [= <- <-]; now exists message.
- split; [discriminate|]; split; [|discriminate].
  intros _; split; [reflexivity|].
  unfold RunQueryTool.validationMessage; intros reason -> Hr; now destruct reason.
Qed.

(** ** [testConnection] and [initialize] *)

(** X11.  [testConnection] changes neither pools nor configurations, asks
    for at most one connection and releases the one it gets: a pool that is
    missing gives an error and no request, a connection gives the two
    requests and a return, a refusal gives the one request and an error. *)
Theorem testConnection_requests
  (getConnection : Pool -> option string)
  (database : DatabaseType) (st : Monad.ManagerState) :
Monad.pools (snd (ConnectionManager.testConnection getConnection database st)) =
  Monad.pools st /\
Monad.configs (snd (ConnectionManager.testConnection getConnection database st)) =
  Monad.configs st /\
(Monad.pools st database = None ->
 ConnectionManager.testConnection getConnection database st =
   (Monad.Thrown ("Connection pool not initialized for database: " ++ databaseName database),
    st)) /\
(forall pool, Monad.pools st database = Some pool -> getConnection pool = None ->
   fst (ConnectionManager.testConnection getConnection database st) = Monad.Returned tt /\
   Monad.requests (snd (ConnectionManager.testConnection getConnection database st)) =
     (Monad.requests st ++ [GetConnection pool; Release pool])%list) /\
(forall pool errorMessage,
   Monad.pools st database = Some pool -> getConnection pool = Some errorMessage ->
   (exists thrown,
      fst (ConnectionManager.testConnection getConnection database st) =
      Monad.Thrown thrown) /\
   Monad.requests (snd (ConnectionManager.testConnection getConnection database st)) =
     (Monad.requests st ++ [GetConnection pool])%list).
Proof.
assert (Hrun : forall pool, Monad.pools st database = Some pool ->
  ConnectionManager.testConnection getConnection database st =
  match getConnection pool with
  | None =>
      (Monad.Returned tt,
       ConnectionManager.asked (ConnectionManager.asked st (GetConnection pool))
         (Release pool))
  | Some errorMessage =>
      (Monad.Thrown
         match Monad.configs st database with
         | Some config => ConnectionManager.createConnectionErrorMessage config errorMessage
         | None => "Database connection failed: " ++ databaseName database
         end,
       ConnectionManager.asked st (GetConnection pool))
  end).
{ intros pool Hp.
  unfold ConnectionManager.testConnection, ConnectionManager.getPool,
    ConnectionManager.poolGetConnection, Monad.bind, Monad.tryCatch,
    Monad.getState, Monad.ask, Monad.ret, Monad.throw; cbn.
  rewrite Hp; cbn.
  destruct (getConnection pool) as [errorMessage|]; cbn; [|reflexivity].
  now destruct (Monad.configs st database). }
assert (Hnone : Monad.pools st database = None ->
  ConnectionManager.testConnection getConnection database st =
  (Monad.Thrown ("Connection pool not initialized for database: " ++ databaseName database),
   st)).
{ intros Hp.
  unfold ConnectionManager.testConnection, ConnectionManager.getPool,
    Monad.bind, Monad.getState, Monad.throw; cbn.
  now rewrite Hp. }
destruct (Monad.pools st database) as [pool|] eqn:Hp.
- rewrite (Hrun pool eq_refl).
  split; [now destruct (getConnection pool)|].
  split; [now destruct (getConnection pool)|].
  split; [discriminate|].
  split.
  + intros p [= <-] ->; cbn; split; [reflexivity|].
    now rewrite <- app_assoc.
  + intros p errorMessage [= <-] ->; cbn; split; [eauto|reflexivity].
- rewrite (Hnone eq_refl).
  repeat split; discriminate.
Qed.

(** X12.  After [initialize] each database has the pool and the
    configuration it was given, and the log of requests is the one before:
    [getPool] finds the pool, and a refused connection test reports the
    configuration of the database tested, not that of the other one. *)
Theorem initialize_getPool
  (getConnection : Pool -> option string)
  (crmConfig operationConfig : DatabaseConfig)
  (st : Monad.ManagerState) (database : DatabaseType) :
Monad.requests (snd (ConnectionManager.initialize crmConfig operationConfig st)) =
  Monad.requests st /\
ConnectionManager.getPool database
  (snd (ConnectionManager.initialize crmConfig operationConfig st)) =
  (Monad.Returned
     (ConnectionManager.createPool
        (match database with crm => crmConfig | operation => operationConfig end)),
   snd (ConnectionManager.initialize crmConfig operationConfig st)) /\
(forall errorMessage,
   getConnection
     (ConnectionManager.createPool
        (match database with crm => crmConfig | operation => operationConfig end)) =
   Some errorMessage ->
   fst (ConnectionManager.testConnection getConnection database
          (snd (ConnectionManager.initialize crmConfig operationConfig st))) =
   Monad.Thrown
     (ConnectionManager.createConnectionErrorMessage
        (match database with crm => crmConfig | operation => operationConfig end)
        errorMessage)).
Proof.
split; [reflexivity|]; split; [now destruct database|].
intros errorMessage He.
unfold ConnectionManager.testConnection, ConnectionManager.getPool,
  ConnectionManager.poolGetConnection, Monad.bind, Monad.tryCatch,
  Monad.getState, Monad.ask, Monad.ret, Monad.throw; cbn.
destruct database; cbn; rewrite He; reflexivity.
Qed.

Lemma initialize_getPool_witness :
fst (ConnectionManager.testConnection (fun _ => Some "ECONNREFUSED") operation
       (snd (ConnectionManager.initialize Sample.config
               {| name := "operation"; host := "db2"; port := 3307; user := "ops";
                  password := "other"; database := "comments" |} Sample.fresh))) =
Monad.Thrown "Database connection failed: operation@db2:3307/comments - ECONNREFUSED".
Proof.
destruct (initialize_getPool (fun _ => Some "ECONNREFUSED") Sample.config
            {| name := "operation"; host := "db2"; port := 3307; user := "ops";
               password := "other"; database := "comments" |} Sample.fresh operation)
  as (_ & _ & H).
exact (H "ECONNREFUSED" eq_refl).
Defined.

Lemma runQuery_failures_witness :
RunQueryTool.runQuery QueryValidator.validate (fun _ _ _ => Fails "ER_NO_SUCH_TABLE") 0 1
  {| RunQueryTool.query := "SELECT * FROM t";
     RunQueryTool.inputDatabase := Some operation;
     RunQueryTool.limit := Undefined |} Sample.ready =
(Monad.Thrown "Query execution failed: ER_NO_SUCH_TABLE",
 ConnectionManager.asked Sample.ready
   (Execute (ConnectionManager.createPool Sample.config)
      "SELECT * FROM t LIMIT 1001" [])).
Proof.
destruct (runQuery_failures QueryValidator.validate (fun _ _ _ => Fails "ER_NO_SUCH_TABLE")
            0 1
            {| RunQueryTool.query := "SELECT * FROM t";
               RunQueryTool.inputDatabase := Some operation;
               RunQueryTool.limit := Undefined |} Sample.ready) as (_ & _ & H).
destruct (H eq_refl "Query execution failed: ER_NO_SUCH_TABLE"
            (ConnectionManager.asked Sample.ready
               (Execute (ConnectionManager.createPool Sample.config)
                  "SELECT * FROM t LIMIT 1001" [])) eq_refl) as (message & _ & _).
reflexivity.
Defined.

Lemma testConnection_requests_witness :
Monad.requests
  (snd (ConnectionManager.testConnection (fun _ => None) crm Sample.ready)) =
[GetConnection (ConnectionManager.createPool Sample.config);
 Release (ConnectionManager.createPool Sample.config)].
Proof.
destruct (testConnection_requests (fun _ => None) crm Sample.ready) as (_ & _ & _ & H & _).
destruct (H (ConnectionManager.createPool Sample.config) eq_refl eq_refl) as [_ Hr].
exact Hr.
Defined.

(** ** Messages the sanitizer leaves alone *)

Section PlainMessages.
Import JsString Sanitizer.

Lemma occurs_append (c : ascii) (a b : string) :
  occurs c (a ++ b) <-> occurs c a \/ occurs c b.
Proof. induction a as [|x a IH]; cbn; [tauto | rewrite IH; tauto]. Qed.

Lemma ciEq_colon (c : ascii) : ciEq ":" c = true -> isSep c = true.
Proof. destruct c as [[] [] [] [] [] [] [] []]; cbn; congruence. Qed.

Lemma kvMatchLen_separator (kw s : string) (n : nat) :
  kvMatchLen kw s = Some n -> exists c, occurs c s /\ isSep c = true.
Proof.
unfold kvMatchLen.
destruct (ciPrefix kw s) as [[|sep r]|] eqn:Ep; try discriminate.
destruct (isSep sep) eqn:Es; [|discriminate]; intros _.
apply ciPrefix_iff in Ep; destruct Ep as (word & -> & _).
exists sep; split; [|exact Es].
apply occurs_append; right; now left.
Qed.

Lemma urlMatchLen_separator (s : string) (n : nat) :
  urlMatchLen s = Some n -> exists c, occurs c s /\ isSep c = true.
Proof.
unfold urlMatchLen.
destruct (ciPrefix "mysql://" s) as [r|] eqn:Ep; [|discriminate]; intros _.
apply ciPrefix_iff in Ep; destruct Ep as (word & -> & Hw).
destruct word as [|c0 [|c1 [|c2 [|c3 [|c4 [|c5 word]]]]]]; cbn in Hw; try tauto.
destruct Hw as (_ & _ & _ & _ & _ & H5 & _).
exists c5; split; [|now apply ciEq_colon].
cbn; tauto.
Qed.

Lemma matchesIn_separator (m : matcher) :
  (forall s n, m s = Some n -> exists c, occurs c s /\ isSep c = true) ->
  forall s, matchesIn m s = true -> exists c, occurs c s /\ isSep c = true.
Proof.
intros Hm; induction s as [|d s IH]; cbn [matchesIn].
- destruct (m EmptyString) eqn:E; [|discriminate]; intros _; eauto.
- destruct (m (String d s)) eqn:E; [intros _; eauto|].
  intros H; destruct (IH H) as (c & Hc & Hs); exists c; cbn; tauto.
Qed.

Lemma passes_plain (ps : list matcher) (s : string) :
  (forall m, In m ps ->
     forall t n, m t = Some n -> exists c, occurs c t /\ isSep c = true) ->
  (forall c, occurs c s -> isSep c = false) ->
  passes ps s = s.
Proof.
intros Hps Hs; induction ps as [|m ps IH]; [reflexivity|].
unfold passes; cbn [fold_left]; unfold replaceAll at 2.
rewrite replaceFrom_id.
- apply IH; intros m' Hm'; apply Hps; now right.
- destruct (matchesIn m s) eqn:E; [|reflexivity].
  destruct (matchesIn_separator m (Hps m (or_introl eq_refl)) s E) as (c & Hc & Hsep).
  rewrite (Hs c Hc) in Hsep; discriminate.
Qed.

End PlainMessages.

(** X13.  A message with no equals sign and no colon goes through
    [sanitizeMessage] unchanged: every pattern needs one of the two. *)
Theorem sanitizeMessage_plain (message : string) :
(forall c, JsString.occurs c message -> Sanitizer.isSep c = false) ->
ConnectionManager.sanitizeMessage message = message.
Proof.
intros Hs.
change (Sanitizer.passes Sanitizer.SENSITIVE_PATTERNS message = message).
apply passes_plain; [|exact Hs].
intros m Hm t n Ht; unfold Sanitizer.SENSITIVE_PATTERNS in Hm.
apply in_app_or in Hm; destruct Hm as [Hm|[<-|[]]].
- apply in_map_iff in Hm; destruct Hm as (kw & <- & _).
  now apply kvMatchLen_separator in Ht.
- now apply urlMatchLen_separator in Ht.
Qed.

Lemma sanitizeMessage_plain_witness :
ConnectionManager.sanitizeMessage "Access denied for user password" =
"Access denied for user password".
Proof.
apply sanitizeMessage_plain.
intros c Hc; cbn in Hc.
repeat (destruct Hc as [<-|Hc]; [reflexivity|]); contradiction.
Defined.

(** ** The order check of the statistics *)

Section NumberOrder.
Import JsNumber.

Lemma gtb_false_leb (a b : jsnum) :
  a <> NaN -> b <> NaN -> (gtb b a = false <-> leb b a = true).
Proof.
intros Ha Hb; destruct a as [| | |x], b as [| | |y];
  try (now elim Ha); try (now elim Hb); cbn; try tauto;
  try (split; discriminate).
destruct (Z.ltb_spec x y), (Z.leb_spec y x); split; auto; lia.
Qed.

Lemma leb_trans (a b c : jsnum) : leb a b = true -> leb b c = true -> leb a c = true.
Proof.
destruct a as [| | |x], b as [| | |y], c as [| | |z]; cbn; try discriminate; auto.
rewrite !Z.leb_le; lia.
Qed.

End NumberOrder.

(** X14.  On statistics whose row counts are numbers, none of them NaN,
    [isDescendingByRows] compares neighbours only, and that decides the
    order of the whole list: it answers [true] exactly when every entry has
    at least as many rows as every entry after it. *)
Theorem isDescendingByRows_sorted (stats : list DbStats.TableStat) :
Forall (fun stat => DbStats.statRows stat <> NaN) stats ->
(DbStats.isDescendingByRows stats = true <->
 StronglySorted
   (fun a b => JsNumber.leb (DbStats.statRows b) (DbStats.statRows a) = true) stats).
Proof.
intros Hnum.
assert (Hadj : DbStats.isDescendingByRows stats = true <->
               Sorted (fun a b => JsNumber.leb (DbStats.statRows b) (DbStats.statRows a) = true)
                 stats).
{ induction stats as [|a [|b rest] IH].
  - split; [constructor | reflexivity].
  - split; [repeat constructor | reflexivity].
  - change (DbStats.isDescendingByRows (a :: b :: rest)) with
      (if JsNumber.gtb (DbStats.statRows b) (DbStats.statRows a) then false
       else DbStats.isDescendingByRows (b :: rest)).
    inversion Hnum as [|? ? Ha Hrest]; subst.
    inversion Hrest as [|? ? Hb _]; subst.
    pose proof (gtb_false_leb _ _ Ha Hb) as Hord.
    destruct (JsNumber.gtb (DbStats.statRows b) (DbStats.statRows a)).
    + split; [discriminate|].
      intros H; inversion H as [|? ? _ Hd]; subst; inversion Hd as [|? ? Hle]; subst.
      destruct Hord as [_ Hord]; now specialize (Hord Hle).
    + rewrite (IH Hrest); split.
      * intros H; constructor; [exact H | constructor; now apply Hord].
      * intros H; now inversion H. }
rewrite Hadj; split.
- apply Sorted_StronglySorted; intros a b c Hab Hbc.
  exact (leb_trans _ _ _ Hbc Hab).
- apply StronglySorted_Sorted.
Qed.

Lemma isDescendingByRows_sorted_witness :
StronglySorted
  (fun a b => JsNumber.leb (DbStats.statRows b) (DbStats.statRows a) = true)
  [ {| DbStats.statTable := "orders"; DbStats.statRows := Fin 5; DbStats.statSize := "1 MB" |};
    {| DbStats.statTable := "users"; DbStats.statRows := Fin 3; DbStats.statSize := "1 MB" |};
    {| DbStats.statTable := "roles"; DbStats.statRows := Fin 3; DbStats.statSize := "16 KB" |} ].
Proof.
apply isDescendingByRows_sorted; [|reflexivity].
repeat constructor; discriminate.
Defined.

(** With a row count that is NaN the check of neighbours passes a list
    that is not in order: 1, NaN, 5. *)
Lemma isDescendingByRows_nan :
DbStats.isDescendingByRows
  [ {| DbStats.statTable := "a"; DbStats.statRows := Fin 1; DbStats.statSize := "0 B" |};
    {| DbStats.statTable := "b"; DbStats.statRows := NaN; DbStats.statSize := "0 B" |};
    {| DbStats.statTable := "c"; DbStats.statRows := Fin 5; DbStats.statSize := "0 B" |} ] = true /\
JsNumber.leb (Fin 5) (Fin 1) = false.
Proof. split; reflexivity. Qed.

(** ** What [previewData] returns and throws *)

Section PreviewOutcome.
Import JsString Monad PreviewData.

Lemma truncateText_short (value : jsval) (t : string) :
  truncateText value = JStr t -> (String.length t <= 203)%nat.
Proof.
destruct value as [| | b | n | s | bytes]; try discriminate.
unfold truncateText, LIMITS.TEXT_TRUNCATE.
destruct (Nat.ltb_spec 200 (String.length s)) as [Hlong|Hshort]; intros [= <-].
- rewrite length_append, length_substring0 by lia; cbn; lia.
- lia.
Qed.

Lemma isTruncated_cell (value : jsval) :
  isTruncated value (truncateText value) = true <->
  exists s, value = JStr s /\ (200 < String.length s)%nat.
Proof.
destruct value as [| | b | n | s | bytes];
  try (cbn; split; [discriminate | intros (s & E & _); discriminate]).
unfold truncateText, isTruncated, LIMITS.TEXT_TRUNCATE.
destruct (Nat.ltb_spec 200 (String.length s)) as [Hlong|Hshort].
- rewrite endsWith_append; split; [intros _; now exists s | reflexivity].
- split; [discriminate|].
  intros (s' & [= <-] & H); lia.
Qed.

Lemma existsb_eqb (key : string) (set : list string) :
  List.existsb (String.eqb key) set = true <-> In key set.
Proof.
rewrite existsb_exists; split.
- intros (x & Hx & E); apply String.eqb_eq in E; now subst.
- intros H; exists key; split; [exact H | apply String.eqb_refl].
Qed.

Lemma addOnce_In (key : string) (set : list string) (f : string) :
  In f (addOnce key set) <-> f = key \/ In f set.
Proof.
unfold addOnce; destruct (List.existsb (String.eqb key) set) eqn:E.
- apply existsb_eqb in E; split; [tauto|]; intros [->|H]; assumption.
- rewrite in_app_iff; cbn; intuition.
Qed.

Lemma NoDup_snoc (key : string) (set : list string) :
  ~ In key set -> NoDup set -> NoDup (set ++ [key]).
Proof.
induction set as [|x set IH]; cbn; intros Hn Hd.
- constructor; [tauto | constructor].
- inversion Hd as [|? ? Hx Hd']; subst; constructor.
  + rewrite in_app_iff; cbn; intuition.
  + apply IH; tauto.
Qed.

Lemma addOnce_NoDup (key : string) (set : list string) :
  NoDup set -> NoDup (addOnce key set).
Proof.
unfold addOnce; destruct (List.existsb (String.eqb key) set) eqn:E; [tauto|].
apply NoDup_snoc; rewrite <- existsb_eqb, E; discriminate.
Qed.

Lemma marked_cells (row : Row) (set : list string) (f : string) :
  NoDup set ->
  NoDup (fold_left (fun set cell =>
                      if isTruncated (snd cell) (truncateText (snd cell))
                      then addOnce (fst cell) set else set) row set) /\
  (In f (fold_left (fun set cell =>
                      if isTruncated (snd cell) (truncateText (snd cell))
                      then addOnce (fst cell) set else set) row set) <->
   In f set \/
   exists cell, In cell row /\ fst cell = f /\
                isTruncated (snd cell) (truncateText (snd cell)) = true).
Proof.
revert set; induction row as [|cell row IH]; intros set Hd; cbn [fold_left].
- split; [exact Hd|]; split; [tauto|]; intros [H|(c & [] & _)]; exact H.
- destruct (isTruncated (snd cell) (truncateText (snd cell))) eqn:E.
  + destruct (IH (addOnce (fst cell) set) (addOnce_NoDup _ _ Hd)) as [Hn Hi].
    split; [exact Hn|]; rewrite Hi, addOnce_In; split.
    * intros [[->|H]|(c & Hc & Hf & Ht)]; [right; exists cell; cbn; tauto | tauto |].
      right; exists c; cbn; tauto.
    * intros [H|(c & [<-|Hc] & Hf & Ht)]; [tauto | subst; tauto |].
      right; exists c; tauto.
  + destruct (IH set Hd) as [Hn Hi].
    split; [exact Hn|]; rewrite Hi; split.
    * intros [H|(c & Hc & Hf & Ht)]; [tauto|]; right; exists c; cbn; tauto.
    * intros [H|(c & [<-|Hc] & Hf & Ht)]; [tauto | congruence |].
      right; exists c; tauto.
Qed.

Lemma marked_rows (source : list Row) (set : list string) (f : string) :
  NoDup set ->
  NoDup (fold_left
           (fun set row =>
              fold_left (fun set cell =>
                           if isTruncated (snd cell) (truncateText (snd cell))
                           then addOnce (fst cell) set else set) row set)
           source set) /\
  (In f (fold_left
           (fun set row =>
              fold_left (fun set cell =>
                           if isTruncated (snd cell) (truncateText (snd cell))
                           then addOnce (fst cell) set else set) row set)
           source set) <->
   In f set \/
   exists row cell, In row source /\ In cell row /\ fst cell = f /\
                    isTruncated (snd cell) (truncateText (snd cell)) = true).
Proof.
revert set; induction source as [|row source IH]; intros set Hd; cbn [fold_left].
- split; [exact Hd|]; split; [tauto|]; intros [H|(r & c & [] & _)]; exact H.
- destruct (marked_cells row set f Hd) as [Hn Hi].
  destruct (IH _ Hn) as [Hn' Hi'].
  split; [exact Hn'|]; rewrite Hi', Hi; split.
  + intros [[H|(c & Hc & Hf & Ht)]|(r & c & Hr & Hc & Hf & Ht)]; [tauto | |].
    * right; exists row, c; cbn; tauto.
    * right; exists r, c; cbn; tauto.
  + intros [H|(r & c & [<-|Hr] & Hc & Hf & Ht)]; [tauto | |].
    * left; right; exists c; tauto.
    * right; exists r, c; tauto.
Qed.

Variable validate : string -> ValidationResult.
Variable execute : Pool -> string -> list jsval -> Reply.

(** A returned preview comes from a result of the manager. *)
Lemma previewData_returned (input : PreviewDataInput) (st st' : ManagerState)
  (output : PreviewDataOutput) :
  previewData validate execute input st = (Returned output, st') ->
  exists result,
    ConnectionManager.executeQuery validate execute
      (match inputDatabase input with Some d => d | None => DEFAULT_DATABASE end)
      (previewQuery input) [] Undefined st = (Returned result, st') /\
    outputTable output = table input /\
    outputRows output =
      List.map (List.map (fun cell => (fst cell, truncateText (snd cell)))) (rows result) /\
    totalRows output = Z.of_nat (List.length (rows result)) /\
    truncatedFields output =
      fold_left
        (fun set row =>
           fold_left (fun set cell =>
                        if isTruncated (snd cell) (truncateText (snd cell))
                        then addOnce (fst cell) set else set) row set)
        (rows result) [].
Proof.
unfold previewData; cbv zeta; unfold tryCatch, bind.
destruct (ConnectionManager.executeQuery _ _ _ _ _ _ st) as [[result|message|] st1];
  [| |discriminate].
- intros [= <- <-]; exists result; cbn.
  rewrite length_map; repeat split.
- destruct (_ || _); discriminate.
Qed.

End PreviewOutcome.

(** X15.  A preview holds the rows of the manager with every cell passed
    through [truncateText]: row by row and cell by cell the key is kept and
    the value is the truncation of the value of the manager.  So the keys
    of every row are kept in order, no string cell is longer than 203
    characters, and there are at most 1000 rows, the limit of the manager,
    whatever limit the preview asked for. *)
Theorem previewData_rows
  (validate : string -> ValidationResult)
  (execute : Pool -> string -> list jsval -> Reply)
  (input : PreviewData.PreviewDataInput)
  (st st' : Monad.ManagerState) (output : PreviewData.PreviewDataOutput) :
PreviewData.previewData validate execute input st = (Monad.Returned output, st') ->
exists result,
  ConnectionManager.executeQuery validate execute
    (match PreviewData.inputDatabase input with
     | Some d => d
     | None => PreviewData.DEFAULT_DATABASE
     end)
    (PreviewData.previewQuery input) [] Undefined st = (Monad.Returned result, st') /\
  PreviewData.outputTable output = PreviewData.table input /\
  PreviewData.outputRows output =
    List.map
      (List.map (fun cell => (fst cell, PreviewData.truncateText (snd cell))))
      (rows result) /\
  List.map PreviewChecks.keys (PreviewData.outputRows output) =
    List.map PreviewChecks.keys (rows result) /\
  PreviewData.totalRows output = rowCount result /\
  PreviewData.totalRows output = Z.of_nat (List.length (PreviewData.outputRows output)) /\
  PreviewData.totalRows output <= 1000 /\
  (forall row key t,
     In row (PreviewData.outputRows output) -> In (key, JStr t) row ->
     (String.length t <= 203)%nat).
Proof.
intros Hrun.
destruct (previewData_returned validate execute input st st' output Hrun)
  as (result & Hq & Ht & Hr & Hn & _).
exists result; split; [exact Hq|]; split; [exact Ht|]; split; [exact Hr|].
destruct (executeQuery_returned validate execute _ _ _ _ _ _ _ Hq)
  as (_ & pool & answerRows & answerFields & _ & _ & Hres & _).
destruct (shaped_count answerRows answerFields 1000) as [Hb Hc]; [lia|].
change (ConnectionManager.effectiveLimitOf Undefined) with (Fin 1000) in Hres.
rewrite <- Hres in Hb, Hc.
split; [|split; [lia|split; [|split; [lia|]]]].
- rewrite Hr, map_map; apply map_ext; intros row.
  unfold PreviewChecks.keys; rewrite map_map; now apply map_ext.
- now rewrite Hr, length_map.
- intros row key t Hrow Hcell; rewrite Hr in Hrow.
  apply in_map_iff in Hrow; destruct Hrow as (row0 & <- & _).
  apply in_map_iff in Hcell; destruct Hcell as (cell & [= _ E] & _).
  now apply truncateText_short in E.
Qed.

Lemma previewData_rows_witness :
exists output st',
  PreviewData.previewData QueryValidator.validate
    (fun _ _ _ => Answer (Sample.table 3) [])
    {| PreviewData.table := "users"; PreviewData.inputDatabase := None;
       PreviewData.columns := None; PreviewData.limit := Num (Fin 2);
       PreviewData.where_ := None |} Sample.ready = (Monad.Returned output, st') /\
  PreviewData.totalRows output <= 1000.
Proof.
assert (Hrun : exists output st',
  PreviewData.previewData QueryValidator.validate
    (fun _ _ _ => Answer (Sample.table 3) [])
    {| PreviewData.table := "users"; PreviewData.inputDatabase := None;
       PreviewData.columns := None; PreviewData.limit := Num (Fin 2);
       PreviewData.where_ := None |} Sample.ready = (Monad.Returned output, st'))
  by (vm_compute; eauto).
destruct Hrun as (output & st' & Hrun); exists output, st'.
split; [exact Hrun|].
destruct (previewData_rows _ _ _ _ _ _ Hrun) as (result & _ & _ & _ & _ & _ & _ & Hcap & _).
exact Hcap.
Defined.

(** X16.  The truncated fields of a preview are the keys under which some
    row of the manager holds a string of more than 200 characters, each
    listed once. *)
Theorem previewData_truncatedFields
  (validate : string -> ValidationResult)
  (execute : Pool -> string -> list jsval -> Reply)
  (input : PreviewData.PreviewDataInput)
  (st st' : Monad.ManagerState) (output : PreviewData.PreviewDataOutput) :
PreviewData.previewData validate execute input st = (Monad.Returned output, st') ->
exists result,
  ConnectionManager.executeQuery validate execute
    (match PreviewData.inputDatabase input with
     | Some d => d
     | None => PreviewData.DEFAULT_DATABASE
     end)
    (PreviewData.previewQuery input) [] Undefined st = (Monad.Returned result, st') /\
  NoDup (PreviewData.truncatedFields output) /\
  (forall field,
     In field (PreviewData.truncatedFields output) <->
     exists row s,
       In row (rows result) /\ In (field, JStr s) row /\ (200 < String.length s)%nat).
Proof.
intros Hrun.
destruct (previewData_returned validate execute input st st' output Hrun)
  as (result & Hq & _ & _ & _ & Hf).
exists result; split; [exact Hq|]; rewrite Hf; split.
- apply (marked_rows (rows result) [] EmptyString); constructor.
- intros field.
  destruct (marked_rows (rows result) [] field (NoDup_nil _)) as [_ Hi].
  rewrite Hi; split.
  + intros [[]|(row & [key value] & Hr & Hc & Hk & Ht)]; cbn in Hk, Ht; subst key.
    apply isTruncated_cell in Ht; destruct Ht as (s & -> & Hs).
    now exists row, s.
  + intros (row & s & Hr & Hc & Hs); right; exists row, (field, JStr s).
    repeat split; try assumption.
    apply isTruncated_cell; now exists s.
Qed.

(** X17.  [previewData] never stays pending, and what it throws is the
    message the manager threw, except that a message with [doesn't exist]
    or [Unknown table] in it is replaced by the report that the table does
    not exist in the database asked for. *)
Theorem previewData_failures
  (validate : string -> ValidationResult)
  (execute : Pool -> string -> list jsval -> Reply)
  (input : PreviewData.PreviewDataInput) (st : Monad.ManagerState) :
fst (PreviewData.previewData validate execute input st) <> Monad.Pending /\
forall thrown st',
  PreviewData.previewData validate execute input st = (Monad.Thrown thrown, st') ->
  exists message,
    ConnectionManager.executeQuery validate execute
      (match PreviewData.inputDatabase input with
       | Some d => d
       | None => PreviewData.DEFAULT_DATABASE
       end)
      (PreviewData.previewQuery input) [] Undefined st = (Monad.Thrown message, st') /\
    thrown =
      if JsString.includes "doesn't exist" message ||
         JsString.includes "Unknown table" message
      then "Table '" ++ PreviewData.table input ++ "' does not exist in database '" ++
           databaseName (match PreviewData.inputDatabase input with
                         | Some d => d
                         | None => PreviewData.DEFAULT_DATABASE
                         end) ++ "'"
      else message.
Proof.
pose proof (executeQuery_settles validate execute
  (match PreviewData.inputDatabase input with
   | Some d => d
   | None => PreviewData.DEFAULT_DATABASE
   end) (PreviewData.previewQuery input) [] Undefined st) as Hsettle.
unfold PreviewData.previewData; cbv zeta; unfold Monad.tryCatch, Monad.bind.
destruct (ConnectionManager.executeQuery _ _ _ _ _ _ st) as [[result|message|] st1];
  [| |now elim Hsettle].
- split; [discriminate|]; intros thrown st'; discriminate.
- split; [now destruct (_ || _)|].
  intros thrown st' H; exists message.
  destruct (_ || _); injection H as <- <-; split; reflexivity.
Qed.

Lemma previewData_failures_witness :
PreviewData.previewData QueryValidator.validate
  (fun _ _ _ => Fails "Table 'shop.users' doesn't exist")
  {| PreviewData.table := "users"; PreviewData.inputDatabase := None;
     PreviewData.columns := None; PreviewData.limit := Undefined;
     PreviewData.where_ := None |} Sample.ready =
(Monad.Thrown "Table 'users' does not exist in database 'crm'",
 ConnectionManager.asked Sample.ready
   (Execute (ConnectionManager.createPool Sample.config)
      "SELECT * FROM `users` LIMIT 10" [])).
Proof.
destruct (previewData_failures QueryValidator.validate
            (fun _ _ _ => Fails "Table 'shop.users' doesn't exist")
            {| PreviewData.table := "users"; PreviewData.inputDatabase := None;
               PreviewData.columns := None; PreviewData.limit := Undefined;
               PreviewData.where_ := None |} Sample.ready) as [_ H].
destruct (H "Table 'users' does not exist in database 'crm'"
            (ConnectionManager.asked Sample.ready
               (Execute (ConnectionManager.createPool Sample.config)
                  "SELECT * FROM `users` LIMIT 10" [])) eq_refl) as (message & _ & _).
reflexivity.
Defined.

Lemma previewData_truncatedFields_witness :
exists output st',
  PreviewData.previewData QueryValidator.validate
    (fun _ _ _ =>
       Answer [[("id", JNum 1);
                ("bio", JStr (String.concat EmptyString (List.repeat "ab" 101)))]] [])
    {| PreviewData.table := "users"; PreviewData.inputDatabase := None;
       PreviewData.columns := None; PreviewData.limit := Undefined;
       PreviewData.where_ := None |} Sample.ready = (Monad.Returned output, st') /\
  In "bio" (PreviewData.truncatedFields output).
Proof.
assert (Hrun : exists output st',
  PreviewData.previewData QueryValidator.validate
    (fun _ _ _ =>
       Answer [[("id", JNum 1);
                ("bio", JStr (String.concat EmptyString (List.repeat "ab" 101)))]] [])
    {| PreviewData.table := "users"; PreviewData.inputDatabase := None;
       PreviewData.columns := None; PreviewData.limit := Undefined;
       PreviewData.where_ := None |} Sample.ready = (Monad.Returned output, st'))
  by (vm_compute; eauto).
destruct Hrun as (output & st' & Hrun); exists output, st'.
split; [exact Hrun|].
destruct (previewData_truncatedFields _ _ _ _ _ _ Hrun) as (result & Hq & _ & Hf).
apply Hf.
assert (Hres : rows result =
          [[("id", JNum 1);
            ("bio", JStr (String.concat EmptyString (List.repeat "ab" 101)))]]).
{ vm_compute in Hq; now injection Hq as <- _. }
rewrite Hres.
eexists _, _; split; [now left|]; split; [right; now left|].
vm_compute; lia.
Defined.

(** ** The indexes [getIndexInfo] builds *)

Section IndexGrouping.
Import DescribeTable.

Variable stringToNumber : string -> option Z.
Variable numberToString : Z -> string.
Variable bufferToString : list ascii -> string.

Local Abbreviation keyNameOf := (DescribeTable.keyNameOf numberToString bufferToString).
Local Abbreviation columnNameOf := (DescribeTable.columnNameOf numberToString bufferToString).
Local Abbreviation rowsOf := (DescribeTable.rowsOf numberToString bufferToString).
Local Abbreviation indexStep :=
  (DescribeTable.indexStep stringToNumber numberToString bufferToString).
Local Abbreviation grouped :=
  (DescribeTable.grouped stringToNumber numberToString bufferToString).

Lemma has_iff (key : string) (indexMap : list (string * IndexEntry)) :
  has key indexMap = true <-> In key (List.map fst indexMap).
Proof.
unfold has; rewrite existsb_exists, in_map_iff; split.
- intros (b & Hb & E); apply String.eqb_eq in E; now exists b.
- intros (b & E & Hb); exists b; split; [exact Hb | now apply String.eqb_eq].
Qed.

Lemma pushColumn_keys (key column : string) (indexMap : list (string * IndexEntry)) :
  List.map fst (pushColumn key column indexMap) = List.map fst indexMap.
Proof.
induction indexMap as [|[k entry] indexMap IH]; [reflexivity|].
cbn [pushColumn]; destruct (String.eqb k key); cbn; [reflexivity | now rewrite IH].
Qed.

Lemma pushColumn_In (key column : string) (indexMap : list (string * IndexEntry))
  (k : string) (entry : IndexEntry) :
  NoDup (List.map fst indexMap) ->
  In (k, entry) (pushColumn key column indexMap) ->
  (k = key /\ exists before,
     In (key, before) indexMap /\
     entryColumns entry = (entryColumns before ++ [column])%list /\
     entryUnique entry = entryUnique before /\ entryType entry = entryType before) \/
  (k <> key /\ In (k, entry) indexMap).
Proof.
induction indexMap as [|[k0 e0] indexMap IH]; [contradiction|].
cbn [pushColumn List.map fst]; intros Hd; inversion Hd as [|? ? Hk0 Hd']; subst.
destruct (String.eqb_spec k0 key) as [->|Hne].
- intros [[= <- <-]|Hin].
  + left; split; [reflexivity|]; exists e0; cbn; tauto.
  + right; split; [|now right].
    intros ->; apply Hk0; apply in_map_iff; now exists (key, entry).
- intros [[= <- <-]|Hin].
  + right; split; [exact Hne | now left].
  + destruct (IH Hd' Hin) as [(-> & before & Hb & Hrest)|[Hk Hb]].
    * left; split; [reflexivity|]; exists before; split; [now right | exact Hrest].
    * right; split; [exact Hk | now right].
Qed.

Lemma rowsOf_snoc (keyName : string) (seen : list Row) (row : Row) :
  rowsOf keyName (seen ++ [row]) =
  (rowsOf keyName seen ++ if String.eqb (keyNameOf row) keyName then [row] else [])%list.
Proof. unfold DescribeTable.rowsOf; now rewrite filter_app. Qed.

Lemma grouped_step (seen : list Row) (state : list (string * IndexEntry) * list string)
  (row : Row) :
  grouped seen state -> grouped (seen ++ [row]) (indexStep state row).
Proof.
destruct state as [indexMap primaryKey].
intros (Hd & Hkeys & Hentries & Hpk); cbn [fst snd] in *.
unfold DescribeTable.grouped, DescribeTable.indexStep; cbv zeta; cbn [fst snd].
set (indexMap1 :=
  if negb (has (keyNameOf row) indexMap)
  then (indexMap ++ [(keyNameOf row,
                      {| entryColumns := [];
                         entryUnique :=
                           negb (DescribeTable.nonUniqueOf stringToNumber row);
                         entryType :=
                           DescribeTable.indexTypeOf numberToString bufferToString row |})])%list
  else indexMap).
assert (Hkeys1 : forall k, In k (List.map fst indexMap1) <->
                           In k (List.map fst indexMap) \/ k = keyNameOf row).
{ intros k; unfold indexMap1.
  destruct (has (keyNameOf row) indexMap) eqn:Eh; cbn [negb].
  - apply has_iff in Eh; split; [tauto | intros [H| ->]; assumption].
  - rewrite map_app, in_app_iff; cbn; intuition. }
assert (Hd1 : NoDup (List.map fst indexMap1)).
{ unfold indexMap1; destruct (has (keyNameOf row) indexMap) eqn:Eh; cbn [negb];
    [exact Hd|].
  rewrite map_app; cbn; apply NoDup_snoc; [|exact Hd].
  rewrite <- has_iff, Eh; discriminate. }
assert (Hnew : forall k, rowsOf k (seen ++ [row]) <> [] <->
                         rowsOf k seen <> [] \/ k = keyNameOf row).
{ intros k; rewrite rowsOf_snoc.
  destruct (String.eqb_spec (keyNameOf row) k) as [E|E].
  - split; [now right | intros _ H; apply app_eq_nil in H; now destruct H].
  - rewrite app_nil_r; split; [tauto | intros [H|H]; [exact H | congruence]]. }
split; [now rewrite pushColumn_keys|].
split; [intros k; now rewrite pushColumn_keys, Hkeys1, Hkeys, Hnew|].
split.
- intros k entry Hin.
  apply (pushColumn_In _ _ _ _ _ Hd1) in Hin.
  destruct Hin as [(-> & before & Hb & Hc & Hu & Ht)|[Hk Hb]].
  + rewrite rowsOf_snoc, String.eqb_refl, map_app, Hc, Hu, Ht.
    unfold indexMap1 in Hb.
    destruct (has (keyNameOf row) indexMap) eqn:Eh; cbn [negb] in Hb.
    * destruct (Hentries _ _ Hb) as (Hcols & first & rest & Hr & Hu' & Ht').
      split; [now rewrite Hcols|].
      exists first, (rest ++ [row])%list; rewrite Hr; now repeat split.
    * assert (Hnone : rowsOf (keyNameOf row) seen = []).
      { destruct (rowsOf (keyNameOf row) seen) eqn:Er; [reflexivity|].
        assert (Hin : In (keyNameOf row) (List.map fst indexMap))
          by (apply Hkeys; rewrite Er; discriminate).
        apply has_iff in Hin; congruence. }
      apply in_app_or in Hb; destruct Hb as [Hb|[[= <-]|[]]].
      -- assert (Hin : In (keyNameOf row) (List.map fst indexMap))
           by (apply in_map_iff; now exists (keyNameOf row, before)).
         apply has_iff in Hin; congruence.
      -- rewrite Hnone; cbn; split; [reflexivity|].
         exists row, []; now repeat split.
  + assert (Hold : In (k, entry) indexMap).
    { unfold indexMap1 in Hb; destruct (has (keyNameOf row) indexMap); cbn [negb] in Hb;
        [exact Hb|].
      apply in_app_or in Hb; destruct Hb as [Hb|[[= E _]|[]]]; [exact Hb | congruence]. }
    rewrite rowsOf_snoc.
    destruct (String.eqb_spec (keyNameOf row) k) as [E|E]; [congruence|].
    rewrite app_nil_r; now apply Hentries.
- rewrite rowsOf_snoc, map_app, <- Hpk.
  destruct (String.eqb (keyNameOf row) "PRIMARY"); cbn; [reflexivity|].
  now rewrite app_nil_r.
Qed.

Lemma grouped_fold (indexRows seen : list Row)
  (state : list (string * IndexEntry) * list string) :
  grouped seen state ->
  grouped (seen ++ indexRows) (fold_left indexStep indexRows state).
Proof.
revert seen state; induction indexRows as [|row indexRows IH]; intros seen state H.
- now rewrite app_nil_r.
- cbn [fold_left].
  replace (seen ++ row :: indexRows)%list with ((seen ++ [row]) ++ indexRows)%list
    by now rewrite <- app_assoc.
  apply IH; now apply grouped_step.
Qed.

Lemma grouped_all (indexRows : list Row) :
  grouped indexRows (fold_left indexStep indexRows ([], [])).
Proof.
apply (grouped_fold indexRows [] ([], [])).
split; [constructor|]; split; [|split; [intros ? ? []|reflexivity]].
intros k; cbn; tauto.
Qed.

Lemma rowsOf_nonempty (keyName : string) (indexRows : list Row) :
  rowsOf keyName indexRows <> [] <->
  exists row, In row indexRows /\ keyNameOf row = keyName.
Proof.
unfold DescribeTable.rowsOf; split.
- destruct (List.filter _ indexRows) as [|row rest] eqn:E; [tauto|]; intros _.
  assert (Hin : In row (List.filter
                          (fun row => String.eqb (keyNameOf row) keyName) indexRows))
    by (rewrite E; now left).
  apply filter_In in Hin; destruct Hin as [Hin Hk].
  exists row; split; [exact Hin | now apply String.eqb_eq].
- intros (row & Hin & Hk) E.
  assert (Hf : In row (List.filter
                         (fun row => String.eqb (keyNameOf row) keyName) indexRows))
    by (apply filter_In; split; [exact Hin | now apply String.eqb_eq]).
  now rewrite E in Hf.
Qed.

End IndexGrouping.

(** X18.  The indexes [getIndexInfo] builds carry the key names of the rows
    of SHOW INDEX, each once. *)
Theorem groupIndexes_names
  (stringToNumber : string -> option Z)
  (numberToString : Z -> string) (bufferToString : list ascii -> string)
  (indexRows : list Row) :
NoDup (List.map DescribeTable.indexName
         (fst (DescribeTable.groupIndexes stringToNumber numberToString bufferToString
                 indexRows))) /\
forall keyName,
  In keyName
    (List.map DescribeTable.indexName
       (fst (DescribeTable.groupIndexes stringToNumber numberToString bufferToString
               indexRows))) <->
  exists row,
    In row indexRows /\
    DescribeTable.keyNameOf numberToString bufferToString row = keyName.
Proof.
destruct (grouped_all stringToNumber numberToString bufferToString indexRows)
  as (Hd & Hkeys & _).
unfold DescribeTable.groupIndexes; cbv zeta; cbn [fst].
rewrite map_map.
change (List.map (fun binding => DescribeTable.indexName (DescribeTable.indexInfoOf binding)))
  with (List.map (@fst string DescribeTable.IndexEntry)).
split; [exact Hd|].
intros keyName; split.
- intros H; apply Hkeys in H; now apply rowsOf_nonempty in H.
- intros H; apply Hkeys; now apply rowsOf_nonempty.
Qed.

(** X19.  Every index [getIndexInfo] builds holds the columns of the rows of
    its name, in the order of the rows, and the uniqueness and the type of
    the first of these rows; the primary key holds the columns of the rows
    named PRIMARY, so it is the column list of the index of that name. *)
Theorem groupIndexes_columns
  (stringToNumber : string -> option Z)
  (numberToString : Z -> string) (bufferToString : list ascii -> string)
  (indexRows : list Row) :
(forall index,
   In index (fst (DescribeTable.groupIndexes stringToNumber numberToString bufferToString
                    indexRows)) ->
   DescribeTable.indexColumns index =
     List.map (DescribeTable.columnNameOf numberToString bufferToString)
       (DescribeTable.rowsOf numberToString bufferToString
          (DescribeTable.indexName index) indexRows) /\
   exists first rest,
     DescribeTable.rowsOf numberToString bufferToString
       (DescribeTable.indexName index) indexRows = first :: rest /\
     DescribeTable.unique index = negb (DescribeTable.nonUniqueOf stringToNumber first) /\
     DescribeTable.indexType index =
       DescribeTable.indexTypeOf numberToString bufferToString first) /\
snd (DescribeTable.groupIndexes stringToNumber numberToString bufferToString indexRows) =
  List.map (DescribeTable.columnNameOf numberToString bufferToString)
    (DescribeTable.rowsOf numberToString bufferToString "PRIMARY" indexRows) /\
(forall index,
   In index (fst (DescribeTable.groupIndexes stringToNumber numberToString bufferToString
                    indexRows)) ->
   DescribeTable.indexName index = "PRIMARY" ->
   DescribeTable.indexColumns index =
   snd (DescribeTable.groupIndexes stringToNumber numberToString bufferToString indexRows)).
Proof.
destruct (grouped_all stringToNumber numberToString bufferToString indexRows)
  as (_ & _ & Hentries & Hpk).
unfold DescribeTable.groupIndexes; cbv zeta; cbn [fst snd].
assert (Hall : forall index,
  In index (List.map DescribeTable.indexInfoOf
              (fst (fold_left
                      (DescribeTable.indexStep stringToNumber numberToString bufferToString)
                      indexRows ([], [])))) ->
  DescribeTable.indexColumns index =
    List.map (DescribeTable.columnNameOf numberToString bufferToString)
      (DescribeTable.rowsOf numberToString bufferToString
         (DescribeTable.indexName index) indexRows) /\
  exists first rest,
    DescribeTable.rowsOf numberToString bufferToString
      (DescribeTable.indexName index) indexRows = first :: rest /\
    DescribeTable.unique index = negb (DescribeTable.nonUniqueOf stringToNumber first) /\
    DescribeTable.indexType index =
      DescribeTable.indexTypeOf numberToString bufferToString first).
{ intros index Hin; apply in_map_iff in Hin.
  destruct Hin as ([keyName entry] & <- & Hin); cbn.
  exact (Hentries keyName entry Hin). }
split; [exact Hall|]; split; [exact Hpk|].
intros index Hin Hname; destruct (Hall index Hin) as [Hc _].
now rewrite Hc, Hname, Hpk.
Qed.

Lemma groupIndexes_columns_witness :
fst (DescribeTable.groupIndexes (fun _ => None) JsString.ofZ string_of_list_ascii
       [[("Key_name", JStr "PRIMARY"); ("Column_name", JStr "tenant"); ("Non_unique", JNum 0)];
        [("Key_name", JStr "by_mail"); ("Column_name", JStr "mail"); ("Non_unique", JNum 1);
         ("Index_type", JStr "HASH")];
        [("Key_name", JStr "PRIMARY"); ("Column_name", JStr "id"); ("Non_unique", JNum 1)]]) =
[{| DescribeTable.indexName := "PRIMARY";
    DescribeTable.indexColumns := ["tenant"; "id"];
    DescribeTable.unique := true;
    DescribeTable.indexType := "BTREE" |};
 {| DescribeTable.indexName := "by_mail";
    DescribeTable.indexColumns := ["mail"];
    DescribeTable.unique := false;
    DescribeTable.indexType := "HASH" |}] /\
DescribeTable.indexColumns
  {| DescribeTable.indexName := "PRIMARY";
     DescribeTable.indexColumns := ["tenant"; "id"];
     DescribeTable.unique := true;
     DescribeTable.indexType := "BTREE" |} =
snd (DescribeTable.groupIndexes (fun _ => None) JsString.ofZ string_of_list_ascii
       [[("Key_name", JStr "PRIMARY"); ("Column_name", JStr "tenant"); ("Non_unique", JNum 0)];
        [("Key_name", JStr "by_mail"); ("Column_name", JStr "mail"); ("Non_unique", JNum 1);
         ("Index_type", JStr "HASH")];
        [("Key_name", JStr "PRIMARY"); ("Column_name", JStr "id"); ("Non_unique", JNum 1)]]).
Proof.
split; [reflexivity|].
destruct (groupIndexes_columns (fun _ => None) JsString.ofZ string_of_list_ascii
  [[("Key_name", JStr "PRIMARY"); ("Column_name", JStr "tenant"); ("Non_unique", JNum 0)];
   [("Key_name", JStr "by_mail"); ("Column_name", JStr "mail"); ("Non_unique", JNum 1);
    ("Index_type", JStr "HASH")];
   [("Key_name", JStr "PRIMARY"); ("Column_name", JStr "id"); ("Non_unique", JNum 1)]])
  as (_ & _ & H).
apply H; [now left | reflexivity].
Defined.

(** ** Statements that reach the driver as they are written *)

Section KeywordQueries.
Import JsString ConnectionManager.

Lemma trimEnd_word (word rest : string) :
  (forall c, occurs c word -> isWhitespace c = false) ->
  exists rest', trimEnd (word ++ rest) = word ++ rest'.
Proof.
induction word as [|c word IH]; intros Hw; [now exists (trimEnd rest)|].
destruct IH as [r Hr]; [intros d Hd; apply Hw; now right|].
cbn [append trimEnd]; rewrite Hr.
destruct (word ++ r) as [|d s] eqn:E.
- rewrite (Hw c (or_introl eq_refl)).
  destruct word; [|discriminate]; now exists EmptyString.
- now exists r; rewrite E.
Qed.

Lemma addLimitToQuery_keyword (keyword rest : string) (limit : jsnum) :
  In keyword Clauses.UNLIMITED ->
  addLimitToQuery (keyword ++ rest) limit = keyword ++ rest.
Proof.
intros Hk; unfold addLimitToQuery; cbv zeta.
destruct (hasLimit (keyword ++ rest)); [reflexivity|].
assert (Hw : forall c, occurs c keyword -> isWhitespace c = false).
{ cbn in Hk; intros c Hc.
  repeat (destruct Hk as [<-|Hk];
          [cbn in Hc; repeat (destruct Hc as [<-|Hc]; [reflexivity|]); contradiction|]).
  contradiction. }
assert (Hstart : trimStart (keyword ++ rest) = keyword ++ rest).
{ destruct keyword as [|c keyword]; [cbn in Hk; intuition discriminate|].
  cbn [append trimStart]; now rewrite (Hw c (or_introl eq_refl)). }
destruct (trimEnd_word keyword rest Hw) as [rest' Ht].
unfold trim; rewrite Hstart, Ht.
assert (Hs : startsWith keyword (toUpperCase (keyword ++ rest')) = true).
{ apply startsWith_upper; [now apply unlimited_plain|].
  exists keyword, rest'; split; [reflexivity|].
  cbn in Hk; repeat (destruct Hk as [<-|Hk]; [cbn; intuition|]); contradiction. }
cbn in Hk; destruct Hk as [<-|[<-|[<-|[]]]]; rewrite Hs;
  rewrite ?orb_true_r; reflexivity.
Qed.

End KeywordQueries.

(** X20.  The statements of [getColumnInfo] and [getIndexInfo] reach the
    driver as they are written, whatever the table is called: the manager
    adds no LIMIT to a DESCRIBE or a SHOW. *)
Theorem describe_queries_untouched (tableName : string) (limit : jsnum) :
ConnectionManager.addLimitToQuery (DescribeTable.describeQuery tableName) limit =
  DescribeTable.describeQuery tableName /\
ConnectionManager.addLimitToQuery (DescribeTable.showIndexQuery tableName) limit =
  DescribeTable.showIndexQuery tableName.
Proof.
split.
- apply (addLimitToQuery_keyword "DESCRIBE"
           (" `" ++ DescribeTable.escapeSqlIdentifier tableName ++ "`")).
  cbn; tauto.
- apply (addLimitToQuery_keyword "SHOW"
           (" INDEX FROM `" ++ DescribeTable.escapeSqlIdentifier tableName ++ "`")).
  cbn; tauto.
Qed.

(** ** The tools built on [executeQuery] *)

Section ToolFacts.
Import Monad ConnectionManager.

Lemma bind_returned {A B : Type} (m : M A) (k : A -> M B) (st st' : ManagerState) (b : B) :
  bind m k st = (Returned b, st') ->
  exists a st1, m st = (Returned a, st1) /\ k a st1 = (Returned b, st').
Proof.
unfold bind; destruct (m st) as [[a|message|] st1]; try discriminate.
intros H; now exists a, st1.
Qed.

Lemma shaped_firstn (answerRows : list Row) (answerFields : list FieldPacket) (limit : Z) :
  0 <= limit ->
  rows (shaped answerRows answerFields (Fin limit)) = firstn (Z.to_nat limit) answerRows.
Proof.
intros H0; unfold shaped; cbn [rows JsNumber.gtb JsNumber.ltb].
destruct (Z.ltb_spec limit (Z.of_nat (List.length answerRows))) as [Hgt|Hle].
- destruct (slice0_length answerRows limit H0) as [Hs _]; [lia | exact Hs].
- rewrite firstn_all2; [reflexivity | lia].
Qed.

Variable validate : string -> ValidationResult.
Variable execute : Pool -> string -> list jsval -> Reply.

Lemma executeQuery_pools database query params limit st :
  pools (snd (executeQuery validate execute database query params limit st)) = pools st.
Proof.
destruct (valid (validate query)) eqn:Hv.
- destruct (pools st database) as [pool|] eqn:Hp.
  + now rewrite (executeQuery_accepted validate execute _ _ _ _ _ pool Hv Hp).
  + now rewrite (executeQuery_no_pool validate execute _ _ _ _ _ Hv Hp).
- now rewrite (executeQuery_rejected_state validate execute _ _ _ _ _ Hv).
Qed.

(** A result of the default limit holds at most 1000 rows. *)
Lemma executeQuery_default_rows database query params st result st' :
  executeQuery validate execute database query params Undefined st = (Returned result, st') ->
  (List.length (rows result) <= 1000)%nat.
Proof.
intros Hq.
destruct (executeQuery_returned validate execute _ _ _ _ _ _ _ Hq)
  as (_ & pool & answerRows & answerFields & _ & _ & -> & _).
change (effectiveLimitOf Undefined) with (Fin 1000).
destruct (shaped_count answerRows answerFields 1000) as [Hb Hc]; lia.
Qed.

End ToolFacts.

(** ** [describeTable] *)

(** X21.  [describeTable] reports a table as missing after the DESCRIBE
    alone: when the driver answers it with no row, or fails with a message
    in which [doesn't exist] or [Unknown table] is left after sanitizing,
    the tool throws the report and has asked for nothing else. *)
Theorem describeTable_missing
  (validate : string -> ValidationResult)
  (execute : Pool -> string -> list jsval -> Reply)
  (stringToNumber : string -> option Z)
  (numberToString : Z -> string) (bufferToString : list ascii -> string)
  (tableName : string) (inputDatabase : option DatabaseType)
  (st : Monad.ManagerState) (pool : Pool) :
valid (validate (DescribeTable.describeQuery tableName)) = true ->
Monad.pools st
  (match inputDatabase with Some d => d | None => DescribeTable.DEFAULT_DATABASE end) =
  Some pool ->
((exists answerFields,
    execute pool (DescribeTable.describeQuery tableName) [] = Answer [] answerFields) \/
 (exists message,
    execute pool (DescribeTable.describeQuery tableName) [] = Fails message /\
    JsString.includes "doesn't exist" (ConnectionManager.sanitizeMessage message) ||
    JsString.includes "Unknown table" (ConnectionManager.sanitizeMessage message) = true)) ->
DescribeTable.describeTable validate execute stringToNumber numberToString bufferToString
  tableName inputDatabase st =
(Monad.Thrown
   (DescribeTable.missingTable tableName
      (match inputDatabase with Some d => d | None => DescribeTable.DEFAULT_DATABASE end)),
 ConnectionManager.asked st (Execute pool (DescribeTable.describeQuery tableName) [])).
Proof.
intros Hv Hp Hd.
unfold DescribeTable.describeTable, DescribeTable.getColumnInfo; cbv zeta.
unfold Monad.bind at 1; unfold Monad.tryCatch, Monad.bind.
rewrite (executeQuery_accepted validate execute _ _ _ _ _ pool Hv Hp); cbv zeta.
change (JsNumber.add (ConnectionManager.effectiveLimitOf Undefined) (Fin 1)) with (Fin 1001).
assert (Hsent : ConnectionManager.addLimitToQuery
                  (DescribeTable.describeQuery tableName) (Fin 1001) =
                DescribeTable.describeQuery tableName).
{ apply (addLimitToQuery_keyword "DESCRIBE"
           (" `" ++ DescribeTable.escapeSqlIdentifier tableName ++ "`")).
  cbn; tauto. }
rewrite Hsent.
destruct Hd as [(answerFields & ->)|(message & -> & Hm)].
- reflexivity.
- now rewrite Hm.
Qed.

Lemma describeTable_missing_witness :
DescribeTable.describeTable QueryValidator.validate
  (fun _ _ _ => Fails "Table 'shop.orders' doesn't exist")
  (fun _ => None) JsString.ofZ string_of_list_ascii "orders" (Some operation) Sample.ready =
(Monad.Thrown "Table 'orders' does not exist in database 'operation'",
 ConnectionManager.asked Sample.ready
   (Execute (ConnectionManager.createPool Sample.config) "DESCRIBE `orders`" [])).
Proof.
apply (describeTable_missing QueryValidator.validate
         (fun _ _ _ => Fails "Table 'shop.orders' doesn't exist")
         (fun _ => None) JsString.ofZ string_of_list_ascii "orders" (Some operation)
         Sample.ready (ConnectionManager.createPool Sample.config)).
- reflexivity.
- reflexivity.
- right; exists "Table 'shop.orders' doesn't exist"; split; reflexivity.
Defined.

(** X22.  A description [describeTable] returns has at least one column and
    at most 1000, carries the name it was asked for, lists every index name
    once, and its primary key is the column list of its index PRIMARY, or
    empty when it has no such index. *)
Theorem describeTable_returned
  (validate : string -> ValidationResult)
  (execute : Pool -> string -> list jsval -> Reply)
  (stringToNumber : string -> option Z)
  (numberToString : Z -> string) (bufferToString : list ascii -> string)
  (tableName : string) (inputDatabase : option DatabaseType)
  (st st' : Monad.ManagerState) (output : DescribeTable.DescribeTableOutput) :
DescribeTable.describeTable validate execute stringToNumber numberToString bufferToString
  tableName inputDatabase st = (Monad.Returned output, st') ->
DescribeTable.outputTable output = tableName /\
DescribeTable.columns output <> [] /\
(List.length (DescribeTable.columns output) <= 1000)%nat /\
NoDup (List.map DescribeTable.indexName (DescribeTable.indexes output)) /\
(forall index,
   In index (DescribeTable.indexes output) ->
   DescribeTable.indexName index = "PRIMARY" ->
   DescribeTable.indexColumns index = DescribeTable.primaryKey output) /\
((forall index,
    In index (DescribeTable.indexes output) ->
    DescribeTable.indexName index <> "PRIMARY") ->
 DescribeTable.primaryKey output = []).
Proof.
unfold DescribeTable.describeTable; cbv zeta; intros Hrun.
apply bind_returned in Hrun; destruct Hrun as (columns & st1 & Hcols & Hrun).
destruct columns as [|column columns]; [discriminate|].
apply bind_returned in Hrun; destruct Hrun as (indexInfo & st2 & Hidx & Hrun).
apply bind_returned in Hrun; destruct Hrun as (foreignKeys & st3 & _ & Hrun).
injection Hrun as <- _; cbn.
split; [reflexivity|]; split; [discriminate|].
assert (Hlen : (List.length (column :: columns) <= 1000)%nat).
{ unfold DescribeTable.getColumnInfo, Monad.tryCatch in Hcols; cbv zeta in Hcols.
  unfold Monad.bind at 1 in Hcols.
  destruct (ConnectionManager.executeQuery validate execute _ _ _ _ st)
    as [[result|message|] st0] eqn:Hq; [| |discriminate].
  - injection Hcols as Hc _; rewrite <- Hc, length_map.
    exact (executeQuery_default_rows validate execute _ _ _ _ _ _ Hq).
  - destruct (_ || _); discriminate. }
split; [exact Hlen|].
unfold DescribeTable.getIndexInfo in Hidx; cbv zeta in Hidx.
apply bind_returned in Hidx; destruct Hidx as (result & st1' & _ & Hidx).
injection Hidx as <- _.
destruct (grouped_all stringToNumber numberToString bufferToString (rows result))
  as (Hd & Hkeys & Hentries & Hpk).
unfold DescribeTable.groupIndexes; cbv zeta; cbn [fst snd].
assert (Hprimary : forall index,
  In index (List.map DescribeTable.indexInfoOf
              (fst (fold_left
                      (DescribeTable.indexStep stringToNumber numberToString bufferToString)
                      (rows result) ([], [])))) ->
  DescribeTable.indexName index = "PRIMARY" ->
  DescribeTable.indexColumns index =
  snd (fold_left (DescribeTable.indexStep stringToNumber numberToString bufferToString)
         (rows result) ([], []))).
{ intros index Hin Hname; apply in_map_iff in Hin.
  destruct Hin as ([keyName entry] & <- & Hin); cbn in Hname |- *; subst keyName.
  destruct (Hentries _ _ Hin) as [Hc _]; now rewrite Hc, Hpk. }
split; [|split; [exact Hprimary|]].
- rewrite map_map; exact Hd.
- intros Hnone; rewrite Hpk.
  destruct (DescribeTable.rowsOf numberToString bufferToString "PRIMARY" (rows result))
    as [|row rest] eqn:Er; [reflexivity|].
  assert (Hin : In "PRIMARY"
                  (List.map fst
                     (fst (fold_left
                             (DescribeTable.indexStep stringToNumber numberToString
                                bufferToString)
                             (rows result) ([], [])))))
    by (apply Hkeys; rewrite Er; discriminate).
  apply in_map_iff in Hin; destruct Hin as ([keyName entry] & Hk & Hin).
  cbn in Hk; subst keyName.
  elim (Hnone (DescribeTable.indexInfoOf ("PRIMARY", entry))); [|reflexivity].
  apply in_map_iff; now exists ("PRIMARY", entry).
Qed.

Lemma describeTable_returned_witness :
exists output st',
  DescribeTable.describeTable QueryValidator.validate
    (fun _ sent _ =>
       if String.eqb sent "DESCRIBE `users`"
       then Answer [[("Field", JStr "id"); ("Type", JStr "int"); ("Null", JStr "NO");
                     ("Default", JNull)]] []
       else if String.eqb sent "SHOW INDEX FROM `users`"
       then Answer [[("Key_name", JStr "PRIMARY"); ("Column_name", JStr "id");
                     ("Non_unique", JNum 0)]] []
       else Answer [] [])
    (fun _ => None) JsString.ofZ string_of_list_ascii "users" None Sample.ready =
  (Monad.Returned output, st') /\
  DescribeTable.columns output <> [] /\
  DescribeTable.primaryKey output = ["id"].
Proof.
assert (Hrun : exists output st',
  DescribeTable.describeTable QueryValidator.validate
    (fun _ sent _ =>
       if String.eqb sent "DESCRIBE `users`"
       then Answer [[("Field", JStr "id"); ("Type", JStr "int"); ("Null", JStr "NO");
                     ("Default", JNull)]] []
       else if String.eqb sent "SHOW INDEX FROM `users`"
       then Answer [[("Key_name", JStr "PRIMARY"); ("Column_name", JStr "id");
                     ("Non_unique", JNum 0)]] []
       else Answer [] [])
    (fun _ => None) JsString.ofZ string_of_list_ascii "users" None Sample.ready =
  (Monad.Returned output, st') /\ DescribeTable.primaryKey output = ["id"])
  by (vm_compute; eauto).
destruct Hrun as (output & st' & Hrun & Hpk); exists output, st'.
split; [exact Hrun|].
destruct (describeTable_returned _ _ _ _ _ _ _ _ _ _ Hrun) as (_ & Hne & _).
split; assumption.
Defined.

(** ** [listTables] *)

(** X23.  A list [listTables] returns comes from the one statement SHOW
    TABLE STATUS, sent as it is written and without parameters; it holds at
    most 1000 tables under the name of the database asked for, and every
    table it calls a view has the engine [N/A]. *)
Theorem listTables_output
  (validate : string -> ValidationResult)
  (execute : Pool -> string -> list jsval -> Reply)
  (stringToNumber : string -> option Z)
  (numberToString : Z -> string) (bufferToString : list ascii -> string)
  (inputDatabase : option DatabaseType)
  (st st' : Monad.ManagerState) (output : ListTables.ListTablesOutput) :
ListTables.listTables validate execute stringToNumber numberToString bufferToString
  inputDatabase st = (Monad.Returned output, st') ->
ListTables.outputDatabase output =
  databaseName (match inputDatabase with
                | Some d => d
                | None => ListTables.DEFAULT_DATABASE
                end) /\
(List.length (ListTables.tables output) <= 1000)%nat /\
(forall info,
   In info (ListTables.tables output) ->
   ListTables.tableType info = ListTables.View -> ListTables.engine info = "N/A") /\
exists pool,
  Monad.pools st
    (match inputDatabase with Some d => d | None => ListTables.DEFAULT_DATABASE end) =
    Some pool /\
  st' = ConnectionManager.asked st (Execute pool "SHOW TABLE STATUS" []).
Proof.
unfold ListTables.listTables; cbv zeta; intros Hrun.
apply bind_returned in Hrun; destruct Hrun as (result & st1 & Hq & Hrun).
injection Hrun as <- <-; cbn [ListTables.outputDatabase ListTables.tables].
split; [reflexivity|]; split; [|split].
- rewrite length_map.
  exact (executeQuery_default_rows validate execute _ _ _ _ _ _ Hq).
- intros info Hin; apply in_map_iff in Hin; destruct Hin as (row & <- & _).
  unfold ListTables.tableInfoOf, ListTables.determineTableType, Convert.strOr; cbn.
  now destruct (ShowRelations.property "Engine" row).
- destruct (executeQuery_returned validate execute _ _ _ _ _ _ _ Hq)
    as (_ & pool & answerRows & answerFields & Hp & _ & _ & Hst).
  exists pool; split; [exact Hp | exact Hst].
Qed.

Lemma listTables_output_witness :
exists output st',
  ListTables.listTables QueryValidator.validate
    (fun _ _ _ => Answer [[("Name", JStr "users"); ("Engine", JStr "InnoDB");
                           ("Rows", JNum 12)];
                          [("Name", JStr "active_users"); ("Engine", JNull);
                           ("Rows", JNull)]] [])
    (fun _ => None) JsString.ofZ string_of_list_ascii None Sample.ready =
  (Monad.Returned output, st') /\
  List.map ListTables.engine (ListTables.tables output) = ["InnoDB"; "N/A"] /\
  (List.length (ListTables.tables output) <= 1000)%nat.
Proof.
assert (Hrun : exists output st',
  ListTables.listTables QueryValidator.validate
    (fun _ _ _ => Answer [[("Name", JStr "users"); ("Engine", JStr "InnoDB");
                           ("Rows", JNum 12)];
                          [("Name", JStr "active_users"); ("Engine", JNull);
                           ("Rows", JNull)]] [])
    (fun _ => None) JsString.ofZ string_of_list_ascii None Sample.ready =
  (Monad.Returned output, st') /\
  List.map ListTables.engine (ListTables.tables output) = ["InnoDB"; "N/A"])
  by (vm_compute; eauto).
destruct Hrun as (output & st' & Hrun & He); exists output, st'.
split; [exact Hrun|]; split; [exact He|].
destruct (listTables_output _ _ _ _ _ _ _ _ _ Hrun) as (_ & Hlen & _).
exact Hlen.
Defined.

(** ** [showRelations] *)

Section RelationsFacts.
Import Monad ConnectionManager.

Variable validate : string -> ValidationResult.
Variable execute : Pool -> string -> list jsval -> Reply.
Variable stringToNumber : string -> option Z.

(** The lookup of the relation type always returns and leaves the pools. *)
Lemma determineRelationType_returns database tableName columnName st :
  exists relationType st',
    ShowRelations.determineRelationType validate execute stringToNumber
      database tableName columnName st = (Returned relationType, st') /\
    pools st' = pools st.
Proof.
unfold ShowRelations.determineRelationType, tryCatch, bind.
pose proof (executeQuery_settles validate execute database ShowRelations.uniqueQuery
              [JStr tableName; JStr columnName] Undefined st) as Hsettle.
pose proof (executeQuery_pools validate execute database ShowRelations.uniqueQuery
              [JStr tableName; JStr columnName] Undefined st) as Hpools.
destruct (executeQuery validate execute database ShowRelations.uniqueQuery
            [JStr tableName; JStr columnName] Undefined st)
  as [[result|message|] st1]; cbn in Hsettle, Hpools; [| |now elim Hsettle].
- destruct (rows result) as [|row rest];
    (eexists _, _; split; [reflexivity | exact Hpools]).
- eexists _, _; split; [reflexivity | exact Hpools].
Qed.

Lemma forEach_returns {A B : Type} (f : A -> M B) (P : A -> B -> Prop) :
  (forall a st, exists b st', f a st = (Returned b, st') /\ pools st' = pools st /\ P a b) ->
  forall l st, exists bs st',
    Convert.forEach f l st = (Returned bs, st') /\ pools st' = pools st /\ Forall2 P l bs.
Proof.
intros Hf; induction l as [|a l IH]; intros st; cbn [Convert.forEach].
- exists [], st; repeat split; constructor.
- destruct (Hf a st) as (b & st1 & Hb & Hp1 & HP).
  destruct (IH st1) as (bs & st2 & Hbs & Hp2 & HPs).
  exists (b :: bs), st2; unfold bind; rewrite Hb, Hbs; cbn.
  split; [reflexivity|]; split; [congruence | now constructor].
Qed.

End RelationsFacts.

(** X24.  [showRelations] needs the two statements on the key usage only:
    when the driver answers both, the tool returns, whatever becomes of the
    lookups of the relation types.  It lists one relation for each of the
    first 1000 rows of either answer, in order, under the table the row
    names, and it carries the message exactly when both answers are
    empty. *)
Theorem showRelations_returns
  (validate : string -> ValidationResult)
  (execute : Pool -> string -> list jsval -> Reply)
  (stringToNumber : string -> option Z)
  (numberToString : Z -> string) (bufferToString : list ascii -> string)
  (tableName : string) (inputDatabase : option DatabaseType)
  (st : Monad.ManagerState) (pool : Pool)
  (outgoingRows incomingRows : list Row) (outgoingFields incomingFields : list FieldPacket) :
valid (validate ShowRelationsTool.outgoingQuery) = true ->
valid (validate ShowRelationsTool.incomingQuery) = true ->
Monad.pools st
  (match inputDatabase with Some d => d | None => ShowRelationsTool.DEFAULT_DATABASE end) =
  Some pool ->
execute pool (ConnectionManager.addLimitToQuery ShowRelationsTool.outgoingQuery (Fin 1001))
  [JStr tableName] = Answer outgoingRows outgoingFields ->
execute pool (ConnectionManager.addLimitToQuery ShowRelationsTool.incomingQuery (Fin 1001))
  [JStr tableName] = Answer incomingRows incomingFields ->
exists output st',
  ShowRelationsTool.showRelations validate execute stringToNumber numberToString
    bufferToString tableName inputDatabase st = (Monad.Returned output, st') /\
  ShowRelationsTool.outputTable output = tableName /\
  List.map ShowRelationsTool.relationTable (ShowRelationsTool.references output) =
    List.map (fun row =>
                Convert.strOr numberToString bufferToString EmptyString
                  (ShowRelations.property "referenced_table" row))
             (firstn 1000 outgoingRows) /\
  List.map ShowRelationsTool.relationTable (ShowRelationsTool.referencedBy output) =
    List.map (fun row =>
                Convert.strOr numberToString bufferToString EmptyString
                  (ShowRelations.property "source_table" row))
             (firstn 1000 incomingRows) /\
  (ShowRelationsTool.message output =
     Some ("No relationships found for table '" ++ tableName ++ "'") <->
   outgoingRows = [] /\ incomingRows = []) /\
  (ShowRelationsTool.message output = None <->
   outgoingRows <> [] \/ incomingRows <> []).
Proof.
intros Hvo Hvi Hp Ho Hi.
set (database :=
  match inputDatabase with Some d => d | None => ShowRelationsTool.DEFAULT_DATABASE end)
  in *.
unfold ShowRelationsTool.showRelations; cbv zeta; fold database.
(* the outgoing relations *)
assert (Hout : exists references st1,
  ShowRelationsTool.getOutgoingRelations validate execute stringToNumber numberToString
    bufferToString database tableName st = (Monad.Returned references, st1) /\
  Monad.pools st1 = Monad.pools st /\
  Forall2 (fun row relation =>
             ShowRelationsTool.relationTable relation =
             Convert.strOr numberToString bufferToString EmptyString
               (ShowRelations.property "referenced_table" row))
          (firstn 1000 outgoingRows) references).
{ unfold ShowRelationsTool.getOutgoingRelations, Monad.bind at 1.
  rewrite (executeQuery_accepted validate execute _ _ _ _ _ pool Hvo Hp); cbv zeta.
  change (ConnectionManager.effectiveLimitOf Undefined) with (Fin 1000).
  change (JsNumber.add (Fin 1000) (Fin 1)) with (Fin 1001); rewrite Ho.
  rewrite (shaped_firstn outgoingRows outgoingFields 1000) by lia.
  change (Z.to_nat 1000) with 1000%nat.
  match goal with
  | |- exists _ _, Convert.forEach ?f ?source ?s = _ /\ _ /\ Forall2 ?P _ _ =>
      assert (Hf : forall a st, exists b st',
                f a st = (Monad.Returned b, st') /\
                Monad.pools st' = Monad.pools st /\ P a b);
      [|destruct (forEach_returns f P Hf source s) as (bs & st1 & Hbs & Hp1 & HP)]
  end.
  - intros row st0; cbv zeta; unfold Monad.bind.
    destruct (determineRelationType_returns validate execute stringToNumber database
                tableName
                (Convert.strOr numberToString bufferToString EmptyString
                   (ShowRelations.property "column_name" row)) st0)
      as (relationType & st0' & -> & Hp0).
    eexists _, _; split; [reflexivity|]; split; [exact Hp0 | reflexivity].
  - exists bs, st1; split; [exact Hbs|]; split; [exact Hp1 | exact HP]. }
destruct Hout as (references & st1 & Hrun1 & Hp1 & HP1).
assert (Hp' : Monad.pools st1 database = Some pool) by now rewrite Hp1.
assert (Hin : exists referencedBy st2,
  ShowRelationsTool.getIncomingRelations validate execute stringToNumber numberToString
    bufferToString database tableName st1 = (Monad.Returned referencedBy, st2) /\
  Forall2 (fun row relation =>
             ShowRelationsTool.relationTable relation =
             Convert.strOr numberToString bufferToString EmptyString
               (ShowRelations.property "source_table" row))
          (firstn 1000 incomingRows) referencedBy).
{ unfold ShowRelationsTool.getIncomingRelations, Monad.bind at 1.
  rewrite (executeQuery_accepted validate execute _ _ _ _ _ pool Hvi Hp'); cbv zeta.
  change (ConnectionManager.effectiveLimitOf Undefined) with (Fin 1000).
  change (JsNumber.add (Fin 1000) (Fin 1)) with (Fin 1001); rewrite Hi.
  rewrite (shaped_firstn incomingRows incomingFields 1000) by lia.
  change (Z.to_nat 1000) with 1000%nat.
  match goal with
  | |- exists _ _, Convert.forEach ?f ?source ?s = _ /\ Forall2 ?P _ _ =>
      assert (Hf : forall a st, exists b st',
                f a st = (Monad.Returned b, st') /\
                Monad.pools st' = Monad.pools st /\ P a b);
      [|destruct (forEach_returns f P Hf source s) as (bs & st2 & Hbs & _ & HP)]
  end.
  - intros row st0; cbv zeta; unfold Monad.bind.
    destruct (determineRelationType_returns validate execute stringToNumber database
                (Convert.strOr numberToString bufferToString EmptyString
                   (ShowRelations.property "source_table" row))
                (Convert.strOr numberToString bufferToString EmptyString
                   (ShowRelations.property "source_column" row)) st0)
      as (relationType & st0' & -> & Hp0).
    eexists _, _; split; [reflexivity|]; split; [exact Hp0 | reflexivity].
  - exists bs, st2; split; [exact Hbs | exact HP]. }
destruct Hin as (referencedBy & st2 & Hrun2 & HP2).
unfold Monad.bind; rewrite Hrun1, Hrun2.
eexists _, _; split; [reflexivity|]; cbn.
assert (Hmap : forall (key : string) (source : list Row)
                      (relations : list ShowRelationsTool.RelationInfo),
  Forall2 (fun row relation =>
             ShowRelationsTool.relationTable relation =
             Convert.strOr numberToString bufferToString EmptyString
               (ShowRelations.property key row)) source relations ->
  List.map ShowRelationsTool.relationTable relations =
  List.map (fun row => Convert.strOr numberToString bufferToString EmptyString
                         (ShowRelations.property key row)) source).
{ intros key source relations H; induction H as [|row relation ? ? E _ IH];
    [reflexivity | cbn; now rewrite E, IH]. }
assert (Hempty : forall (P : Row -> ShowRelationsTool.RelationInfo -> Prop)
                        (source : list Row)
                        (relations : list ShowRelationsTool.RelationInfo),
  Forall2 P (firstn 1000 source) relations -> (relations = [] <-> source = [])).
{ intros P source relations H; split.
  - intros ->; inversion H as [E|]; destruct source; [reflexivity | discriminate].
  - intros ->; now inversion H. }
pose proof (Hempty _ _ _ HP1) as He1; pose proof (Hempty _ _ _ HP2) as He2.
split; [reflexivity|].
split; [exact (Hmap "referenced_table" _ _ HP1)|].
split; [exact (Hmap "source_table" _ _ HP2)|].
destruct referencedBy as [|r2 l2], references as [|r1 l1]; split; split;
  try discriminate; try reflexivity; intuition discriminate.
Qed.

Lemma showRelations_returns_witness :
exists output st',
  ShowRelationsTool.showRelations QueryValidator.validate
    (fun _ sent _ =>
       if JsString.includes "source_table" sent then Answer [] []
       else if JsString.includes "referenced_table" sent
       then Answer [[("constraint_name", JStr "fk_customer");
                     ("column_name", JStr "customer_id");
                     ("referenced_table", JStr "customers")]] []
       else Fails "ER_LOCK_WAIT_TIMEOUT")
    (fun _ => None) JsString.ofZ string_of_list_ascii "orders" None Sample.ready =
  (Monad.Returned output, st') /\
  List.map ShowRelationsTool.relationTable (ShowRelationsTool.references output) =
    ["customers"] /\
  ShowRelationsTool.referencedBy output = [].
Proof.
destruct (showRelations_returns QueryValidator.validate
  (fun _ sent _ =>
     if JsString.includes "source_table" sent then Answer [] []
     else if JsString.includes "referenced_table" sent
     then Answer [[("constraint_name", JStr "fk_customer");
                   ("column_name", JStr "customer_id");
                   ("referenced_table", JStr "customers")]] []
     else Fails "ER_LOCK_WAIT_TIMEOUT")
  (fun _ => None) JsString.ofZ string_of_list_ascii "orders" None Sample.ready
  (ConnectionManager.createPool Sample.config)
  [[("constraint_name", JStr "fk_customer"); ("column_name", JStr "customer_id");
    ("referenced_table", JStr "customers")]] [] [] []
  eq_refl eq_refl eq_refl eq_refl eq_refl)
  as (output & st' & Hrun & _ & Hrefs & Hby & _).
exists output, st'; split; [exact Hrun|]; split; [exact Hrefs|].
destruct (ShowRelationsTool.referencedBy output); [reflexivity | discriminate].
Defined.

(** X25.  [showRelations] never stays pending, and when the statement on
    the outgoing keys fails it throws the sanitized message of the driver
    after that one request: the incoming keys are not asked for. *)
Theorem showRelations_failures
  (validate : string -> ValidationResult)
  (execute : Pool -> string -> list jsval -> Reply)
  (stringToNumber : string -> option Z)
  (numberToString : Z -> string) (bufferToString : list ascii -> string)
  (tableName : string) (inputDatabase : option DatabaseType)
  (st : Monad.ManagerState) :
fst (ShowRelationsTool.showRelations validate execute stringToNumber numberToString
       bufferToString tableName inputDatabase st) <> Monad.Pending /\
forall pool message,
  valid (validate ShowRelationsTool.outgoingQuery) = true ->
  Monad.pools st
    (match inputDatabase with Some d => d | None => ShowRelationsTool.DEFAULT_DATABASE end) =
    Some pool ->
  execute pool (ConnectionManager.addLimitToQuery ShowRelationsTool.outgoingQuery (Fin 1001))
    [JStr tableName] = Fails message ->
  ShowRelationsTool.showRelations validate execute stringToNumber numberToString
    bufferToString tableName inputDatabase st =
  (Monad.Thrown (ConnectionManager.sanitizeMessage message),
   ConnectionManager.asked st
     (Execute pool (ConnectionManager.addLimitToQuery ShowRelationsTool.outgoingQuery (Fin 1001))
        [JStr tableName])).
Proof.
set (database :=
  match inputDatabase with Some d => d | None => ShowRelationsTool.DEFAULT_DATABASE end).
assert (Hlookups : forall (tableOf columnOf : Row -> string)
                          (build : Row -> ShowRelations.RelationType ->
                                   ShowRelationsTool.RelationInfo)
                          (source : list Row) (s : Monad.ManagerState),
  exists relations s',
    Convert.forEach
      (fun row =>
         Monad.bind
           (ShowRelations.determineRelationType validate execute stringToNumber database
              (tableOf row) (columnOf row))
           (fun relationType => Monad.ret (build row relationType)))
      source s = (Monad.Returned relations, s')).
{ intros tableOf columnOf build source s.
  destruct (forEach_returns
              (fun row =>
                 Monad.bind
                   (ShowRelations.determineRelationType validate execute stringToNumber
                      database (tableOf row) (columnOf row))
                   (fun relationType => Monad.ret (build row relationType)))
              (fun _ _ => True)) with (l := source) (st := s)
    as (relations & s' & Hr & _).
  - intros row s0; unfold Monad.bind.
    destruct (determineRelationType_returns validate execute stringToNumber database
                (tableOf row) (columnOf row) s0) as (relationType & s0' & -> & Hp0).
    eexists _, _; split; [reflexivity|]; split; [exact Hp0 | exact I].
  - now exists relations, s'. }
split.
- unfold ShowRelationsTool.showRelations; cbv zeta; fold database.
  unfold Monad.bind at 1.
  unfold ShowRelationsTool.getOutgoingRelations at 1; unfold Monad.bind at 1.
  pose proof (executeQuery_settles validate execute database
                ShowRelationsTool.outgoingQuery [JStr tableName] Undefined st) as Hs1.
  destruct (ConnectionManager.executeQuery validate execute database
              ShowRelationsTool.outgoingQuery [JStr tableName] Undefined st)
    as [[result1|message1|] st1]; [|discriminate|now elim Hs1].
  cbv zeta.
  destruct (Hlookups (fun _ => tableName)
              (fun row => Convert.strOr numberToString bufferToString EmptyString
                            (ShowRelations.property "column_name" row))
              (fun row relationType =>
                 {| ShowRelationsTool.relationTable :=
                      Convert.strOr numberToString bufferToString EmptyString
                        (ShowRelations.property "referenced_table" row);
                    ShowRelationsTool.relationColumn :=
                      Convert.strOr numberToString bufferToString EmptyString
                        (ShowRelations.property "column_name" row);
                    ShowRelationsTool.foreignKey :=
                      Convert.strOr numberToString bufferToString EmptyString
                        (ShowRelations.property "constraint_name" row);
                    ShowRelationsTool.relationType := relationType |})
              (rows result1) st1) as (references & st2 & Hr1).
  rewrite Hr1.
  unfold Monad.bind at 1.
  unfold ShowRelationsTool.getIncomingRelations at 1; unfold Monad.bind at 1.
  pose proof (executeQuery_settles validate execute database
                ShowRelationsTool.incomingQuery [JStr tableName] Undefined st2) as Hs2.
  destruct (ConnectionManager.executeQuery validate execute database
              ShowRelationsTool.incomingQuery [JStr tableName] Undefined st2)
    as [[result2|message2|] st3]; [|discriminate|now elim Hs2].
  cbv zeta.
  destruct (Hlookups
              (fun row => Convert.strOr numberToString bufferToString EmptyString
                            (ShowRelations.property "source_table" row))
              (fun row => Convert.strOr numberToString bufferToString EmptyString
                            (ShowRelations.property "source_column" row))
              (fun row relationType =>
                 {| ShowRelationsTool.relationTable :=
                      Convert.strOr numberToString bufferToString EmptyString
                        (ShowRelations.property "source_table" row);
                    ShowRelationsTool.relationColumn :=
                      Convert.strOr numberToString bufferToString EmptyString
                        (ShowRelations.property "source_column" row);
                    ShowRelationsTool.foreignKey :=
                      Convert.strOr numberToString bufferToString EmptyString
                        (ShowRelations.property "constraint_name" row);
                    ShowRelationsTool.relationType := relationType |})
              (rows result2) st3) as (referencedBy & st4 & Hr2).
  rewrite Hr2; discriminate.
- intros pool message Hv Hp He.
  unfold ShowRelationsTool.showRelations; cbv zeta; fold database.
  unfold Monad.bind at 1.
  unfold ShowRelationsTool.getOutgoingRelations; unfold Monad.bind at 1.
  rewrite (executeQuery_accepted validate execute _ _ _ _ _ pool Hv Hp); cbv zeta.
  change (JsNumber.add (ConnectionManager.effectiveLimitOf Undefined) (Fin 1)) with (Fin 1001).
  now rewrite He.
Qed.

Lemma showRelations_failures_witness :
ShowRelationsTool.showRelations QueryValidator.validate
  (fun _ _ _ => Fails "connect ECONNRESET password=hunter2")
  (fun _ => None) JsString.ofZ string_of_list_ascii "orders" None Sample.ready =
(Monad.Thrown "connect ECONNRESET [REDACTED]",
 ConnectionManager.asked Sample.ready
   (Execute (ConnectionManager.createPool Sample.config)
      (ConnectionManager.addLimitToQuery ShowRelationsTool.outgoingQuery (Fin 1001))
      [JStr "orders"])).
Proof.
destruct (showRelations_failures QueryValidator.validate
  (fun _ _ _ => Fails "connect ECONNRESET password=hunter2")
  (fun _ => None) JsString.ofZ string_of_list_ascii "orders" None Sample.ready) as [_ H].
exact (H (ConnectionManager.createPool Sample.config)
         "connect ECONNRESET password=hunter2" eq_refl eq_refl eq_refl).
Defined.

(** ** One statement for a preview *)

Section SingleStatement.
Import JsString PreviewData.

Lemma join_occurs (c : ascii) (sep : string) (parts : list string) :
  occurs c (join sep parts) ->
  occurs c sep \/ exists part, In part parts /\ occurs c part.
Proof.
induction parts as [|p [|q rest] IH]; cbn [join].
- intros [].
- intros H; right; exists p; split; [now left | exact H].
- intros H; apply occurs_append in H; destruct H as [H|H].
  + right; exists p; split; [now left | exact H].
  + apply occurs_append in H; destruct H as [H|H]; [now left|].
    destruct (IH H) as [Hs|(part & Hin & Hc)]; [now left|].
    right; exists part; split; [now right | exact Hc].
Qed.

Lemma includes_char (c : ascii) (s : string) :
  includes (String c EmptyString) s = true <-> occurs c s.
Proof.
induction s as [|d s IH]; cbn [occurs includes].
- split; [discriminate | tauto].
- rewrite prefix_cons, orb_true_iff, IH, andb_true_iff, Ascii.eqb_eq.
  assert (Hp : String.prefix EmptyString s = true) by now destruct s.
  split; [intros [[-> _]|H]; tauto | intros [->|H]; tauto].
Qed.

Lemma string_of_uint_digits (d : Decimal.uint) (c : ascii) :
  occurs c (NilEmpty.string_of_uint d) -> isDigit c = true.
Proof.
induction d as [|d IH|d IH|d IH|d IH|d IH|d IH|d IH|d IH|d IH|d IH];
  cbn [NilEmpty.string_of_uint occurs]; try tauto;
  (intros [<-|H]; [reflexivity | exact (IH H)]).
Qed.

(** The digits of a number, with a minus sign in front when it is negative. *)
Lemma ofZ_chars (n : Z) (c : ascii) :
  occurs c (ofZ n) -> isDigit c = true \/ c = "-"%char.
Proof.
assert (Hu : forall d, occurs c (NilZero.string_of_uint d) -> isDigit c = true).
{ intros d; unfold NilZero.string_of_uint; destruct d;
    try apply string_of_uint_digits.
  cbn; intros [<-|[]]; reflexivity. }
unfold ofZ, NilZero.string_of_int; destruct (Z.to_int n) as [d|d].
- intros H; left; exact (Hu d H).
- cbn [occurs]; intros [<-|H]; [now right | left; exact (Hu d H)].
Qed.

(** No number prints with a semicolon. *)
Lemma toString_no_semicolon (n : jsnum) : ~ occurs ";"%char (JsNumber.toString n).
Proof.
destruct n as [| | |z]; cbn [JsNumber.toString].
- cbn; intuition discriminate.
- cbn; intuition discriminate.
- cbn; intuition discriminate.
- intros H; apply ofZ_chars in H; destruct H as [H|H]; discriminate.
Qed.

End SingleStatement.

(** X26.  The query of a preview holds no semicolon, whatever the table, the
    columns, the limit and the WHERE clause of the input are: a preview is
    one statement. *)
Theorem previewQuery_single_statement (input : PreviewData.PreviewDataInput) :
JsString.includes ";" (PreviewData.previewQuery input) = false.
Proof.
destruct (JsString.includes ";" (PreviewData.previewQuery input)) eqn:Hsemi;
  [exfalso | reflexivity].
apply includes_char in Hsemi; revert Hsemi.
assert (Hid : forall identifier,
          ~ JsString.occurs ";"%char (PreviewData.quoteIdentifier identifier)).
{ intros identifier H; unfold PreviewData.quoteIdentifier in H.
  apply occurs_append in H; destruct H as [H|H]; [cbn in H; intuition discriminate|].
  apply occurs_append in H; destruct H as [H|H]; [|cbn in H; intuition discriminate].
  apply escapeSqlIdentifier_occurs in H; destruct H as [_ H]; discriminate. }
unfold PreviewData.previewQuery; cbv zeta; intros H.
apply occurs_append in H; destruct H as [H|H].
- assert (Hselect : ~ JsString.occurs ";"%char
                      ("SELECT " ++ PreviewData.buildColumnList (PreviewData.columns input) ++
                       " FROM " ++ PreviewData.quoteIdentifier (PreviewData.table input))).
  { intros Hs; apply occurs_append in Hs; destruct Hs as [Hs|Hs];
      [cbn in Hs; intuition discriminate|].
    apply occurs_append in Hs; destruct Hs as [Hs|Hs].
    - unfold PreviewData.buildColumnList in Hs.
      destruct (PreviewData.columns input) as [[|col cols]|];
        try (cbn in Hs; intuition discriminate).
      apply join_occurs in Hs; destruct Hs as [Hs|(part & Hin & Hs)];
        [cbn in Hs; intuition discriminate|].
      apply in_map_iff in Hin; destruct Hin as (identifier & <- & _).
      exact (Hid identifier Hs).
    - apply occurs_append in Hs; destruct Hs as [Hs|Hs];
        [cbn in Hs; intuition discriminate | exact (Hid _ Hs)]. }
  destruct (PreviewData.sanitizeWhereClause (PreviewData.where_ input))
    as [[|c w]|] eqn:E; try exact (Hselect H).
  apply occurs_append in H; destruct H as [H|H]; [exact (Hselect H)|].
  apply occurs_append in H; destruct H as [H|H]; [cbn in H; intuition discriminate|].
  exact (sanitizeWhereClause_clean _ _ E H).
- apply occurs_append in H; destruct H as [H|H]; [cbn in H; intuition discriminate|].
  exact (toString_no_semicolon _ H).
Qed.

(** ** The limit enforcers, composed *)

(** X27.  For a request that is absent or a number other than NaN,
    enforcing an enforced limit changes nothing, for the limit of
    [runQuery] and for that of [previewData], and the enforced limit of a
    preview is never above that of a query.  From 1 on a larger request
    never gets a smaller limit. *)
Theorem enforce_limits_compose (requested : optnum) (a b : jsnum) :
requested <> Num NaN ->
RunQuery.enforceQueryLimit (Num (RunQuery.enforceQueryLimit requested)) =
  RunQuery.enforceQueryLimit requested /\
PreviewData.enforceRowLimit (Num (PreviewData.enforceRowLimit requested)) =
  PreviewData.enforceRowLimit requested /\
JsNumber.leb (PreviewData.enforceRowLimit requested)
  (RunQuery.enforceQueryLimit requested) = true /\
(JsNumber.leb (Fin 1) a = true -> JsNumber.leb a b = true ->
 JsNumber.leb (RunQuery.enforceQueryLimit (Num a))
   (RunQuery.enforceQueryLimit (Num b)) = true /\
 JsNumber.leb (PreviewData.enforceRowLimit (Num a))
   (PreviewData.enforceRowLimit (Num b)) = true).
Proof.
intros Hnan.
unfold RunQuery.enforceQueryLimit, PreviewData.enforceRowLimit,
  LIMITS.QUERY_DEFAULT, LIMITS.QUERY_MAX, LIMITS.PREVIEW_DEFAULT, LIMITS.PREVIEW_MAX.
split; [|split; [|split; [|intros H1 Hab]]].
- destruct requested as [| | [| | |z]]; try (now elim Hnan); try reflexivity.
  cbn [JsNumber.ltb JsNumber.gtb].
  destruct (Z.ltb_spec z 1); [reflexivity|].
  destruct (Z.ltb_spec 5000 z); [reflexivity|].
  cbn [JsNumber.ltb JsNumber.gtb].
  destruct (Z.ltb_spec z 1); [lia|].
  destruct (Z.ltb_spec 5000 z); [lia | reflexivity].
- destruct requested as [| | [| | |z]]; try (now elim Hnan); try reflexivity.
  cbn [JsNumber.ltb JsNumber.gtb].
  destruct (Z.ltb_spec z 1); [reflexivity|].
  destruct (Z.ltb_spec 100 z); [reflexivity|].
  cbn [JsNumber.ltb JsNumber.gtb].
  destruct (Z.ltb_spec z 1); [lia|].
  destruct (Z.ltb_spec 100 z); [lia | reflexivity].
- destruct requested as [| | [| | |z]]; try (now elim Hnan); try reflexivity.
  cbn [JsNumber.ltb JsNumber.gtb].
  destruct (Z.ltb_spec z 1); [reflexivity|].
  destruct (Z.ltb_spec 100 z), (Z.ltb_spec 5000 z);
    cbn [JsNumber.leb]; apply Z.leb_le; lia.
- destruct a as [| | |x]; try discriminate H1;
    destruct b as [| | |y]; try discriminate Hab;
    cbn [JsNumber.leb] in H1, Hab; cbn [JsNumber.ltb JsNumber.gtb];
    try (apply Z.leb_le in H1); try (apply Z.leb_le in Hab).
  + split; reflexivity.
  + destruct (Z.ltb_spec x 1); [lia|].
    destruct (Z.ltb_spec 5000 x), (Z.ltb_spec 100 x);
      cbn [JsNumber.leb]; split; apply Z.leb_le; lia.
  + destruct (Z.ltb_spec x 1); [lia|].
    destruct (Z.ltb_spec y 1); [lia|].
    destruct (Z.ltb_spec 5000 x), (Z.ltb_spec 5000 y),
             (Z.ltb_spec 100 x), (Z.ltb_spec 100 y);
      cbn [JsNumber.leb]; split; apply Z.leb_le; lia.
Qed.

Lemma enforce_limits_compose_witness :
JsNumber.leb (RunQuery.enforceQueryLimit (Num (Fin 7)))
  (RunQuery.enforceQueryLimit (Num PosInf)) = true /\
JsNumber.leb (PreviewData.enforceRowLimit (Num (Fin 7)))
  (PreviewData.enforceRowLimit (Num PosInf)) = true.
Proof.
destruct (enforce_limits_compose Undefined (Fin 7) PosInf) as (_ & _ & _ & H);
  [discriminate|].
apply H; reflexivity.
Defined.

(** ** The check of the columns of a preview *)

Section ColumnCheck.
Import PreviewChecks.

Lemma columns_checked (source : list Row) (specifiedColumns : list string) :
  rowsContainOnlySpecifiedColumns source specifiedColumns = true <->
  forall row key,
    In row source -> In key (keys row) ->
    exists col, In col specifiedColumns /\ toLowerCase col = toLowerCase key.
Proof.
assert (Hall : List.forallb
                 (fun row =>
                    List.forallb
                      (fun col =>
                         List.existsb (String.eqb (toLowerCase col))
                           (List.map toLowerCase specifiedColumns))
                      (keys row)) source = true <->
               forall row key,
                 In row source -> In key (keys row) ->
                 exists col, In col specifiedColumns /\ toLowerCase col = toLowerCase key).
{ rewrite forallb_forall; split.
  - intros H row key Hrow Hkey; specialize (H row Hrow).
    rewrite forallb_forall in H; specialize (H key Hkey).
    apply existsb_exists in H; destruct H as (lowered & Hin & E).
    apply in_map_iff in Hin; destruct Hin as (col & <- & Hcol).
    apply String.eqb_eq in E; now exists col.
  - intros H row Hrow; apply forallb_forall; intros key Hkey.
    destruct (H row key Hrow Hkey) as (col & Hcol & E).
    apply existsb_exists; exists (toLowerCase col); split.
    + apply in_map_iff; now exists col.
    + apply String.eqb_eq; now rewrite E. }
unfold rowsContainOnlySpecifiedColumns; destruct source as [|row source]; [|exact Hall].
split; [intros _ row key [] | reflexivity].
Qed.

End ColumnCheck.

(** X28.  [rowsContainOnlySpecifiedColumns] accepts rows exactly when every
    key of every row is one of the specified columns up to the case of the
    letters, and its verdict on the rows of a preview is its verdict on the
    rows the manager returned: truncating the cells keeps the keys. *)
Theorem rowsContainOnlySpecifiedColumns_spec
  (source : list Row) (specifiedColumns : list string) :
(PreviewChecks.rowsContainOnlySpecifiedColumns source specifiedColumns = true <->
 forall row key,
   In row source -> In key (PreviewChecks.keys row) ->
   exists col,
     In col specifiedColumns /\
     PreviewChecks.toLowerCase col = PreviewChecks.toLowerCase key) /\
PreviewChecks.rowsContainOnlySpecifiedColumns
  (List.map (List.map (fun cell => (fst cell, PreviewData.truncateText (snd cell)))) source)
  specifiedColumns =
PreviewChecks.rowsContainOnlySpecifiedColumns source specifiedColumns.
Proof.
split; [apply columns_checked|].
assert (Hkeys : forall row : Row,
  PreviewChecks.keys
    (List.map (fun cell => (fst cell, PreviewData.truncateText (snd cell))) row) =
  PreviewChecks.keys row).
{ intros row; unfold PreviewChecks.keys; rewrite map_map; now apply map_ext. }
unfold PreviewChecks.rowsContainOnlySpecifiedColumns.
destruct source as [|row source]; [reflexivity|].
cbn [List.map]; cbv zeta; cbn [forallb]; rewrite Hkeys; f_equal.
induction source as [|row' source IH]; [reflexivity|].
cbn [List.map forallb]; now rewrite Hkeys, IH.
Qed.

(** ** The relationship classifier *)

(** X29.  [determineRelationType] always returns, and returns one of the two
    relation types; it returns one-to-many whenever the query for the
    unique indexes fails, whatever the failure, and whenever the answer
    holds no row. *)
Theorem determineRelationType_total
  (validate : string -> ValidationResult)
  (execute : Pool -> string -> list jsval -> Reply)
  (stringToNumber : string -> option Z)
  (database : DatabaseType) (tableName columnName : string)
  (st : Monad.ManagerState) :
exists relation st',
  ShowRelations.determineRelationType validate execute stringToNumber
    database tableName columnName st = (Monad.Returned relation, st') /\
  (relation = ShowRelations.OneToOne \/ relation = ShowRelations.OneToMany) /\
  (forall message st'',
     ConnectionManager.executeQuery validate execute database ShowRelations.uniqueQuery
       [JStr tableName; JStr columnName] Undefined st = (Monad.Thrown message, st'') ->
     relation = ShowRelations.OneToMany) /\
  (forall result st'',
     ConnectionManager.executeQuery validate execute database ShowRelations.uniqueQuery
       [JStr tableName; JStr columnName] Undefined st = (Monad.Returned result, st'') ->
     rows result = [] -> relation = ShowRelations.OneToMany) /\
  snd (ConnectionManager.executeQuery validate execute database ShowRelations.uniqueQuery
         [JStr tableName; JStr columnName] Undefined st) = st'.
Proof.
unfold ShowRelations.determineRelationType, Monad.tryCatch, Monad.bind.
pose proof (executeQuery_settles validate execute database ShowRelations.uniqueQuery
              [JStr tableName; JStr columnName] Undefined st) as Hsettle.
destruct (ConnectionManager.executeQuery validate execute database
            ShowRelations.uniqueQuery [JStr tableName; JStr columnName] Undefined st)
  as [[result|message|] st1] eqn:Hrun; [| |now elim Hsettle].
- destruct (rows result) as [|row rest] eqn:Hrows.
  + exists ShowRelations.OneToMany, st1.
    split; [reflexivity|]; split; [now right|]; split; [discriminate|].
    split; reflexivity.
  + eexists; exists st1; split; [reflexivity|]; split; [|split; [|split]].
    * destruct (ShowRelations.positive _); auto.
    * discriminate.
    * intros result' st'' [= <- _] Hempty; rewrite Hempty in Hrows; discriminate.
    * reflexivity.
- exists ShowRelations.OneToMany, st1.
  split; [reflexivity|]; split; [now right|]; split; [reflexivity|].
  split; reflexivity.
Qed.

(** X30.  Over a server that answers the statement it is sent from the view
    of the indexes, [determineRelationType] asks once, with the statement of
    the classifier under the default limit of the manager and the table and
    the column as its parameters, and returns one-to-one exactly when the
    column is one of the columns of some unique index of the table, be it
    the only column of the index or one of several. *)
Theorem determineRelationType_catalog
  (validate : string -> ValidationResult)
  (stringToNumber : string -> option Z)
  (statistics : list Catalog.StatisticsRow)
  (database : DatabaseType) (tableName columnName : string)
  (st : Monad.ManagerState) (pool : Pool) :
valid (validate ShowRelations.uniqueQuery) = true ->
Monad.pools st database = Some pool ->
exists relation,
  ShowRelations.determineRelationType validate (Catalog.server statistics) stringToNumber
    database tableName columnName st =
  (Monad.Returned relation,
   ConnectionManager.asked st
     (Execute pool
        (ConnectionManager.addLimitToQuery ShowRelations.uniqueQuery (Fin 1001))
        [JStr tableName; JStr columnName])) /\
  (relation = ShowRelations.OneToOne <->
   Catalog.inUniqueIndex statistics tableName columnName).
Proof.
intros Hv Hp.
unfold ShowRelations.determineRelationType, Monad.tryCatch, Monad.bind.
rewrite (executeQuery_accepted validate (Catalog.server statistics) _ _ _ _ _ pool Hv Hp).
cbv zeta.
change (JsNumber.add (ConnectionManager.effectiveLimitOf Undefined) (Fin 1)) with (Fin 1001).
rewrite uniqueQuery_answer.
change (ConnectionManager.effectiveLimitOf Undefined) with (Fin 1000).
pose proof (filter_nonempty_iff statistics tableName columnName) as Hiff.
set (n := Z.of_nat _) in *.
change (rows (ConnectionManager.shaped [[("unique_count", JNum n)]] [] (Fin 1000)))
  with [[("unique_count", JNum n)]].
cbn [ShowRelations.property]; rewrite String.eqb_refl.
assert (Hn : ShowRelations.toNumber stringToNumber (ShowRelations.orZero (JNum n)) = Some n)
  by (unfold ShowRelations.orZero; destruct n; reflexivity).
rewrite Hn; cbn [ShowRelations.positive].
eexists; split; [reflexivity|].
rewrite <- Hiff.
destruct (Z.ltb_spec 0 n); split; auto; try discriminate; lia.
Qed.

(** In the schema of orders the user of a profile is unique and the product
    of a line of an order is not, though it is the second column of the
    primary key. *)
Lemma determineRelationType_catalog_witness :
exists relation,
  ShowRelations.determineRelationType QueryValidator.validate
    (Catalog.server Sample.shopIndexes) Sample.noNumber crm "profiles" "user_id"
    Sample.ready =
  (Monad.Returned relation,
   ConnectionManager.asked Sample.ready
     (Execute (ConnectionManager.createPool Sample.config)
        (ConnectionManager.addLimitToQuery ShowRelations.uniqueQuery (Fin 1001))
        [JStr "profiles"; JStr "user_id"])) /\
  (relation = ShowRelations.OneToOne <->
   Catalog.inUniqueIndex Sample.shopIndexes "profiles" "user_id").
Proof.
apply (determineRelationType_catalog QueryValidator.validate Sample.noNumber
         Sample.shopIndexes crm "profiles" "user_id" Sample.ready
         (ConnectionManager.createPool Sample.config)); reflexivity.
Defined.
